(** * Portfolio data processor: aggregation, valuation and time series

    A shallow embedding of the data-processing core of the portfolio
    dashboard (lib/data-processor: [processPortfolioData],
    [mergeTimeSeriesData], [processHoldings], [processTimeSeriesData]) and of
    the valuation code of the Open Deposits, Current Holdings and Measures
    components, with the properties the specification states about them.
    Further properties of the same code follow them, with the tables and
    charts that read its results: the Closed Positions, Closed Deposits
    and Fixed Income tables, the performance chart, the top and bottom
    performers and the sector allocation.

    Conventions of the embedding.
    - A JavaScript [number] is an IEEE 754 binary64 value: Rocq's primitive
      [float].  [+], [-], [*], [/], [<], [===] on numbers are the primitive
      operations, so every concrete evaluation below is the value the
      program computes, rounding included.
    - A [Map] is an association list in insertion order with the semantics
      of [Map.prototype.set/get/has/delete]; arrays are lists.
    - Rows have the fields the TypeScript interfaces declare, with the
      types declared there.  A numeric cell of a transaction that is blank
      or missing is the number NaN: the code reads these cells through
      [Number(x) || 0], which gives 0 for a blank as for NaN.  A quote's
      [Close] is a number.  The [Account] cell keeps its dynamic type,
      because the parser's [dynamicTyping] can deliver a number there and
      [t.Account?.trim()] then raises.  A [Symbol] is a text, as
      declared: where the parser delivers a number for it (a symbol
      written in digits only), the code that calls string methods on it
      (the Fixed Income Value measure) raises, and nothing is stated here
      about such rows.  Of a transaction only the columns the code reads
      are kept.
    - A string is the sequence of the UTF-8 bytes of its text.
    - The host environment ([Date] parsing and printing, [Error.stack],
      the CSV parser) is a parameter of the sections that need it; a
      concrete ISO-8601 calendar is defined for the closed examples.
    - [console.log], [console.warn] and [console.error] calls are left
      out: nothing reads what they print. *)

From Stdlib Require Import List String Ascii ZArith Bool Lia DecimalString.
From Stdlib Require Import Floats Sorted Permutation.
Import ListNotations.

Local Open Scope string_scope.
Local Open Scope list_scope.

(** ** JavaScript numbers *)

Module JSNum.

Definition number := float.
Bind Scope float_scope with number.

(** [ToBoolean] on a number: false for [+0], [-0] and NaN. *)
Definition truthy (x : number) : bool :=
  negb (PrimFloat.eqb x 0%float) && negb (PrimFloat.is_nan x).

(** [x || d] on numbers. *)
Definition orElse (x d : number) : number := if truthy x then x else d.

(** [Number(x) || 0] and [x || 0] for a numeric cell. *)
Definition orZero (x : number) : number := orElse x 0%float.

(** [x > y], [x < y], [x === y], [x !== y]. *)
Definition gt (x y : number) : bool := PrimFloat.ltb y x.
Definition lt (x y : number) : bool := PrimFloat.ltb x y.
Definition seq (x y : number) : bool := PrimFloat.eqb x y.
Definition sne (x y : number) : bool := negb (PrimFloat.eqb x y).

(** The literal [0.0001]: the binary64 value nearest to it. *)
Definition EPS : number := 0x1.a36e2eb1c432dp-14%float.

(** [numbers.reduce((s, x) => s + x, 0)]. *)
Definition sum (xs : list number) : number :=
  fold_left PrimFloat.add xs 0%float.

(** [rows.reduce((s, r) => s + f(r), 0)]. *)
Definition sumOf {A} (f : A -> number) (rows : list A) : number :=
  fold_left (fun s r => PrimFloat.add s (f r)) rows 0%float.

End JSNum.


(** ** Strings and arrays of strings *)

Module JSStr.

(** [ToBoolean] on a string. *)
Definition truthy (s : string) : bool := negb (s =? "").

(** [s || d] on strings. *)
Definition orElse (s d : string) : string := if truthy s then s else d.

(** White space: the WhiteSpace and LineTerminator code points, which
    [String.prototype.trim] removes.  A string is here the sequence of the
    UTF-8 bytes of the text, so a white-space character is one byte
    (U+0009 to U+000D, U+0020), two (U+00A0: C2 A0) or three (U+1680:
    E1 9A 80; U+2000 to U+200A, U+2028, U+2029, U+202F: E2 80 followed by
    80 to 8A, A8, A9, AF; U+205F: E2 81 9F; U+3000: E3 80 80; U+FEFF:
    EF BB BF). *)
Definition isSpace (c : ascii) : bool :=
  let n := nat_of_ascii c in ((9 <=? n) && (n <=? 13))%nat || (n =? 32)%nat.

Definition isSpace2 (a b : ascii) : bool :=
  ((nat_of_ascii a =? 194) && (nat_of_ascii b =? 160))%nat.

Definition isSpace3 (a b c : ascii) : bool :=
  let x := nat_of_ascii a in
  let y := nat_of_ascii b in
  let z := nat_of_ascii c in
  (((x =? 225) && (y =? 154) && (z =? 128))
   || ((x =? 226) && (y =? 128)
       && (((128 <=? z) && (z <=? 138)) || (z =? 168) || (z =? 169)
           || (z =? 175)))
   || ((x =? 226) && (y =? 129) && (z =? 159))
   || ((x =? 227) && (y =? 128) && (z =? 128))
   || ((x =? 239) && (y =? 187) && (z =? 191)))%nat.

Fixpoint trimStart (s : string) : string :=
  match s with
  | EmptyString => EmptyString
  | String a s1 =>
      if isSpace a then trimStart s1
      else
        match s1 with
        | EmptyString => s
        | String b s2 =>
            if isSpace2 a b then trimStart s2
            else
              match s2 with
              | EmptyString => s
              | String c s3 => if isSpace3 a b c then trimStart s3 else s
              end
        end
  end.

(** The rest of a string after the white-space character it starts
    with, when it starts with one. *)
Definition afterSpace (s : string) : option string :=
  match s with
  | EmptyString => None
  | String a s1 =>
      if isSpace a then Some s1
      else
        match s1 with
        | EmptyString => None
        | String b s2 =>
            if isSpace2 a b then Some s2
            else
              match s2 with
              | EmptyString => None
              | String c s3 => if isSpace3 a b c then Some s3 else None
              end
        end
  end.

(** The string is white space throughout. *)
Definition isBlank (s : string) : bool := trimStart s =? "".

(** [trimEnd]: the string is cut at the first place from which it is
    white space throughout.  (No white-space character starts inside
    another character: the bytes that continue a character are 80 to BF,
    and none of them starts a white-space character.) *)
Fixpoint trimEnd (s : string) : string :=
  match s with
  | EmptyString => EmptyString
  | String c s' => if isBlank s then EmptyString else String c (trimEnd s')
  end.

Definition trim (s : string) : string := trimEnd (trimStart s).

(** [s.split(c)] for a one-character separator, and [s.split(/[/-]/)]:
    [sep] tells the separator characters. *)
Fixpoint splitBy (sep : ascii -> bool) (s : string) : list string :=
  match s with
  | EmptyString => [EmptyString]
  | String c s' =>
      if sep c then EmptyString :: splitBy sep s'
      else match splitBy sep s' with
           | p :: ps => String c p :: ps
           | [] => [String c EmptyString]
           end
  end.

Definition split (c : ascii) (s : string) : list string :=
  splitBy (Ascii.eqb c) s.

(** [s.padStart(2, "0")]. *)
Definition padStart2 (s : string) : string :=
  match String.length s with
  | O => ("00" ++ s)%string
  | S O => ("0" ++ s)%string
  | _ => s
  end.

(** [s.includes(c)] for a character [c]. *)
Fixpoint contains (c : ascii) (s : string) : bool :=
  match s with
  | EmptyString => false
  | String c' s' => Ascii.eqb c' c || contains c s'
  end.

(** [s.startsWith(p)]. *)
Definition startsWith (s p : string) : bool := String.prefix p s.

(** [xs.includes(s)]. *)
Definition includes (xs : list string) (s : string) : bool :=
  existsb (String.eqb s) xs.

(** [new Set(xs)] followed by [Array.from]: first occurrences, in order. *)
Fixpoint setAdd (seen : list string) (s : string) : list string :=
  match seen with
  | [] => [s]
  | x :: seen' => if x =? s then seen else x :: setAdd seen' s
  end.

Definition setOf (xs : list string) : list string := fold_left setAdd xs [].

(** [xs.sort()] without a comparator: ascending order of code units (of
    bytes, in this embedding); the order of equal strings cannot be
    observed. *)
Fixpoint insertSorted (s : string) (xs : list string) : list string :=
  match xs with
  | [] => [s]
  | x :: xs' => if String.leb s x then s :: xs else x :: insertSorted s xs'
  end.

Definition sort (xs : list string) : list string :=
  fold_right insertSorted [] xs.

End JSStr.

(** ** [Map] with string keys, in insertion order *)

Module JSMap.

Definition t (V : Type) : Type := list (string * V).

Fixpoint get {V} (m : t V) (k : string) : option V :=
  match m with
  | [] => None
  | (k', v) :: m' => if k' =? k then Some v else get m' k
  end.

Definition has {V} (m : t V) (k : string) : bool :=
  match get m k with Some _ => true | None => false end.

(** [m.set(k, v)]: an existing key keeps its place. *)
Fixpoint set {V} (m : t V) (k : string) (v : V) : t V :=
  match m with
  | [] => [(k, v)]
  | (k', v') :: m' =>
      if k' =? k then (k', v) :: m' else (k', v') :: set m' k v
  end.

Fixpoint delete {V} (m : t V) (k : string) : t V :=
  match m with
  | [] => []
  | (k', v') :: m' => if k' =? k then m' else (k', v') :: delete m' k
  end.

Definition keys {V} (m : t V) : list string := map fst m.
Definition values {V} (m : t V) : list V := map snd m.

End JSMap.


(** ** Arrays: grouping into a [Map] of arrays, sorting with a comparator *)

Module JSArr.

(** [if (!m.has(k)) m.set(k, []); m.get(k).push(x)]. *)
Definition pushTo {A} (m : JSMap.t (list A)) (k : string) (x : A)
  : JSMap.t (list A) :=
  match JSMap.get m k with
  | None => JSMap.set m k [x]
  | Some g => JSMap.set m k (g ++ [x])
  end.

(** [xs.forEach(x => pushTo(m, key(x), x))] from an empty [Map]. *)
Definition groupBy {A} (key : A -> string) (xs : list A)
  : JSMap.t (list A) :=
  fold_left (fun m x => pushTo m (key x) x) xs [].

(** [xs.sort((a, b) => cmp(a, b))] for a comparator whose numeric result
    is summarised by its sign; a NaN result counts as [Eq], as
    [Array.prototype.sort] prescribes.  The sort is stable: this is the
    insertion of each element after the elements that are not greater.
    (For a comparator that is not a consistent order, which only a NaN
    result can cause here, the order an engine produces is its own; the
    embedding fixes this one.) *)
Fixpoint insertBy {A} (cmp : A -> A -> comparison) (x : A) (xs : list A)
  : list A :=
  match xs with
  | [] => [x]
  | y :: xs' =>
      match cmp x y with
      | Gt => y :: insertBy cmp x xs'
      | _ => x :: xs
      end
  end.

Definition sortBy {A} (cmp : A -> A -> comparison) (xs : list A) : list A :=
  fold_right (insertBy cmp) [] xs.

(** [xs.find(p)]. *)
Definition find {A} (p : A -> bool) (xs : list A) : option A := List.find p xs.

(** The rows with a given key, in input order. *)
Definition groupOf {A} (key : A -> string) (xs : list A) (k : string)
  : list A :=
  filter (fun x => key x =? k) xs.

End JSArr.


(** ** Data model (the interfaces of lib/data-processor) *)

Import JSNum.

(** A cell whose dynamic type matters.  The parser's [dynamicTyping] turns
    a numeric or boolean text into a number or a boolean; such a value is
    known here by what the code can observe of it: its truthiness and its
    text [String(v)].  [CNull] is [null], which the parser delivers for a
    blank cell; [CUndefined] is [undefined], the value of a column the row
    does not have. *)
Inductive Cell : Type :=
| CStr (s : string)
| COther (isTruthy : bool) (asText : string)
| CNull
| CUndefined.

Module Transaction.
Record t : Type := mk {
  Status_Tr : string;
  Symbol : string;
  Account : Cell;
  Date : string;
  Net_Price : number;
  Cash_Impact : number;
  Qty_Change : number;
  Cost_change : number;
  Realized3 : number;
  Sh_name_eng : string;
  Db : number }.

(** [t.Date = d]. *)
Definition withDate (r : t) (d : string) : t :=
  mk (Status_Tr r) (Symbol r) (Account r) d (Net_Price r) (Cash_Impact r)
     (Qty_Change r) (Cost_change r) (Realized3 r) (Sh_name_eng r) (Db r).
End Transaction.

Module Symbol.
Record t : Type := mk {
  Symbol : string;
  Sh_name_eng : string;
  Sector : string;
  Symbol_Group : string }.
End Symbol.

Module Quote.
Record t : Type := mk {
  Date : string;
  Close : number;
  Symbol : string }.

Definition withDate (q : t) (d : string) : t := mk d (Close q) (Symbol q).
End Quote.

Module Holding.
Record t : Type := mk {
  Symbol : string;
  Account : string;
  Name : string;
  Sector : string;
  Status : string;
  Quantity : number;
  Cost : number;
  TotalCost : number;
  AvgCost : number;
  Price : number;
  Value : number;
  UnrealizedGain : number;
  UnrealizedGainPct : number;
  RealizedGain : number;
  RealizedGainPct : number;
  TotalReturn : number;
  TotalReturnPct : number;
  Db : number;
  cashBalance : number }.

(** [{ ...h, cashBalance }]. *)
Definition withCashBalance (h : t) (c : number) : t :=
  mk (Symbol h) (Account h) (Name h) (Sector h) (Status h) (Quantity h)
     (Cost h) (TotalCost h) (AvgCost h) (Price h) (Value h)
     (UnrealizedGain h) (UnrealizedGainPct h) (RealizedGain h)
     (RealizedGainPct h) (TotalReturn h) (TotalReturnPct h) (Db h) c.
End Holding.

Module TimeSeriesDataPoint.
(** [hasQuotes] is [undefined] ([None]) or a boolean; [account] is the
    account the series was computed for, absent ([""]) in a merged point;
    [accountValues] is the object of a merged point, from account name to
    total value, with its properties in the order of their creation, and
    is empty in the other points. *)
Record t : Type := mk {
  date : string;
  cashValue : number;
  equityValue : number;
  totalValue : number;
  realizedGain : number;
  unrealizedGain : number;
  egx30 : number;
  hasQuotes : option bool;
  account : string;
  accountValues : JSMap.t number }.
End TimeSeriesDataPoint.

Module SummaryMetrics.
Record t : Type := mk {
  totalValue : number;
  cashBalance : number;
  equityValue : number;
  realizedGain : number;
  unrealizedGain : number }.
End SummaryMetrics.

Module AccountData.
Record t : Type := mk {
  name : string;
  currentHoldings : list Holding.t;
  closedPositions : list Holding.t;
  timeSeriesData : list TimeSeriesDataPoint.t;
  summaryMetrics : SummaryMetrics.t }.
End AccountData.

Module PortfolioData.
(** [quotes] and [latestQuotes] are optional properties. *)
Record t : Type := mk {
  accounts : list AccountData.t;
  currentHoldings : list Holding.t;
  closedPositions : list Holding.t;
  timeSeriesData : list TimeSeriesDataPoint.t;
  transactions : list Transaction.t;
  quotes : option (list Quote.t);
  latestQuotes : option (JSMap.t Quote.t);
  summaryMetrics : SummaryMetrics.t }.
End PortfolioData.

(** ** Reading cells *)

Module JSCell.

Definition truthy (c : Cell) : bool :=
  match c with
  | CStr s => JSStr.truthy s
  | COther b _ => b
  | CNull => false
  | CUndefined => false
  end.

(** [String(c)], as a template literal computes it. *)
Definition text (c : Cell) : string :=
  match c with
  | CStr s => s
  | COther _ s => s
  | CNull => "null"
  | CUndefined => "undefined"
  end.

(** The text of [c || "Unknown"]. *)
Definition orUnknown (c : Cell) : string :=
  if truthy c then text c else "Unknown".

(** [c === s] for a string [s]. *)
Definition isStr (c : Cell) (s : string) : bool :=
  match c with
  | CStr s' => s' =? s
  | _ => false
  end.

End JSCell.


(** ** lib/data-processor: holdings *)

Module Processor.

Section WithHost.

(** [new Date(s).getTime()]: the time value in milliseconds, [None] for an
    invalid date (NaN). *)
Variable getTime : string -> option Z.

(** The sign of [new Date(a).getTime() - new Date(b).getTime()]; NaN when
    a date is invalid, which a sort reads as equal. *)
Definition compareTimes (a b : string) : comparison :=
  match getTime a, getTime b with
  | Some x, Some y => Z.compare x y
  | _, _ => Eq
  end.

(** [new Date(a) > new Date(b)]. *)
Definition dateGt (a b : string) : bool :=
  match getTime a, getTime b with
  | Some x, Some y => Z.gtb x y
  | _, _ => false
  end.

Definition byDateAsc (a b : Transaction.t) : comparison :=
  compareTimes (Transaction.Date a) (Transaction.Date b).

(** The key [`${symbol}-${account}`] with
    [account = transaction.Account || "Unknown"]. *)
Definition holdingKey (tr : Transaction.t) : string :=
  (Transaction.Symbol tr ++ "-"
   ++ JSCell.orUnknown (Transaction.Account tr))%string.

(** The accumulators of a group. *)
Definition quantityOf (txs : list Transaction.t) : number :=
  sumOf (fun tr => orZero (Transaction.Qty_Change tr)) txs.
Definition totalDebitOf (txs : list Transaction.t) : number :=
  sumOf (fun tr => orZero (Transaction.Db tr)) txs.
Definition costChangeSumOf (txs : list Transaction.t) : number :=
  sumOf (fun tr => orZero (Transaction.Cost_change tr)) txs.
Definition cumulativeRealizedReturnOf (txs : list Transaction.t) : number :=
  sumOf (fun tr => orZero (Transaction.Realized3 tr)) txs.

(** [absDebit !== 0 ? (x / absDebit) * 100 : 0]. *)
Definition pctOf (x absDebit : number) : number :=
  if sne absDebit 0%float then ((x / absDebit) * 100)%float else 0%float.

(** [displayStatus]: the status type with the two "RE" spellings shown as
    "Cleared"; [None] is [undefined]. *)
Definition displayStatusOf (statusType : option string) : option string :=
  match statusType with
  | Some s =>
      if (s =? "Cleared-RE") || (s =? "Clered -RE") then Some "Cleared"
      else Some s
  | None => None
  end.

(** [displayStatus || transactions[0]["Status Tr"]]; [None] when
    [transactions[0]] is [undefined], where the property read raises. *)
Definition statusOf (displayStatus : option string)
    (transactions : list Transaction.t) : option string :=
  match displayStatus with
  | Some s =>
      if JSStr.truthy s then Some s
      else option_map Transaction.Status_Tr (hd_error transactions)
  | None => option_map Transaction.Status_Tr (hd_error transactions)
  end.

(** The body of [symbolAccountGroups.forEach]: the holding of one group,
    given the status already read.  [transactions] is the group after its
    sort by date. *)
Definition holdingOf (symbolMap : JSMap.t Symbol.t)
    (latestQuotes : JSMap.t Quote.t) (includeZeroQuantity : bool)
    (cashBalance : number) (key : string)
    (transactions : list Transaction.t) (status : string) : Holding.t :=
  let parts := JSStr.split "-" key in
  let symbol := nth 0 parts "" in
  let account := nth 1 parts "" in
  let quantity := quantityOf transactions in
  let totalDebit := totalDebitOf transactions in
  let costChangeSum := costChangeSumOf transactions in
  let cumulativeRealizedReturn := cumulativeRealizedReturnOf transactions in
  let openCost := (costChangeSum + cumulativeRealizedReturn)%float in
  let symbolInfo :=
    match JSMap.get symbolMap symbol with
    | Some info => info
    | None => Symbol.mk symbol symbol "Unknown" ""
    end in
  let price :=
    match JSMap.get latestQuotes symbol with
    | Some quote => Quote.Close quote
    | None => 0%float
    end in
  let value := (quantity * price)%float in
  let unrealizedGain :=
    if includeZeroQuantity then 0%float else (value - openCost)%float in
  let totalReturn :=
    if includeZeroQuantity then cumulativeRealizedReturn
    else (cumulativeRealizedReturn + unrealizedGain)%float in
  let absDebit := PrimFloat.abs totalDebit in
  Holding.mk symbol account
    (JSStr.orElse (Symbol.Sh_name_eng symbolInfo) symbol)
    (JSStr.orElse (Symbol.Sector symbolInfo) "Unknown")
    status quantity openCost costChangeSum
    (if gt (PrimFloat.abs quantity) EPS
     then PrimFloat.abs (openCost / quantity) else 0%float)
    price value unrealizedGain (pctOf unrealizedGain absDebit)
    cumulativeRealizedReturn (pctOf cumulativeRealizedReturn absDebit)
    totalReturn (pctOf totalReturn absDebit) totalDebit cashBalance.

(** [includeZeroQuantity || Math.abs(quantity) > 0.0001]. *)
Definition included (includeZeroQuantity : bool)
    (transactions : list Transaction.t) : bool :=
  includeZeroQuantity || gt (PrimFloat.abs (quantityOf transactions)) EPS.

(** One step of the [forEach]: [None] when it raises, [Some None] when the
    group is left out, [Some (Some h)] when [h] is pushed. *)
Definition processGroup (symbolMap : JSMap.t Symbol.t)
    (latestQuotes : JSMap.t Quote.t) (statusType : option string)
    (includeZeroQuantity : bool) (cashBalance : number)
    (entry : string * list Transaction.t) : option (option Holding.t) :=
  let transactions := JSArr.sortBy byDateAsc (snd entry) in
  if included includeZeroQuantity transactions then
    match statusOf (displayStatusOf statusType) transactions with
    | Some status =>
        Some (Some (holdingOf symbolMap latestQuotes includeZeroQuantity
                      cashBalance (fst entry) transactions status))
    | None => None
    end
  else Some None.

(** The pushes of a loop, in order, unless a step raises. *)
Fixpoint pushed {A} (steps : list (option (option A))) : option (list A) :=
  match steps with
  | [] => Some []
  | None :: _ => None
  | Some None :: steps' => pushed steps'
  | Some (Some h) :: steps' => option_map (cons h) (pushed steps')
  end.

(** The cash balance [processHoldings] stores in each holding. *)
Definition holdingsCash (transactions : list Transaction.t) : number :=
  fold_left
    (fun total tr =>
       if negb (Transaction.Status_Tr tr =? "Time Deposit")
       then (total + orZero (Transaction.Cash_Impact tr))%float
       else total)
    transactions 0%float.

Definition processHoldings (transactions : list Transaction.t)
    (symbolMap : JSMap.t Symbol.t) (latestQuotes : JSMap.t Quote.t)
    (statusType : option string) (includeZeroQuantity : bool)
  : list Holding.t :=
  let cashBalance := holdingsCash transactions in
  let symbolAccountGroups := JSArr.groupBy holdingKey transactions in
  match pushed (map (processGroup symbolMap latestQuotes statusType
                       includeZeroQuantity cashBalance)
                  symbolAccountGroups) with
  | Some holdings =>
      map (fun h => Holding.withCashBalance h cashBalance) holdings
  | None => []   (* catch (error) { return [] } *)
  end.

(** The latest-quote index of [processPortfolioData]. *)
Definition latestQuotesStep (latestQuotes : JSMap.t Quote.t)
    (quote : Quote.t) : JSMap.t Quote.t :=
  match JSMap.get latestQuotes (Quote.Symbol quote) with
  | None => JSMap.set latestQuotes (Quote.Symbol quote) quote
  | Some existing =>
      if dateGt (Quote.Date quote) (Quote.Date existing)
      then JSMap.set latestQuotes (Quote.Symbol quote) quote
      else latestQuotes
  end.

Definition latestQuotesOf (quotes : list Quote.t) : JSMap.t Quote.t :=
  fold_left latestQuotesStep quotes [].

(** *** Time series *)

(** The running state of a symbol in the replay. *)
Record HoldingState : Type := mkHoldingState {
  quantity : number;
  costChangeSum : number;
  cumulativeRealizedReturn : number;
  totalDebit : number;
  lastKnownPrice : number }.

Definition setLastKnownPrice (h : HoldingState) (p : number) : HoldingState :=
  mkHoldingState (quantity h) (costChangeSum h) (cumulativeRealizedReturn h)
    (totalDebit h) p.

(** The variables the loop over the dates carries. *)
Record Replay : Type := mkReplay {
  cashBalance : number;
  holdings : JSMap.t HoldingState;
  timeDepositHoldings : JSMap.t HoldingState;
  totalRealizedGain : number;
  lastValidEquityValue : number;
  lastValidEgx30Value : number;
  lastValidUnrealizedGain : number;
  lastValidTotalValue : number;
  timeSeriesData : list TimeSeriesDataPoint.t }.

Definition initialReplay : Replay :=
  mkReplay 0%float [] [] 0%float 0%float 0%float 0%float 0%float [].

(** The symbols that carry no position. *)
Definition nonPositionSymbols : list string :=
  ["Deposit"; "DEPOSIT"; "Cash"; "CASH"; "Expenses"; "EXPENSES"; ""].

(** [t.Symbol && ![...].includes(t.Symbol)]. *)
Definition isPositionSymbol (symbol : string) : bool :=
  JSStr.truthy symbol && negb (JSStr.includes nonPositionSymbols symbol).

(** The change one transaction makes to a map of holding states. *)
Definition applyToHoldings (holdingsMap : JSMap.t HoldingState)
    (transaction : Transaction.t) (realizedGainChange : number)
  : JSMap.t HoldingState :=
  let symbol := Transaction.Symbol transaction in
  let qtyChange := orZero (Transaction.Qty_Change transaction) in
  let costChange := orZero (Transaction.Cost_change transaction) in
  let debitChange := orZero (Transaction.Db transaction) in
  let currentHolding :=
    match JSMap.get holdingsMap symbol with
    | Some h => h
    | None => mkHoldingState 0%float 0%float 0%float 0%float 0%float
    end in
  let updated :=
    mkHoldingState
      (quantity currentHolding + qtyChange)%float
      (costChangeSum currentHolding + costChange)%float
      (cumulativeRealizedReturn currentHolding + realizedGainChange)%float
      (totalDebit currentHolding + debitChange)%float
      (lastKnownPrice currentHolding) in
  if lt (PrimFloat.abs (quantity updated)) EPS
  then JSMap.delete holdingsMap symbol
  else JSMap.set holdingsMap symbol updated.

(** The body of [dateTransactions.forEach]. *)
Definition applyTransaction (st : Replay) (transaction : Transaction.t)
  : Replay :=
  let cash := (cashBalance st + orZero (Transaction.Cash_Impact transaction))%float in
  let realizedGainChange := orZero (Transaction.Realized3 transaction) in
  let realized := (totalRealizedGain st + realizedGainChange)%float in
  let isTimeDeposit := Transaction.Status_Tr transaction =? "Time Deposit" in
  let positional := isPositionSymbol (Transaction.Symbol transaction) in
  mkReplay cash
    (if positional && negb isTimeDeposit
     then applyToHoldings (holdings st) transaction realizedGainChange
     else holdings st)
    (if positional && isTimeDeposit
     then applyToHoldings (timeDepositHoldings st) transaction realizedGainChange
     else timeDepositHoldings st)
    realized
    (lastValidEquityValue st) (lastValidEgx30Value st)
    (lastValidUnrealizedGain st) (lastValidTotalValue st)
    (timeSeriesData st).

(** How a price was found for a holding on a date. *)
Inductive PriceSource : Type :=
| SameDay          (* the quote of the date *)
| LastKnown        (* the holding's last known price *)
| LatestFallback   (* the latest quote of the symbol *)
| NoPrice.

(** [datePrices && datePrices.has(symbol) && datePrices.get(symbol) > 0]. *)
Definition sameDayPrice (datePrices : option (JSMap.t number))
    (symbol : string) : option number :=
  match datePrices with
  | Some prices =>
      match JSMap.get prices symbol with
      | Some p => if gt p 0%float then Some p else None
      | None => None
      end
  | None => None
  end.

(** The price of a holding on a date, how it was found, and the holding
    with its [lastKnownPrice] as the branch leaves it. *)
Definition resolvePrice (datePrices : option (JSMap.t number))
    (latestQuotes : JSMap.t Quote.t) (symbol : string)
    (holding : HoldingState) : number * PriceSource * HoldingState :=
  match sameDayPrice datePrices symbol with
  | Some p => (p, SameDay, setLastKnownPrice holding p)
  | None =>
      if gt (lastKnownPrice holding) 0%float
      then (lastKnownPrice holding, LastKnown, holding)
      else match JSMap.get latestQuotes symbol with
           | Some quote =>
               (Quote.Close quote, LatestFallback,
                setLastKnownPrice holding (Quote.Close quote))
           | None => (0%float, NoPrice, holding)
           end
  end.

(** The accumulators of [holdings.forEach] and
    [timeDepositHoldings.forEach]. *)
Record Valuation : Type := mkValuation {
  v_equityValue : number;
  v_unrealizedGain : number;
  v_hasAllPrices : bool }.

(** One holding of [holdings.forEach]: the updated accumulators and the
    holding as stored back. *)
Definition valueHolding (datePrices : option (JSMap.t number))
    (latestQuotes : JSMap.t Quote.t) (acc : Valuation)
    (entry : string * HoldingState) : Valuation * (string * HoldingState) :=
  let '(price, source, holding) :=
    resolvePrice datePrices latestQuotes (fst entry) (snd entry) in
  let allSoFar :=
    match source with
    | SameDay => v_hasAllPrices acc
    | _ => false
    end in
  if gt price 0%float then
    let value := (quantity holding * price)%float in
    let openCost := (costChangeSum holding + cumulativeRealizedReturn holding)%float in
    (mkValuation (v_equityValue acc + value)%float
       (v_unrealizedGain acc + (value - openCost))%float allSoFar,
     (fst entry, holding))
  else (mkValuation (v_equityValue acc) (v_unrealizedGain acc) false,
        (fst entry, holding)).

(** One holding of [timeDepositHoldings.forEach]: no price is ever
    reported missing there. *)
Definition valueTimeDeposit (datePrices : option (JSMap.t number))
    (latestQuotes : JSMap.t Quote.t) (acc : Valuation)
    (entry : string * HoldingState) : Valuation * (string * HoldingState) :=
  let '(price, _, holding) :=
    resolvePrice datePrices latestQuotes (fst entry) (snd entry) in
  if gt price 0%float then
    let value := (quantity holding * price)%float in
    let openCost := (costChangeSum holding + cumulativeRealizedReturn holding)%float in
    (mkValuation (v_equityValue acc + value)%float
       (v_unrealizedGain acc + (value - openCost))%float (v_hasAllPrices acc),
     (fst entry, holding))
  else (acc, (fst entry, holding)).

(** A [forEach] over a map that updates its values in place and threads
    accumulators. *)
Fixpoint forEachUpdating {V Acc}
    (f : Acc -> string * V -> Acc * (string * V)) (acc : Acc)
    (m : JSMap.t V) : Acc * JSMap.t V :=
  match m with
  | [] => (acc, [])
  | e :: m' =>
      let '(acc1, e1) := f acc e in
      let '(acc2, m2) := forEachUpdating f acc1 m' in
      (acc2, e1 :: m2)
  end.

(** [a || b] for [hasQuotes] values ([None] is [undefined]). *)
Definition flagOr (a b : option bool) : option bool :=
  match a with
  | Some true => a
  | _ => b
  end.

Definition flagTruthy (a : option bool) : bool :=
  match a with
  | Some true => true
  | _ => false
  end.

(** The indexes [processTimeSeriesData] builds from the quotes. *)
Definition egx30MapOf (quotes : list Quote.t) : JSMap.t number :=
  fold_left
    (fun m q =>
       if (Quote.Symbol q =? "EGX30") && JSStr.truthy (Quote.Date q)
          && gt (Quote.Close q) 0%float
       then JSMap.set m (Quote.Date q) (Quote.Close q)
       else m)
    quotes [].

Definition quotesByDateAndSymbolOf (quotes : list Quote.t)
  : JSMap.t (JSMap.t number) :=
  fold_left
    (fun m q =>
       if JSStr.truthy (Quote.Date q) && JSStr.truthy (Quote.Symbol q)
       then
         let prices :=
           match JSMap.get m (Quote.Date q) with
           | Some prices => prices
           | None => []
           end in
         JSMap.set m (Quote.Date q)
           (JSMap.set prices (Quote.Symbol q) (Quote.Close q))
       else m)
    quotes [].

(** The truthy dates of an array of rows, without repetition. *)
Definition datesOf (dates : list string) : list string :=
  JSStr.setOf (filter JSStr.truthy dates).

(** What the two valuation loops of a date compute: the equity value
    summed over both maps, the unrealized gain of each map, whether every
    regular holding had a quote of the date, and the maps with the last
    known prices they leave. *)
Record DayValuation : Type := mkDayValuation {
  computedEquityValue : number;
  regularUnrealizedGain : number;
  timeDepositUnrealizedGain : number;
  hasAllPrices : bool;
  valuedHoldings : JSMap.t HoldingState;
  valuedTimeDeposits : JSMap.t HoldingState }.

Definition valueDay (datePrices : option (JSMap.t number))
    (latestQuotes : JSMap.t Quote.t) (st : Replay) : DayValuation :=
  let '(regular, holdings1) :=
    forEachUpdating (valueHolding datePrices latestQuotes)
      (mkValuation 0%float 0%float true) (holdings st) in
  let '(deposits, timeDeposits1) :=
    forEachUpdating (valueTimeDeposit datePrices latestQuotes)
      (mkValuation (v_equityValue regular) 0%float (v_hasAllPrices regular))
      (timeDepositHoldings st) in
  mkDayValuation (v_equityValue deposits) (v_unrealizedGain regular)
    (v_unrealizedGain deposits) (v_hasAllPrices regular)
    holdings1 timeDeposits1.

(** [(!hasAllPrices || equityValue === 0) && lastValidEquityValue > 0]. *)
Definition carriesForward (v : DayValuation) (st : Replay) : bool :=
  (negb (hasAllPrices v) || seq (computedEquityValue v) 0%float)
  && gt (lastValidEquityValue st) 0%float.

(** The rest of the body of [sortedDates.forEach], after the
    transactions of the date are applied and the holdings valued: the
    carry-forward decisions and the point pushed. *)
Definition emitDay (egx30Map : JSMap.t number)
    (datePrices : option (JSMap.t number)) (selectedAccount : string)
    (date : string) (st : Replay) (v : DayValuation) : Replay :=
  let carry := carriesForward v st in
  let equityValue :=
    if carry then lastValidEquityValue st else computedEquityValue v in
  let unrealizedGain :=
    if carry then lastValidUnrealizedGain st else regularUnrealizedGain v in
  let lastValidEquity1 :=
    if carry then lastValidEquityValue st
    else if gt (computedEquityValue v) 0%float then computedEquityValue v
         else lastValidEquityValue st in
  let lastValidUnrealized1 :=
    if carry then lastValidUnrealizedGain st
    else if gt (computedEquityValue v) 0%float then regularUnrealizedGain v
         else lastValidUnrealizedGain st in
  let egx30Value := JSMap.get egx30Map date in
  let lastValidEgx1 :=
    match egx30Value with
    | Some e => if gt e 0%float then e else lastValidEgx30Value st
    | None => lastValidEgx30Value st
    end in
  let totalUnrealizedGain :=
    (unrealizedGain + timeDepositUnrealizedGain v)%float in
  let lastValidUnrealized2 :=
    if sne totalUnrealizedGain 0%float then totalUnrealizedGain
    else lastValidUnrealized1 in
  let hasQuotes :=
    option_map (fun prices => (0 <? List.length prices)%nat) datePrices in
  let totalValue := (equityValue + cashBalance st)%float in
  if seq totalValue 0%float && gt (lastValidTotalValue st) 0%float then
    mkReplay (cashBalance st) (valuedHoldings v) (valuedTimeDeposits v)
      (totalRealizedGain st)
      lastValidEquity1 lastValidEgx1 lastValidUnrealized2
      (lastValidTotalValue st)
      (timeSeriesData st ++
       [TimeSeriesDataPoint.mk date (cashBalance st) lastValidEquity1
          (lastValidTotalValue st) (totalRealizedGain st)
          lastValidUnrealized2 lastValidEgx1 hasQuotes selectedAccount []])
  else
    mkReplay (cashBalance st) (valuedHoldings v) (valuedTimeDeposits v)
      (totalRealizedGain st)
      lastValidEquity1 lastValidEgx1 lastValidUnrealized2
      totalValue
      (timeSeriesData st ++
       [TimeSeriesDataPoint.mk date (cashBalance st) equityValue
          totalValue (totalRealizedGain st)
          totalUnrealizedGain lastValidEgx1 hasQuotes selectedAccount []]).

(** The state after the transactions of a date. *)
Definition applyDate (accountTransactions : list Transaction.t)
    (st : Replay) (date : string) : Replay :=
  fold_left applyTransaction
    (filter (fun tr => Transaction.Date tr =? date) accountTransactions) st.

(** The body of [sortedDates.forEach]. *)
Definition replayDate (accountTransactions : list Transaction.t)
    (egx30Map : JSMap.t number)
    (quotesByDateAndSymbol : JSMap.t (JSMap.t number))
    (latestQuotes : JSMap.t Quote.t) (selectedAccount : string)
    (st0 : Replay) (date : string) : Replay :=
  let st := applyDate accountTransactions st0 date in
  let datePrices := JSMap.get quotesByDateAndSymbol date in
  emitDay egx30Map datePrices selectedAccount date st
    (valueDay datePrices latestQuotes st).

(** [processTimeSeriesData(transactions, quotes, quoteDates,
    selectedAccount, latestQuotes)]; its [quoteDates] argument is never
    read.  Nothing in its [try] block can raise on rows of these types. *)
Definition processTimeSeriesData (transactions : list Transaction.t)
    (quotes : list Quote.t) (quoteDates : list string)
    (selectedAccount : string) (latestQuotes : JSMap.t Quote.t)
  : list TimeSeriesDataPoint.t :=
  let accountTransactions :=
    if selectedAccount =? "all" then transactions
    else filter (fun tr => JSCell.isStr (Transaction.Account tr) selectedAccount)
           transactions in
  let transactionDates := datesOf (map Transaction.Date accountTransactions) in
  let uniqueQuoteDates := datesOf (map Quote.Date quotes) in
  let allDates := JSStr.setOf (transactionDates ++ uniqueQuoteDates) in
  let sortedDates := JSStr.sort allDates in
  timeSeriesData
    (fold_left
       (replayDate accountTransactions (egx30MapOf quotes)
          (quotesByDateAndSymbolOf quotes) latestQuotes selectedAccount)
       sortedDates initialReplay).

(** *** Merging the series of the accounts *)

(** The body of [if (entry) { ... }]: the merged entry after the entry
    of one more series. *)
Definition addEntry (mergedEntry entry : TimeSeriesDataPoint.t)
  : TimeSeriesDataPoint.t :=
  TimeSeriesDataPoint.mk
    (TimeSeriesDataPoint.date mergedEntry)
    (TimeSeriesDataPoint.cashValue mergedEntry
     + orZero (TimeSeriesDataPoint.cashValue entry))
    (TimeSeriesDataPoint.equityValue mergedEntry
     + orZero (TimeSeriesDataPoint.equityValue entry))
    (TimeSeriesDataPoint.totalValue mergedEntry
     + orZero (TimeSeriesDataPoint.totalValue entry))
    (TimeSeriesDataPoint.realizedGain mergedEntry
     + orZero (TimeSeriesDataPoint.realizedGain entry))
    (TimeSeriesDataPoint.unrealizedGain mergedEntry
     + orZero (TimeSeriesDataPoint.unrealizedGain entry))
    (orElse (TimeSeriesDataPoint.egx30 entry)
       (TimeSeriesDataPoint.egx30 mergedEntry))
    (flagOr (TimeSeriesDataPoint.hasQuotes mergedEntry)
       (TimeSeriesDataPoint.hasQuotes entry))
    (TimeSeriesDataPoint.account mergedEntry)
    (if JSStr.truthy (TimeSeriesDataPoint.account entry)
     then JSMap.set (TimeSeriesDataPoint.accountValues mergedEntry)
            (TimeSeriesDataPoint.account entry)
            (TimeSeriesDataPoint.totalValue entry)
     else TimeSeriesDataPoint.accountValues mergedEntry).

(** The body of [timeSeriesDataArray.forEach] for one date: the entry of
    the series for that date, if it has one, is added. *)
Definition mergeEntry (date : string) (mergedEntry : TimeSeriesDataPoint.t)
    (series : list TimeSeriesDataPoint.t) : TimeSeriesDataPoint.t :=
  match JSArr.find (fun e => TimeSeriesDataPoint.date e =? date) series with
  | Some entry => addEntry mergedEntry entry
  | None => mergedEntry
  end.

Definition emptyMergedEntry (date : string) : TimeSeriesDataPoint.t :=
  TimeSeriesDataPoint.mk date 0%float 0%float 0%float 0%float 0%float 0%float
    (Some false) "" [].

Definition mergeTimeSeriesData
    (timeSeriesDataArray : list (list TimeSeriesDataPoint.t))
  : list TimeSeriesDataPoint.t :=
  match timeSeriesDataArray with
  | [] => []
  | _ =>
      let allDates :=
        JSStr.setOf
          (flat_map (map TimeSeriesDataPoint.date) timeSeriesDataArray) in
      let sortedDates := JSStr.sort allDates in
      map (fun date =>
             fold_left (mergeEntry date) timeSeriesDataArray
               (emptyMergedEntry date))
        sortedDates
  end.

(** *** Dates *)

(** [date.toISOString().split("T")[0]] for a valid time value. *)
Variable toISODate : Z -> string.

Definition isDateSeparator (c : ascii) : bool :=
  Ascii.eqb c "/" || Ascii.eqb c "-".

(** The first arrangement that parses, printed as an ISO date. *)
Fixpoint firstValid (arrangements : list string) : option string :=
  match arrangements with
  | [] => None
  | arrangement :: rest =>
      match getTime arrangement with
      | Some ms => Some (toISODate ms)
      | None => firstValid rest
      end
  end.

Definition standardizeDate (dateStr : string) : string :=
  match getTime dateStr with
  | Some ms => toISODate ms
  | None =>
      match JSStr.splitBy isDateSeparator dateStr with
      | [p0; p1; p2] =>
          match firstValid
                  [(p2 ++ "-" ++ JSStr.padStart2 p0 ++ "-"
                    ++ JSStr.padStart2 p1)%string;
                   (p2 ++ "-" ++ JSStr.padStart2 p1 ++ "-"
                    ++ JSStr.padStart2 p0)%string] with
          | Some d => d
          | None => dateStr
          end
      | _ => dateStr
      end
  end.

(** *** The pipeline *)

(** An [Error] object as the [catch] block reads it; an absent [stack] is
    the empty string. *)
Record Exn : Type := mkExn { message : string; stack : string }.

(** The stack text the engine attaches to an error created with a given
    message, and the message of the [TypeError] it raises when
    [t.Account?.trim] is not a function. *)
Variable stackOf : string -> string.
Variable notAFunction : string.

(** [parseCSV(text) as Row[]] for the three tables ([parseCSV] catches its
    own errors). *)
Variable parseTransactions : string -> list Transaction.t.
Variable parseSymbols : string -> list Symbol.t.
Variable parseQuotes : string -> list Quote.t.

Definition emptyPortfolioData : PortfolioData.t :=
  PortfolioData.mk [] [] [] [] [] None None
    (SummaryMetrics.mk 0%float 0%float 0%float 0%float 0%float).

(** [t.Account?.trim()]: the trimmed text, [undefined] for a nullish cell,
    a [TypeError] for a number or a boolean. *)
Definition trimmedAccount (c : Cell) : Exn + option string :=
  match c with
  | CStr s => inr (Some (JSStr.trim s))
  | CNull => inr None
  | CUndefined => inr None
  | COther _ _ => inl (mkExn notAFunction (stackOf notAFunction))
  end.

(** The single pass that groups the transactions by account. *)
Fixpoint groupByAccount (transactions : list Transaction.t)
    (m : JSMap.t (list Transaction.t))
  : Exn + JSMap.t (list Transaction.t) :=
  match transactions with
  | [] => inr m
  | tr :: rest =>
      match trimmedAccount (Transaction.Account tr) with
      | inl e => inl e
      | inr (Some account) =>
          if JSStr.truthy account && negb (account =? "all")
             && negb (account =? "All Accounts")
          then groupByAccount rest (JSArr.pushTo m account tr)
          else groupByAccount rest m
      | inr None => groupByAccount rest m
      end
  end.

Definition isClosedStatus (status : string) : bool :=
  (status =? "YTD Clear") || (status =? "PYD Clear")
  || (status =? "Cleared-RE") || (status =? "Cleared")
  || (status =? "Clered -RE") || (status =? "Time Deposit").

(** The key [`${t.Symbol}-${t.Account}`] of the time-deposit grouping. *)
Definition timeDepositKey (tr : Transaction.t) : string :=
  (Transaction.Symbol tr ++ "-"
   ++ JSCell.text (Transaction.Account tr))%string.

(** The callback of [uniqueAccounts.map]. *)
Definition processAccount (accountTransactionsMap : JSMap.t (list Transaction.t))
    (symbolMap : JSMap.t Symbol.t) (latestQuotes : JSMap.t Quote.t)
    (quotes : list Quote.t) (quoteDates : list string) (account : string)
  : AccountData.t :=
  let accountTransactions :=
    match JSMap.get accountTransactionsMap account with
    | Some txs => txs
    | None => []
    end in
  let open :=
    filter (fun tr => Transaction.Status_Tr tr =? "Open Items")
      accountTransactions in
  let closed :=
    filter (fun tr => negb (Transaction.Status_Tr tr =? "Open Items")
                      && isClosedStatus (Transaction.Status_Tr tr))
      accountTransactions in
  let currentHoldings :=
    processHoldings open symbolMap latestQuotes (Some "Open Items") false in
  let closedPositions :=
    processHoldings closed symbolMap latestQuotes None true in
  let timeDepositPositions :=
    JSArr.groupBy timeDepositKey
      (filter (fun tr => Transaction.Status_Tr tr =? "Time Deposit")
         accountTransactions) in
  let timeDepositHoldings :=
    processHoldings (List.concat (JSMap.values timeDepositPositions))
      symbolMap latestQuotes (Some "Time Deposit") false in
  let timeSeriesData :=
    processTimeSeriesData accountTransactions quotes quoteDates account
      latestQuotes in
  let cashBalance :=
    sumOf (fun tr => orZero (Transaction.Cash_Impact tr)) accountTransactions in
  let equityValue := sumOf Holding.Value currentHoldings in
  let unrealizedGain :=
    (sumOf Holding.UnrealizedGain currentHoldings
     + sumOf Holding.UnrealizedGain timeDepositHoldings)%float in
  let realizedGain := sumOf Holding.RealizedGain closedPositions in
  AccountData.mk account currentHoldings closedPositions timeSeriesData
    (SummaryMetrics.mk (equityValue + cashBalance)%float cashBalance
       equityValue realizedGain unrealizedGain).

(** The "all accounts" view or the view of the selected account. *)
Definition portfolioOf (accountsData : list AccountData.t)
    (transactions : list Transaction.t) (quotes : list Quote.t)
    (latestQuotes : JSMap.t Quote.t) (selectedAccount : string)
  : PortfolioData.t :=
  let metric (f : SummaryMetrics.t -> number) :=
    sumOf (fun acc => f (AccountData.summaryMetrics acc)) accountsData in
  let '(allCurrentHoldings, allClosedPositions, allTimeSeriesData,
        totalCashBalance, totalEquityValue, totalRealizedGain,
        totalUnrealizedGain) :=
    if selectedAccount =? "all" then
      (flat_map AccountData.currentHoldings accountsData,
       flat_map AccountData.closedPositions accountsData,
       mergeTimeSeriesData (map AccountData.timeSeriesData accountsData),
       metric SummaryMetrics.cashBalance,
       metric SummaryMetrics.equityValue,
       metric SummaryMetrics.realizedGain,
       metric SummaryMetrics.unrealizedGain)
    else
      match JSArr.find (fun acc => AccountData.name acc =? selectedAccount)
              accountsData with
      | Some selected =>
          let m := AccountData.summaryMetrics selected in
          (AccountData.currentHoldings selected,
           AccountData.closedPositions selected,
           AccountData.timeSeriesData selected,
           SummaryMetrics.cashBalance m, SummaryMetrics.equityValue m,
           SummaryMetrics.realizedGain m, SummaryMetrics.unrealizedGain m)
      | None => ([], [], [], 0%float, 0%float, 0%float, 0%float)
      end in
  PortfolioData.mk accountsData allCurrentHoldings allClosedPositions
    allTimeSeriesData transactions (Some quotes) (Some latestQuotes)
    (SummaryMetrics.mk (totalEquityValue + totalCashBalance)%float
       totalCashBalance totalEquityValue totalRealizedGain
       totalUnrealizedGain).

(** The text of [xs[i]] in a template literal. *)
Definition elementText (xs : list string) (i : nat) : string :=
  nth i xs "undefined".

Definition natText (n : nat) : string :=
  NilEmpty.string_of_uint (Nat.to_uint n).

(** [`${label} date range: ${dates[0]} to ${dates[dates.length - 1]}`]
    for the sorted truthy dates. *)
Definition dateRangeMessage (label : string) (dates : list string) : string :=
  let sorted := JSStr.sort (filter JSStr.truthy dates) in
  (label ++ " date range: " ++ elementText sorted 0 ++ " to "
   ++ elementText sorted (List.length sorted - 1))%string.

Section WithLog.

(** The caller's log function, as the change it makes to the caller's
    state. *)
Variable LogState : Type.
Variable logFunction : string -> LogState -> LogState.

(** The [try] block.  The function is [async]; the callbacks it hands to
    [Promise.all] await nothing, so they run one after the other, and an
    exception in one of them reaches the [catch] block. *)
Definition processPortfolioDataTry (transactionsText symbolsText
    quotesText selectedAccount : string) (log0 : LogState)
  : (Exn + PortfolioData.t) * LogState :=
  if negb (JSStr.truthy transactionsText) || negb (JSStr.truthy symbolsText)
     || negb (JSStr.truthy quotesText)
  then
    (inl (mkExn "Missing required CSV data"
            (stackOf "Missing required CSV data")),
     logFunction "Error: Missing required CSV data" log0)
  else
    let log1 := logFunction "Parsing transactions data..." log0 in
    let transactions0 := parseTransactions transactionsText in
    let log2 := logFunction "Parsing symbols data..." log1 in
    let symbols := parseSymbols symbolsText in
    let log3 := logFunction "Parsing quotes data..." log2 in
    let quotes0 := parseQuotes quotesText in
    let transactions :=
      map (fun tr =>
             if JSStr.truthy (Transaction.Date tr)
             then Transaction.withDate tr (standardizeDate (Transaction.Date tr))
             else tr)
        transactions0 in
    let quotes :=
      map (fun q =>
             if JSStr.truthy (Quote.Date q)
             then Quote.withDate q (standardizeDate (Quote.Date q))
             else q)
        quotes0 in
    let log4 :=
      match transactions with
      | [] => log3
      | _ => logFunction
               (dateRangeMessage "Transaction" (map Transaction.Date transactions))
               log3
      end in
    let log5 :=
      match quotes with
      | [] => log4
      | _ => logFunction
               (dateRangeMessage "Quote" (map Quote.Date quotes)) log4
      end in
    let symbolMap :=
      fold_left (fun m s => JSMap.set m (Symbol.Symbol s) s) symbols [] in
    let latestQuotes := latestQuotesOf quotes in
    let quoteDates := datesOf (map Quote.Date quotes) in
    match groupByAccount transactions [] with
    | inl e => (inl e, log5)
    | inr accountTransactionsMap =>
        let uniqueAccounts := JSStr.sort (JSMap.keys accountTransactionsMap) in
        let log6 :=
          logFunction
            ("Found " ++ natText (List.length uniqueAccounts)
             ++ " unique accounts: " ++ String.concat ", " uniqueAccounts)%string
            log5 in
        let accountsData :=
          map (processAccount accountTransactionsMap symbolMap latestQuotes
                 quotes quoteDates)
            uniqueAccounts in
        (inr (portfolioOf accountsData transactions quotes latestQuotes
                selectedAccount),
         log6)
    end.

(** The [catch] block. *)
Definition processPortfolioDataCatch (error : Exn) (log0 : LogState)
  : PortfolioData.t * LogState :=
  let log1 :=
    logFunction ("Error in processPortfolioData: " ++ message error)%string
      log0 in
  let log2 :=
    if JSStr.truthy (stack error)
    then logFunction ("Stack trace: " ++ stack error)%string log1
    else log1 in
  (emptyPortfolioData, log2).

Definition processPortfolioData (transactionsText symbolsText quotesText
    selectedAccount : string) (log0 : LogState)
  : PortfolioData.t * LogState :=
  match processPortfolioDataTry transactionsText symbolsText quotesText
          selectedAccount log0 with
  | (inr data, log1) => (data, log1)
  | (inl error, log1) => processPortfolioDataCatch error log1
  end.

End WithLog.

End WithHost.

End Processor.


(** ** Components that value holdings on their own *)

Module Components.

Section WithHost.

Variable getTime : string -> option Z.

(** The sign of [new Date(b.Date).getTime() - new Date(a.Date).getTime()]:
    latest first. *)
Definition byQuoteDateDesc (a b : Quote.t) : comparison :=
  Processor.compareTimes getTime (Quote.Date b) (Quote.Date a).

(** [Number.parseFloat(String(x))] for a number [x]: [x] itself, except
    that [-0] prints as ["0"]. *)
Definition parseFloatText (x : number) : number :=
  if seq x 0%float then 0%float else x.

(** [`${symbol}|${account}`] with
    [account = transaction.Account || "Unknown"]. *)
Definition depositKey (tr : Transaction.t) : string :=
  (Transaction.Symbol tr ++ "|"
   ++ JSCell.orUnknown (Transaction.Account tr))%string.

(** [selectedAccount === "all" || t.Account === selectedAccount]. *)
Definition inAccount (selectedAccount : string) (tr : Transaction.t) : bool :=
  (selectedAccount =? "all")
  || JSCell.isStr (Transaction.Account tr) selectedAccount.

(** *** Open Deposits: the [openDeposits] memo *)

Record DepositHolding : Type := mkDepositHolding {
  dSymbol : string;
  dName : string;
  dAccount : string;
  dQuantity : number;
  dAvgCost : number;
  dPrice : number;
  dPriceSource : string;
  dValue : number;
  dCost : number;
  dUnrealizedGain : number;
  dUnrealizedGainPct : number;
  dRealizedGain : number }.

(** [q && q.Symbol === exactSymbol && q.Close && Number(q.Close) > 0]. *)
Definition matchesExactly (exactSymbol : string) (q : Quote.t) : bool :=
  (Quote.Symbol q =? exactSymbol) && JSNum.truthy (Quote.Close q)
  && gt (Quote.Close q) 0%float.

(** The price of a group and where it came from: the three [if]
    statements on [price], in order. *)
Definition depositPrice (data : PortfolioData.t) (exactSymbol : string)
    (netPrice : number) : number * string :=
  let step1 :=
    match PortfolioData.latestQuotes data with
    | Some latestQuotes =>
        match JSMap.get latestQuotes exactSymbol with
        | Some quote =>
            if JSNum.truthy (Quote.Close quote) && gt (Quote.Close quote) 0%float
            then (Quote.Close quote, "latestQuotes")
            else (0%float, "default")
        | None => (0%float, "default")
        end
    | None => (0%float, "default")
    end in
  let step2 :=
    if seq (fst step1) 0%float then
      match PortfolioData.quotes data with
      | Some quotes =>
          match JSArr.sortBy byQuoteDateDesc
                  (filter (matchesExactly exactSymbol) quotes) with
          | latestQuote :: _ => (Quote.Close latestQuote, "quotes array")
          | [] => step1
          end
      | None => step1
      end
    else step1 in
  if seq (fst step2) 0%float
  then (orElse netPrice 1%float, "transaction Net Price")
  else step2.

(** The body of [symbolAccountGroups.forEach]; [None] when
    [transactions[0]] is [undefined] and the property read raises. *)
Definition processDepositGroup (data : PortfolioData.t)
    (entry : string * list Transaction.t)
  : option (option DepositHolding) :=
  let transactions := snd entry in
  let account := nth 1 (JSStr.split "|" (fst entry)) "" in
  let quantity := Processor.quantityOf transactions in
  let costChangeSum := Processor.costChangeSumOf transactions in
  let cumulativeRealizedReturn :=
    Processor.cumulativeRealizedReturnOf transactions in
  let openCost := (costChangeSum + cumulativeRealizedReturn)%float in
  match transactions with
  | [] => None
  | first :: _ =>
      let exactSymbol := Transaction.Symbol first in
      let '(price, priceSource) :=
        depositPrice data exactSymbol (Transaction.Net_Price first) in
      let value := (quantity * price)%float in
      let unrealizedGain := (value - openCost)%float in
      if gt (PrimFloat.abs quantity) EPS then
        Some (Some (mkDepositHolding exactSymbol
                      (JSStr.orElse (Transaction.Sh_name_eng first) "")
                      account quantity
                      (if sne quantity 0%float
                       then (openCost / quantity)%float else 0%float)
                      price priceSource value openCost unrealizedGain
                      (if sne openCost 0%float
                       then ((unrealizedGain / PrimFloat.abs openCost) * 100)%float
                       else 0%float)
                      cumulativeRealizedReturn))
      else Some None
  end.

(** The memo's value; [None] when its computation raises. *)
Definition openDeposits (data : PortfolioData.t) (selectedAccount : string)
  : option (list DepositHolding) :=
  let openDepositsTransactions :=
    filter (fun tr => (Transaction.Status_Tr tr =? "Open Deposits")
                      && inAccount selectedAccount tr)
      (PortfolioData.transactions data) in
  Processor.pushed
    (map (processDepositGroup data)
       (JSArr.groupBy depositKey openDepositsTransactions)).

(** *** Measures: the price of the "Fixed Income Value" measure *)

(** [q && q.Symbol === exactSymbol && q.Close
     && Number.parseFloat(String(q.Close)) > 0]. *)
Definition matchesExactlyText (exactSymbol : string) (q : Quote.t) : bool :=
  (Quote.Symbol q =? exactSymbol) && JSNum.truthy (Quote.Close q)
  && gt (parseFloatText (Quote.Close q)) 0%float.

(** [q && q.Symbol && q.Symbol.startsWith(baseSymbol) && q.Close
     && Number.parseFloat(String(q.Close)) > 0]. *)
Definition matchesPrefix (baseSymbol : string) (q : Quote.t) : bool :=
  JSStr.truthy (Quote.Symbol q)
  && JSStr.startsWith (Quote.Symbol q) baseSymbol
  && JSNum.truthy (Quote.Close q)
  && gt (parseFloatText (Quote.Close q)) 0%float.

(** The nested [if]/[else] that prices a group in the measure, for a
    symbol that is a text and quotes whose symbols are texts.  (On a
    [Symbol] cell that the parser delivered as a number,
    [exactSymbol.split] and [q.Symbol.startsWith] are not functions and
    the measure raises; such rows are not covered.) *)
Definition fixedIncomePrice (data : PortfolioData.t) (exactSymbol : string)
    (netPrice : number) : number :=
  let fromNetPrice := orElse (parseFloatText netPrice) 1%float in
  let inLatest :=
    match PortfolioData.latestQuotes data with
    | Some latestQuotes => JSMap.get latestQuotes exactSymbol
    | None => None
    end in
  match inLatest with
  | Some quote => parseFloatText (Quote.Close quote)
  | None =>
      match PortfolioData.quotes data with
      | Some quotes =>
          match JSArr.sortBy byQuoteDateDesc
                  (filter (matchesExactlyText exactSymbol) quotes) with
          | latestQuote :: _ => parseFloatText (Quote.Close latestQuote)
          | [] =>
              let baseSymbol := nth 0 (JSStr.split "@" exactSymbol) "" in
              match JSArr.sortBy byQuoteDateDesc
                      (filter (matchesPrefix baseSymbol) quotes) with
              | latestSimilarQuote :: _ =>
                  parseFloatText (Quote.Close latestSimilarQuote)
              | [] => fromNetPrice
              end
          end
      | None => fromNetPrice
      end
  end.

(** The value one group adds to [holdingsValue]; [None] when reading
    [transactions[0]] raises. *)
Definition fixedIncomeGroupValue (data : PortfolioData.t)
    (entry : string * list Transaction.t) : option number :=
  let transactions := snd entry in
  let quantity := Processor.quantityOf transactions in
  match transactions with
  | [] => None
  | first :: _ =>
      let price :=
        fixedIncomePrice data (Transaction.Symbol first)
          (Transaction.Net_Price first) in
      let value := (quantity * price)%float in
      Some (if gt (PrimFloat.abs quantity) EPS then value else 0%float)
  end.

(** *** Current Holdings: the [aggregatedHoldings] table *)

(** The callback of [filteredHoldings.reduce]; the accumulator object is
    a map from symbol to row, in insertion order. *)
Definition aggregateHolding (acc : JSMap.t Holding.t) (holding : Holding.t)
  : JSMap.t Holding.t :=
  let row :=
    match JSMap.get acc (Holding.Symbol holding) with
    | Some row => row
    | None =>
        Holding.mk (Holding.Symbol holding) (Holding.Account holding)
          (Holding.Name holding) (Holding.Sector holding)
          (Holding.Status holding) 0%float 0%float
          (Holding.TotalCost holding) (Holding.AvgCost holding)
          (Holding.Price holding) 0%float 0%float
          (Holding.UnrealizedGainPct holding) (Holding.RealizedGain holding)
          (Holding.RealizedGainPct holding) (Holding.TotalReturn holding)
          (Holding.TotalReturnPct holding) (Holding.Db holding)
          (Holding.cashBalance holding)
    end in
  let quantity := (Holding.Quantity row + Holding.Quantity holding)%float in
  let value := (Holding.Value row + Holding.Value holding)%float in
  let cost := (Holding.Cost row + Holding.Cost holding)%float in
  let unrealizedGain :=
    (Holding.UnrealizedGain row + Holding.UnrealizedGain holding)%float in
  JSMap.set acc (Holding.Symbol holding)
    (Holding.mk (Holding.Symbol row) (Holding.Account row)
       (Holding.Name row) (Holding.Sector row) (Holding.Status row)
       quantity cost (Holding.TotalCost row)
       (cost / quantity)%float
       (Holding.Price row) value unrealizedGain
       ((unrealizedGain / cost) * 100)%float
       (Holding.RealizedGain row) (Holding.RealizedGainPct row)
       (Holding.TotalReturn row) (Holding.TotalReturnPct row)
       (Holding.Db row) (Holding.cashBalance row)).

Definition aggregatedHoldings (selectedAccount : string)
    (filteredHoldings : list Holding.t) : list Holding.t :=
  if selectedAccount =? "all"
  then JSMap.values (fold_left aggregateHolding filteredHoldings [])
  else filteredHoldings.

End WithHost.

End Components.

(** ** A concrete host for closed examples

    [Date.parse] on the date-only form [YYYY-MM-DD] of the ECMAScript date
    time string format (UTC midnight of that day, NaN for a day that does
    not exist); other texts, which an engine parses in its own way, are
    not dates here.  [toISOString] prints the proleptic Gregorian date of
    a time value. *)

Module Host.

Definition digitOf (c : ascii) : option Z :=
  let n := nat_of_ascii c in
  if ((48 <=? n) && (n <=? 57))%nat then Some (Z.of_nat (n - 48)) else None.

(** The number written by a string of decimal digits. *)
Fixpoint digitsFrom (acc : Z) (s : string) : option Z :=
  match s with
  | EmptyString => Some acc
  | String c s' =>
      match digitOf c with
      | Some d => digitsFrom (acc * 10 + d) s'
      | None => None
      end
  end.

Definition isLeapYear (y : Z) : bool :=
  ((y mod 4 =? 0) && negb (y mod 100 =? 0) || (y mod 400 =? 0))%Z.

Definition daysInMonth (y m : Z) : Z :=
  (if m =? 2 then (if isLeapYear y then 29 else 28)
   else if (m =? 4) || (m =? 6) || (m =? 9) || (m =? 11) then 30 else 31)%Z.

(** Days from 1970-01-01 to the given civil date. *)
Definition daysFromCivil (y m d : Z) : Z :=
  (let y' := if m <=? 2 then y - 1 else y in
   let era := y' / 400 in
   let yoe := y' - era * 400 in
   let mp := (m + 9) mod 12 in
   let doy := (153 * mp + 2) / 5 + d - 1 in
   let doe := yoe * 365 + yoe / 4 - yoe / 100 + doy in
   era * 146097 + doe - 719468)%Z.

(** The civil date of a day number. *)
Definition civilFromDays (z : Z) : Z * Z * Z :=
  (let z' := z + 719468 in
   let era := z' / 146097 in
   let doe := z' - era * 146097 in
   let yoe := (doe - doe / 1460 + doe / 36524 - doe / 146096) / 365 in
   let doy := doe - (365 * yoe + yoe / 4 - yoe / 100) in
   let mp := (5 * doy + 2) / 153 in
   let d := doy - (153 * mp + 2) / 5 + 1 in
   let m := if mp <? 10 then mp + 3 else mp - 9 in
   let y := yoe + era * 400 in
   (if m <=? 2 then y + 1 else y, m, d))%Z.

Definition msPerDay : Z := 86400000.

Definition getTime (s : string) : option Z :=
  match String.length s, String.get 4 s, String.get 7 s with
  | 10%nat, Some "-"%char, Some "-"%char =>
      match digitsFrom 0 (String.substring 0 4 s),
            digitsFrom 0 (String.substring 5 2 s),
            digitsFrom 0 (String.substring 8 2 s) with
      | Some y, Some m, Some d =>
          if ((1 <=? m) && (m <=? 12) && (1 <=? d)
              && (d <=? daysInMonth y m))%Z
          then Some (daysFromCivil y m d * msPerDay)%Z
          else None
      | _, _, _ => None
      end
  | _, _, _ => None
  end.

Definition digitText (d : Z) : string :=
  String (ascii_of_nat (48 + Z.to_nat d)) EmptyString.

(** [n] in [width] decimal digits, for [0 <= n < 10 ^ width]. *)
Fixpoint padded (width : nat) (n : Z) : string :=
  match width with
  | O => EmptyString
  | S w => (padded w (n / 10) ++ digitText (n mod 10))%string
  end.

Definition toISODate (ms : Z) : string :=
  let '(y, m, d) := civilFromDays (ms / msPerDay) in
  let year :=
    if ((0 <=? y) && (y <=? 9999))%Z then padded 4 y
    else if (y <? 0)%Z then ("-" ++ padded 6 (- y))%string
         else ("+" ++ padded 6 y)%string in
  (year ++ "-" ++ padded 2 m ++ "-" ++ padded 2 d)%string.

(** The [TypeError] message and the stack text as V8 words them. *)
Definition notAFunction : string := "t.Account?.trim is not a function".

Definition stackOf (message : string) : string :=
  ((if message =? notAFunction then "TypeError: " else "Error: ")
   ++ message ++ "
    at processPortfolioData")%string.

(** A caller's log function that appends to an array of messages. *)
Definition appendLog (message : string) (log : list string) : list string :=
  log ++ [message].

End Host.

(** ** The host in a time zone

    [Date.parse] also reads the form [MM/DD/YYYY], and reads it as local
    time: midnight of that day in the time zone of the host, which is
    [offset] minutes east of UTC.  The date-only ISO form is UTC midnight
    in every time zone, and [toISOString] prints the UTC date in every
    time zone.  (Other texts, and days that do not exist, which an engine
    reads in its own way, are not dates here.) *)

Module ZoneHost.

Definition msPerMinute : Z := 60000.

Definition getTime (offset : Z) (s : string) : option Z :=
  match Host.getTime s with
  | Some ms => Some ms
  | None =>
      match String.length s, String.get 2 s, String.get 5 s with
      | 10%nat, Some "/"%char, Some "/"%char =>
          match Host.digitsFrom 0 (String.substring 6 4 s),
                Host.digitsFrom 0 (String.substring 0 2 s),
                Host.digitsFrom 0 (String.substring 3 2 s) with
          | Some y, Some m, Some d =>
              if ((1 <=? m) && (m <=? 12) && (1 <=? d)
                  && (d <=? Host.daysInMonth y m))%Z
              then Some (Host.daysFromCivil y m d * Host.msPerDay
                         - offset * msPerMinute)%Z
              else None
          | _, _, _ => None
          end
      | _, _, _ => None
      end
  end.

End ZoneHost.

(** ** The export and import dialog *)

Module ExportImport.

(** The exported JSON envelope: the three raw input texts.  It is the
    object [JSON.parse] returns on the text [JSON.stringify] wrote, which
    for an object of three strings is the object written. *)
Record Envelope : Type := mkEnvelope {
  transactionsText : string;
  symbolsText : string;
  quotesText : string }.

(** [handleExport]: the content of the downloaded file. *)
Definition handleExport (transactions symbols quotes : string) : Envelope :=
  mkEnvelope transactions symbols quotes.

Section WithHost.

Variable getTime : string -> option Z.
Variable toISODate : Z -> string.
Variable stackOf : string -> string.
Variable notAFunction : string.
Variable parseTransactions : string -> list Transaction.t.
Variable parseSymbols : string -> list Symbol.t.
Variable parseQuotes : string -> list Quote.t.

(** [handleImport]: the data handed to [onDataImport], or [None] when the
    file is refused for missing raw data.  The pipeline is run again with
    the log function [() => {}] for all accounts. *)
Definition handleImport (importedData : Envelope) : option PortfolioData.t :=
  if negb (JSStr.truthy (transactionsText importedData))
     || negb (JSStr.truthy (symbolsText importedData))
     || negb (JSStr.truthy (quotesText importedData))
  then None
  else
    Some (fst (Processor.processPortfolioData getTime toISODate stackOf
                 notAFunction parseTransactions parseSymbols parseQuotes
                 unit (fun _ log => log)
                 (transactionsText importedData) (symbolsText importedData)
                 (quotesText importedData) "all" tt)).

End WithHost.

End ExportImport.

(** ** Views of the results, used to state their properties *)

Module Views.

Section WithHost.

Variable getTime : string -> option Z.

(** The groups a view shows, each a key with its rows in input order:
    all of them when zero quantities are included, else those whose net
    quantity exceeds 0.0001 in absolute value. *)
Definition viewGroups (includeZeroQuantity : bool)
    (transactions : list Transaction.t)
  : list (string * list Transaction.t) :=
  filter
    (fun entry =>
       Processor.included includeZeroQuantity
         (JSArr.sortBy (Processor.byDateAsc getTime) (snd entry)))
    (JSArr.groupBy Processor.holdingKey transactions).

(** The status a holding shows. *)
Definition statusText (statusType : option string)
    (transactions : list Transaction.t) : string :=
  match Processor.statusOf (Processor.displayStatusOf statusType)
          transactions with
  | Some s => s
  | None => ""
  end.

(** The holding of a group. *)
Definition groupHolding (transactions : list Transaction.t)
    (symbolMap : JSMap.t Symbol.t) (latestQuotes : JSMap.t Quote.t)
    (statusType : option string) (includeZeroQuantity : bool)
    (entry : string * list Transaction.t) : Holding.t :=
  let sorted := JSArr.sortBy (Processor.byDateAsc getTime) (snd entry) in
  Holding.withCashBalance
    (Processor.holdingOf symbolMap latestQuotes includeZeroQuantity
       (Processor.holdingsCash transactions) (fst entry) sorted
       (statusText statusType sorted))
    (Processor.holdingsCash transactions).

(** The transactions of an account that feed its two views: the "Open
    Items" rows, and the rows with one of the cleared statuses. *)
Definition accountTransactionsOf
    (accountTransactionsMap : JSMap.t (list Transaction.t))
    (account : string) : list Transaction.t :=
  match JSMap.get accountTransactionsMap account with
  | Some txs => txs
  | None => []
  end.

Definition openTransactionsOf
    (accountTransactionsMap : JSMap.t (list Transaction.t))
    (account : string) : list Transaction.t :=
  filter (fun tr => Transaction.Status_Tr tr =? "Open Items")
    (accountTransactionsOf accountTransactionsMap account).

Definition closedTransactionsOf
    (accountTransactionsMap : JSMap.t (list Transaction.t))
    (account : string) : list Transaction.t :=
  filter (fun tr => negb (Transaction.Status_Tr tr =? "Open Items")
                    && Processor.isClosedStatus (Transaction.Status_Tr tr))
    (accountTransactionsOf accountTransactionsMap account).

(** The groups of the Open Deposits table that it shows: the groups of
    the selected "Open Deposits" rows whose net quantity exceeds 0.0001 in
    absolute value. *)
Definition depositGroups (data : PortfolioData.t) (selectedAccount : string)
  : list (string * list Transaction.t) :=
  filter
    (fun entry => gt (PrimFloat.abs (Processor.quantityOf (snd entry))) EPS)
    (JSArr.groupBy Components.depositKey
       (filter (fun tr => (Transaction.Status_Tr tr =? "Open Deposits")
                          && Components.inAccount selectedAccount tr)
          (PortfolioData.transactions data))).

(** [best] is the quote of [symbol] with the latest date, and the first
    such quote in input order. *)
Definition firstLatest (symbol : string) (quotes : list Quote.t)
    (best : Quote.t) : Prop :=
  exists before after time,
    quotes = before ++ best :: after
    /\ Quote.Symbol best = symbol
    /\ getTime (Quote.Date best) = Some time
    /\ (forall q, In q before -> Quote.Symbol q = symbol ->
          exists t, getTime (Quote.Date q) = Some t /\ (t < time)%Z)
    /\ (forall q, In q after -> Quote.Symbol q = symbol ->
          exists t, getTime (Quote.Date q) = Some t /\ (t <= time)%Z).

(** *** The price fallback chain, in the specification's words *)

(** The first step that succeeds wins; the last resort is used when none
    does. *)
Fixpoint firstSuccess (steps : list (option number)) (lastResort : number)
  : number :=
  match steps with
  | [] => lastResort
  | Some price :: _ => price
  | None :: rest => firstSuccess rest lastResort
  end.

(** The entry of the symbol in the latest-quote index, when its close is
    positive. *)
Definition fromLatestIndex (data : PortfolioData.t) (symbol : string)
  : option number :=
  match PortfolioData.latestQuotes data with
  | Some latestQuotes =>
      match JSMap.get latestQuotes symbol with
      | Some quote =>
          if gt (Quote.Close quote) 0%float then Some (Quote.Close quote)
          else None
      | None => None
      end
  | None => None
  end.

(** The quote with the maximum date: a quote gives way only to a later
    quote whose date is strictly greater. *)
Fixpoint latestDated (quotes : list Quote.t) : option Quote.t :=
  match quotes with
  | [] => None
  | quote :: rest =>
      match latestDated rest with
      | Some best =>
          if Processor.dateGt getTime (Quote.Date best) (Quote.Date quote)
          then Some best else Some quote
      | None => Some quote
      end
  end.

(** The close of the latest-dated quote, among the quotes of the full list
    that match and have a positive close. *)
Definition fromQuotesList (matches : Quote.t -> bool) (data : PortfolioData.t)
  : option number :=
  match PortfolioData.quotes data with
  | Some quotes =>
      option_map Quote.Close
        (latestDated
           (filter (fun q => matches q && gt (Quote.Close q) 0%float) quotes))
  | None => None
  end.

Definition exactSymbol (symbol : string) (q : Quote.t) : bool :=
  Quote.Symbol q =? symbol.

(** The prefix match: the quotes whose symbol starts with the symbol
    stripped of its [@] suffix. *)
Definition prefixOf (symbol : string) (q : Quote.t) : bool :=
  JSStr.truthy (Quote.Symbol q)
  && JSStr.startsWith (Quote.Symbol q) (nth 0 (JSStr.split "@" symbol) "").

(** The group's own recorded net price, when it is a number other than
    zero. *)
Definition fromNetPrice (netPrice : number) : option number :=
  if JSNum.truthy netPrice then Some netPrice else None.

End WithHost.

(** The entries the series of the accounts have for a date: the first
    entry of that date in each series that has one. *)
Definition presentOn (date : string)
    (timeSeriesDataArray : list (list TimeSeriesDataPoint.t))
  : list TimeSeriesDataPoint.t :=
  flat_map
    (fun series =>
       match JSArr.find (fun e => TimeSeriesDataPoint.date e =? date) series
       with
       | Some entry => [entry]
       | None => []
       end)
    timeSeriesDataArray.

(** The merged entry of a date. *)
Definition mergedFor (date : string)
    (timeSeriesDataArray : list (list TimeSeriesDataPoint.t))
  : TimeSeriesDataPoint.t :=
  fold_left (Processor.mergeEntry date) timeSeriesDataArray (Processor.emptyMergedEntry date).

(** The sum [0 + (x1 || 0) + (x2 || 0) + ...] of a field over entries. *)
Definition sumOrZero (field : TimeSeriesDataPoint.t -> number)
    (entries : list TimeSeriesDataPoint.t) : number :=
  sumOf (fun e => orZero (field e)) entries.

(** The benchmark value kept from entries: the last one that is neither
    zero nor NaN, and zero when there is none. *)
Definition keptBenchmark (entries : list TimeSeriesDataPoint.t) : number :=
  match find (fun e => JSNum.truthy (TimeSeriesDataPoint.egx30 e))
          (rev entries) with
  | Some e => TimeSeriesDataPoint.egx30 e
  | None => 0%float
  end.

(** The value recorded under an account name: the total value of the
    last entry computed for that account. *)
Definition recordedFor (name : string)
    (entries : list TimeSeriesDataPoint.t) : option number :=
  if JSStr.truthy name
  then option_map TimeSeriesDataPoint.totalValue
         (find (fun e => TimeSeriesDataPoint.account e =? name) (rev entries))
  else None.

(** No point of a series with a positive total value is followed
    immediately by a point whose total value is zero. *)
Fixpoint noDropToZero (series : list TimeSeriesDataPoint.t) : Prop :=
  match series with
  | p :: (q :: _) as rest =>
      (gt (TimeSeriesDataPoint.totalValue p) 0%float = true ->
       seq (TimeSeriesDataPoint.totalValue q) 0%float = false)
      /\ noDropToZero rest
  | _ => True
  end.

(** The state of the replay is sound when the last total value it keeps
    is the total value of the last point, and no point so far drops to
    zero after a positive one. *)
Definition sound (st : Processor.Replay) : Prop :=
  noDropToZero (Processor.timeSeriesData st)
  /\ (Processor.timeSeriesData st <> [] ->
      forall d, Processor.lastValidTotalValue st =
                TimeSeriesDataPoint.totalValue (last (Processor.timeSeriesData st) d)).

End Views.

(** ** Views of the quotes a price is taken from *)

Module PriceViews.

(** Every quote of the full list that matches and has a positive close
    bears a date the host reads as a date. *)
Definition dated (getTime : string -> option Z) (matches : Quote.t -> bool)
    (data : PortfolioData.t) : Prop :=
  forall quotes q,
    PortfolioData.quotes data = Some quotes ->
    In q quotes -> matches q = true -> gt (Quote.Close q) 0%float = true ->
    getTime (Quote.Date q) <> None.

End PriceViews.

(** ** Example data *)

Module Examples.

(** A transaction of the specification's examples: only the fields the example
    gives are filled; the numeric cells it leaves out are blank (NaN). *)
Definition exampleTransaction (symbol account date status : string)
    (qtyChange costChange realized3 cashImpact : number) : Transaction.t :=
  Transaction.mk status symbol (CStr account) date PrimFloat.nan cashImpact
    qtyChange costChange realized3 "" PrimFloat.nan.

(** The transactions and the quote of the specification's example. *)
Definition exampleTransactions : list Transaction.t :=
  [exampleTransaction "X" "A" "" "" 100 1000 0 PrimFloat.nan;
   exampleTransaction "X" "A" "" "" (-40) (-400) 50 PrimFloat.nan].

Definition exampleQuotes : list Quote.t := [Quote.mk "" 12 "X"].


(** A position bought and sold back in full. *)
Definition closedOutTransactions : list Transaction.t :=
  [exampleTransaction "X" "A" "2024-01-01" "Cleared" 100 1000 0 (-1000);
   exampleTransaction "X" "A" "2024-02-01" "Cleared" (-100) (-1000) 50 1050].

(** Cash only: a deposit of 100, a withdrawal of 105 that overdraws the
    account, and a deposit of 5 that brings it back to nothing. *)
Definition overdraftTransactions : list Transaction.t :=
  [exampleTransaction "Cash" "A" "2024-01-01" "" PrimFloat.nan PrimFloat.nan
     PrimFloat.nan 100;
   exampleTransaction "Cash" "A" "2024-01-02" "" PrimFloat.nan PrimFloat.nan
     PrimFloat.nan (-105);
   exampleTransaction "Cash" "A" "2024-01-03" "" PrimFloat.nan PrimFloat.nan
     PrimFloat.nan 5].

(** A deposit of 1000, a purchase of 10 shares of ABC at 10 quoted that
    day, and a day without any quote. *)
Definition purchaseTransactions : list Transaction.t :=
  [exampleTransaction "Cash" "A" "2024-01-01" "" PrimFloat.nan PrimFloat.nan
     PrimFloat.nan 1000;
   exampleTransaction "ABC" "A" "2024-01-02" "Open Items" 10 100
     PrimFloat.nan (-100);
   exampleTransaction "Cash" "A" "2024-01-03" "" PrimFloat.nan PrimFloat.nan
     PrimFloat.nan 50].

Definition purchaseQuotes : list Quote.t := [Quote.mk "2024-01-02" 10 "ABC"].

(** The replay of that account when it reaches 2024-01-03, after the
    transactions of that date, and the valuation of its holdings on that
    date, for which there is no quote. *)
Definition purchaseReplay : Processor.Replay :=
  Processor.applyDate purchaseTransactions
    (fold_left
       (Processor.replayDate purchaseTransactions
          (Processor.egx30MapOf purchaseQuotes)
          (Processor.quotesByDateAndSymbolOf purchaseQuotes)
          (Processor.latestQuotesOf Host.getTime purchaseQuotes) "A")
       ["2024-01-01"; "2024-01-02"] Processor.initialReplay)
    "2024-01-03".

Definition purchaseValuation : Processor.DayValuation :=
  Processor.valueDay None
    (Processor.latestQuotesOf Host.getTime purchaseQuotes) purchaseReplay.

(** Two quotes of one symbol on one date. *)
Definition tiedQuotes : list Quote.t :=
  [Quote.mk "2024-01-01" 1 "X"; Quote.mk "2024-01-01" 2 "X"].

(** The series of two accounts that each report a total value of 100 on
    2024-01-01, all in cash. *)
Definition seriesOf (account : string) : list TimeSeriesDataPoint.t :=
  [TimeSeriesDataPoint.mk "2024-01-01" 100 0 100 0 0 0 None account []].

(** A purchase of 10 units of a symbol no quote knows, at a recorded net
    price of 7. *)
Definition unquotedTransactions : list Transaction.t :=
  [Transaction.mk "Open Items" "NEW" (CStr "A") "2024-01-01" 7 (-70) 10 70
     0 "" 70].

(** An open deposit in a bill whose own symbol has no quote, while a
    bill of the same family has one. *)
Definition billTransactions : list Transaction.t :=
  [Transaction.mk "Open Deposits" "TBILL@2025" (CStr "A") "2024-01-01" 95
     (-950) 10 950 0 "" 950].

Definition billQuotes : list Quote.t :=
  [Quote.mk "2024-01-01" 97 "TBILL@2024"].

(** Quotes of one symbol on three dates, not in date order. *)
Definition datedQuotes : list Quote.t :=
  [Quote.mk "2024-01-02" 11 "X"; Quote.mk "2024-01-03" 12 "X";
   Quote.mk "2024-01-01" 10 "X"].

(** A portfolio whose latest-quote index lacks the quoted symbol, as
    after an import that lost the index. *)
Definition datedData : PortfolioData.t :=
  PortfolioData.mk [] [] [] [] [] (Some datedQuotes) None
    (SummaryMetrics.mk 0 0 0 0 0).

Definition billData : PortfolioData.t :=
  PortfolioData.mk [] [] [] [] billTransactions (Some billQuotes)
    (Some (Processor.latestQuotesOf Host.getTime billQuotes))
    (SummaryMetrics.mk 0 0 0 0 0).

(** Ten bonus shares, received at no cost, of a symbol that closes at 5;
    the same shares without any quote; and a position whose book cost is
    negative after its cost was more than recovered. *)
Definition bonusTransactions : list Transaction.t :=
  [exampleTransaction "BON" "A" "2024-01-01" "Open Items" 10 0 0 0].

Definition bonusQuotes : list Quote.t := [Quote.mk "2024-01-01" 5 "BON"].

Definition recoveredTransactions : list Transaction.t :=
  [exampleTransaction "REC" "A" "2024-01-01" "Open Items" 10 (-100) 0 0].

Definition recoveredQuotes : list Quote.t := [Quote.mk "2024-01-01" 5 "REC"].

(** A transactions table in which the account is a number: with
    [dynamicTyping] the parser delivers the number 123, not a string. *)
Definition numericAccountText : string := "Symbol,Account,Qty Change
X,123,10".

Definition twoAccountsText : string := "Symbol,Account,Cash Impact
Cash,A,100
Cash,B,100".

(** What the parser returns on the texts of the examples (and no row on
    any other text). *)
Definition parseTransactions (text : string) : list Transaction.t :=
  if text =? numericAccountText then
    [Transaction.mk "" "X" (COther true "123") "" PrimFloat.nan PrimFloat.nan
       10 PrimFloat.nan PrimFloat.nan "" PrimFloat.nan]
  else if text =? twoAccountsText then
    [exampleTransaction "Cash" "A" "" "" PrimFloat.nan PrimFloat.nan
       PrimFloat.nan 100;
     exampleTransaction "Cash" "B" "" "" PrimFloat.nan PrimFloat.nan
       PrimFloat.nan 100]
  else [].

Definition parseSymbols (text : string) : list Symbol.t := [].

Definition parseQuotes (text : string) : list Quote.t := [].

(** The pipeline on the concrete host, logging to an array. *)
Definition run (transactionsText symbolsText quotesText
    selectedAccount : string) : PortfolioData.t * list string :=
  Processor.processPortfolioData Host.getTime Host.toISODate Host.stackOf
    Host.notAFunction parseTransactions parseSymbols parseQuotes
    (list string) Host.appendLog transactionsText symbolsText quotesText
    selectedAccount [].

(** Cash only: a deposit of 1000 withdrawn in full the next day. *)
Definition withdrawnTransactions : list Transaction.t :=
  [exampleTransaction "Cash" "A" "2024-01-01" "" PrimFloat.nan PrimFloat.nan
     PrimFloat.nan 1000;
   exampleTransaction "Cash" "A" "2024-01-02" "" PrimFloat.nan PrimFloat.nan
     PrimFloat.nan (-1000)].

(** Benchmark quotes on the first and the third day of the purchase
    account, the first day quoted twice. *)
Definition benchmarkQuotes : list Quote.t :=
  [Quote.mk "2024-01-01" 30000 "EGX30"; Quote.mk "2024-01-01" 30100 "EGX30";
   Quote.mk "2024-01-03" 0 "EGX30"].

(** Ten shares of a symbol written with a hyphen, and quotes of that
    symbol and of the text before its hyphen. *)
Definition hyphenTransactions : list Transaction.t :=
  [exampleTransaction "ABC-D" "A" "2024-01-01" "Open Items" 10 100 0 (-100)].

Definition hyphenQuotes : JSMap.t Quote.t :=
  [("ABC-D", Quote.mk "2024-01-01" 12 "ABC-D");
   ("ABC", Quote.mk "2024-01-01" 3 "ABC")].

(** The open deposit in a bill, with a quote of the bill itself. *)
Definition quotedBillQuotes : list Quote.t :=
  [Quote.mk "2024-01-01" 97 "TBILL@2025"].

Definition quotedBillData : PortfolioData.t :=
  PortfolioData.mk [] [] [] [] billTransactions (Some quotedBillQuotes)
    (Some (Processor.latestQuotesOf Host.getTime quotedBillQuotes))
    (SummaryMetrics.mk 0 0 0 0 0).

(** A deposit bought and redeemed in full, at a recorded net price
    of 100. *)
Definition redeemedTransactions : list Transaction.t :=
  [Transaction.mk "Closed Deposits" "CD1" (CStr "A") "2024-01-01" 100
     (-1000) 10 1000 0 "" 1000;
   Transaction.mk "Closed Deposits" "CD1" (CStr "A") "2024-06-01" 105
     1050 (-10) (-1000) 50 "" 0].

Definition redeemedData : PortfolioData.t :=
  PortfolioData.mk [] [] [] [] redeemedTransactions (Some []) (Some [])
    (SummaryMetrics.mk 0 0 0 0 0).

(** The same position, bought and sold back in full, in rows that still
    bear the status "Open Items". *)
Definition soldOutTransactions : list Transaction.t :=
  [exampleTransaction "X" "A" "2024-01-01" "Open Items" 100 1000 0 (-1000);
   exampleTransaction "X" "A" "2024-02-01" "Open Items" (-100) (-1000) 50
     1050].

(** Ten shares of ABC bought for 90 and quoted at 10 on the first day; on
    the second day, for which ABC has no quote, 100 are paid for a time
    deposit booked at a cost of 20 and quoted at 10. *)
Definition timeDepositTransactions : list Transaction.t :=
  [exampleTransaction "ABC" "A" "2024-01-01" "Open Items" 10 90
     PrimFloat.nan 0;
   exampleTransaction "TD" "A" "2024-01-02" "Time Deposit" 1 20
     PrimFloat.nan (-100)].

Definition timeDepositQuotes : list Quote.t :=
  [Quote.mk "2024-01-01" 10 "ABC"; Quote.mk "2024-01-02" 10 "TD"].

(** The replay of that account when it reaches the second day, after the
    transactions of that day, and the valuation of its holdings on that
    day. *)
Definition timeDepositReplay : Processor.Replay :=
  Processor.applyDate timeDepositTransactions
    (fold_left
       (Processor.replayDate timeDepositTransactions
          (Processor.egx30MapOf timeDepositQuotes)
          (Processor.quotesByDateAndSymbolOf timeDepositQuotes)
          (Processor.latestQuotesOf Host.getTime timeDepositQuotes) "A")
       ["2024-01-01"] Processor.initialReplay)
    "2024-01-02".

Definition timeDepositDayPrices : option (JSMap.t number) :=
  JSMap.get (Processor.quotesByDateAndSymbolOf timeDepositQuotes)
    "2024-01-02".

Definition timeDepositValuation : Processor.DayValuation :=
  Processor.valueDay timeDepositDayPrices
    (Processor.latestQuotesOf Host.getTime timeDepositQuotes)
    timeDepositReplay.

End Examples.

(** ** Views of a time series *)

Module SeriesViews.

(** The transactions a series replays: all of them for "all", else those
    whose account cell is the selected account. *)
Definition replayed (transactions : list Transaction.t)
    (selectedAccount : string) : list Transaction.t :=
  if selectedAccount =? "all" then transactions
  else filter (fun tr => JSCell.isStr (Transaction.Account tr) selectedAccount)
         transactions.

(** The transactions of a date, in input order, and those of a list of
    dates, date after date. *)
Definition rowsOn (accountTransactions : list Transaction.t) (date : string)
  : list Transaction.t :=
  filter (fun tr => Transaction.Date tr =? date) accountTransactions.

Definition rowsUpTo (accountTransactions : list Transaction.t)
    (dates : list string) : list Transaction.t :=
  flat_map (rowsOn accountTransactions) dates.

(** The benchmark close of a date: that of the last quote of "EGX30" for
    that date with a positive close. *)
Definition benchmarkOn (quotes : list Quote.t) (date : string)
  : option number :=
  option_map Quote.Close
    (find (fun q => (Quote.Symbol q =? "EGX30") && (Quote.Date q =? date)
                    && gt (Quote.Close q) 0%float)
       (rev quotes)).

(** Whether some quote with a symbol bears the date. *)
Definition quotedOn (quotes : list Quote.t) (date : string) : bool :=
  existsb (fun q => (Quote.Date q =? date) && JSStr.truthy (Quote.Symbol q))
    quotes.

(** Each text is strictly less than the next, in the order of [sort]. *)
Definition ascending (texts : list string) : Prop :=
  Sorted (fun a b => String.ltb a b = true) texts.

(** The cash and the realized gain accumulated over the transactions of
    a list of dates, added in the order of the replay. *)
Definition cashUpTo (accountTransactions : list Transaction.t)
    (dates : list string) : number :=
  sumOf (fun tr => orZero (Transaction.Cash_Impact tr))
    (rowsUpTo accountTransactions dates).

Definition realizedUpTo (accountTransactions : list Transaction.t)
    (dates : list string) : number :=
  sumOf (fun tr => orZero (Transaction.Realized3 tr))
    (rowsUpTo accountTransactions dates).

(** The benchmark carried over a list of dates: the close of the last of
    them that has one, 0 when none has. *)
Definition carriedBenchmark (quotes : list Quote.t) (dates : list string)
  : number :=
  fold_left
    (fun carried date =>
       match benchmarkOn quotes date with
       | Some close => close
       | None => carried
       end)
    dates 0%float.

(** The [hasQuotes] flag of a date. *)
Definition flagOn (quotes : list Quote.t) (date : string) : option bool :=
  if quotedOn quotes date then Some true else None.

(** The total of a point is its equity plus its cash, or the positive
    total of the point before it. *)
Definition totalFollows (previous : number) (point : TimeSeriesDataPoint.t)
  : Prop :=
  TimeSeriesDataPoint.totalValue point
  = (TimeSeriesDataPoint.equityValue point
     + TimeSeriesDataPoint.cashValue point)%float
  \/ (gt previous 0%float = true
      /\ TimeSeriesDataPoint.totalValue point = previous).

Fixpoint totalsFollow (previous : number)
    (series : list TimeSeriesDataPoint.t) : Prop :=
  match series with
  | [] => True
  | point :: rest =>
      totalFollows previous point
      /\ totalsFollow (TimeSeriesDataPoint.totalValue point) rest
  end.

(** The total of the last point of a series, [start] for the empty one. *)
Definition lastTotal (start : number) (series : list TimeSeriesDataPoint.t)
  : number :=
  fold_left (fun _ point => TimeSeriesDataPoint.totalValue point) series start.

(** What the replay has established after the dates [done]. *)
Definition tracks (accountTransactions : list Transaction.t)
    (quotes : list Quote.t) (selectedAccount : string)
    (st : Processor.Replay) (done : list string) : Prop :=
  map TimeSeriesDataPoint.date (Processor.timeSeriesData st) = done
  /\ Processor.cashBalance st = cashUpTo accountTransactions done
  /\ Processor.totalRealizedGain st = realizedUpTo accountTransactions done
  /\ Processor.lastValidEgx30Value st = carriedBenchmark quotes done
  /\ Processor.lastValidTotalValue st
     = lastTotal 0%float (Processor.timeSeriesData st)
  /\ totalsFollow 0%float (Processor.timeSeriesData st)
  /\ forall i point,
       nth_error (Processor.timeSeriesData st) i = Some point ->
       TimeSeriesDataPoint.cashValue point
       = cashUpTo accountTransactions (firstn (S i) done)
       /\ TimeSeriesDataPoint.realizedGain point
          = realizedUpTo accountTransactions (firstn (S i) done)
       /\ TimeSeriesDataPoint.egx30 point
          = carriedBenchmark quotes (firstn (S i) done)
       /\ TimeSeriesDataPoint.hasQuotes point
          = flagOn quotes (TimeSeriesDataPoint.date point)
       /\ TimeSeriesDataPoint.account point = selectedAccount
       /\ TimeSeriesDataPoint.accountValues point = [].

(** The replay of an account without transactions: nothing is held, and
    every amount is zero. *)
Definition idle (st : Processor.Replay) : Prop :=
  Processor.cashBalance st = 0%float
  /\ Processor.holdings st = []
  /\ Processor.timeDepositHoldings st = []
  /\ Processor.totalRealizedGain st = 0%float
  /\ Processor.lastValidEquityValue st = 0%float
  /\ Processor.lastValidUnrealizedGain st = 0%float
  /\ Processor.lastValidTotalValue st = 0%float.

Definition flat (point : TimeSeriesDataPoint.t) : Prop :=
  TimeSeriesDataPoint.cashValue point = 0%float
  /\ TimeSeriesDataPoint.equityValue point = 0%float
  /\ TimeSeriesDataPoint.totalValue point = 0%float
  /\ TimeSeriesDataPoint.realizedGain point = 0%float
  /\ TimeSeriesDataPoint.unrealizedGain point = 0%float.

End SeriesViews.

(** ** Views of a run of the pipeline *)

Module PipelineViews.

(** An account name the grouping accepts. *)
Definition validName (name : string) : bool :=
  JSStr.truthy name && negb (name =? "all") && negb (name =? "All Accounts").

(** The transaction's account cell is a text that trims to [name]. *)
Definition belongsTo (name : string) (tr : Transaction.t) : bool :=
  match Transaction.Account tr with
  | CStr s => JSStr.trim s =? name
  | _ => false
  end.

(** The array a map of arrays holds under a key, empty without the key. *)
Definition groupAt {A} (m : JSMap.t (list A)) (k : string) : list A :=
  match JSMap.get m k with
  | Some g => g
  | None => []
  end.

Section WithHost.

Variable getTime : string -> option Z.
Variable toISODate : Z -> string.
Variable parseTransactions : string -> list Transaction.t.
Variable parseSymbols : string -> list Symbol.t.
Variable parseQuotes : string -> list Quote.t.

(** The parsed rows after their dates are standardized, and the indexes
    built from them. *)
Definition transactionsOf (transactionsText : string) : list Transaction.t :=
  map (fun tr =>
         if JSStr.truthy (Transaction.Date tr)
         then Transaction.withDate tr
                (Processor.standardizeDate getTime toISODate
                   (Transaction.Date tr))
         else tr)
    (parseTransactions transactionsText).

Definition quotesOf (quotesText : string) : list Quote.t :=
  map (fun q =>
         if JSStr.truthy (Quote.Date q)
         then Quote.withDate q
                (Processor.standardizeDate getTime toISODate (Quote.Date q))
         else q)
    (parseQuotes quotesText).

Definition symbolMapOf (symbolsText : string) : JSMap.t Symbol.t :=
  fold_left (fun m s => JSMap.set m (Symbol.Symbol s) s)
    (parseSymbols symbolsText) [].

(** The account of a name, as the run computes it from the transactions
    grouped under that name. *)
Definition accountOf (symbolsText quotesText : string)
    (accountTransactionsMap : JSMap.t (list Transaction.t)) (name : string)
  : AccountData.t :=
  Processor.processAccount getTime accountTransactionsMap
    (symbolMapOf symbolsText)
    (Processor.latestQuotesOf getTime (quotesOf quotesText))
    (quotesOf quotesText)
    (Processor.datesOf (map Quote.Date (quotesOf quotesText)))
    name.

End WithHost.

End PipelineViews.

(** ** Example runs *)

Module RunExamples.

(** Three cash movements; the account of the second is the name of the
    first between spaces. *)
Definition paddedAccountText : string := "Symbol,Account,Date,Cash Impact
Cash,A,2024-01-01,100
Cash, A ,2024-01-02,50
Cash,B,2024-01-01,7".

Definition paddedAccountRows : list Transaction.t :=
  [Examples.exampleTransaction "Cash" "A" "2024-01-01" "" PrimFloat.nan
     PrimFloat.nan PrimFloat.nan 100;
   Examples.exampleTransaction "Cash" " A " "2024-01-02" "" PrimFloat.nan
     PrimFloat.nan PrimFloat.nan 50;
   Examples.exampleTransaction "Cash" "B" "2024-01-01" "" PrimFloat.nan
     PrimFloat.nan PrimFloat.nan 7].

(** What the parser returns on that text (and no row on any other). *)
Definition parseTransactions (text : string) : list Transaction.t :=
  if text =? paddedAccountText then paddedAccountRows else [].

(** The pipeline on the concrete host, without a log. *)
Definition run (transactionsText selectedAccount : string)
  : PortfolioData.t :=
  fst (Processor.processPortfolioData Host.getTime Host.toISODate
         Host.stackOf Host.notAFunction parseTransactions
         Examples.parseSymbols Examples.parseQuotes unit (fun _ log => log)
         transactionsText "Symbol" "Date,Close,Symbol" selectedAccount tt).

(** The first account of the run on that text. *)
Definition paddedAccount : AccountData.t :=
  nth 0 (PortfolioData.accounts (run paddedAccountText "all"))
    (AccountData.mk "" [] [] [] (SummaryMetrics.mk 0 0 0 0 0)).

End RunExamples.

(** ** Example runs: accounts written with white space that is not ASCII *)

Module SpaceExamples.

(** A no-break space (U+00A0), in UTF-8. *)
Definition nbsp : string := String "194" (String "160" "").

(** Two deposits into account A, the second written with a no-break
    space after the name, and one into account B. *)
Definition rows : list Transaction.t :=
  [Examples.exampleTransaction "Cash" "A" "2024-01-01" "" PrimFloat.nan
     PrimFloat.nan PrimFloat.nan 100;
   Examples.exampleTransaction "Cash" ("A" ++ nbsp) "2024-01-02" ""
     PrimFloat.nan PrimFloat.nan PrimFloat.nan 50;
   Examples.exampleTransaction "Cash" "B" "2024-01-01" "" PrimFloat.nan
     PrimFloat.nan PrimFloat.nan 7].

Definition text : string :=
  "Symbol,Account,Date,Cash Impact
Cash,A,2024-01-01,100
Cash,A" ++ nbsp ++ ",2024-01-02,50
Cash,B,2024-01-01,7".

(** What the parser returns on that text (and no row on any other). *)
Definition parseTransactions (transactionsText : string)
  : list Transaction.t :=
  if transactionsText =? text then rows else [].

Definition run (selectedAccount : string) : PortfolioData.t :=
  fst (Processor.processPortfolioData Host.getTime Host.toISODate
         Host.stackOf Host.notAFunction parseTransactions
         Examples.parseSymbols Examples.parseQuotes unit (fun _ log => log)
         text "Symbol" "Date,Close,Symbol" selectedAccount tt).

End SpaceExamples.

(** ** Example runs: a position sold out under the status "Open Items" *)

Module StatusExamples.

Definition text : string :=
  "Status Tr,Symbol,Account,Date,Qty Change,Cost change,Realized3,Cash Impact
Open Items,X,A,2024-01-01,100,1000,0,-1000
Open Items,X,A,2024-02-01,-100,-1000,50,1050".

(** What the parser returns on that text (and no row on any other). *)
Definition parseTransactions (transactionsText : string)
  : list Transaction.t :=
  if transactionsText =? text then Examples.soldOutTransactions else [].

Definition run (selectedAccount : string) : PortfolioData.t :=
  fst (Processor.processPortfolioData Host.getTime Host.toISODate
         Host.stackOf Host.notAFunction parseTransactions
         Examples.parseSymbols Examples.parseQuotes unit (fun _ log => log)
         text "Symbol" "Date,Close,Symbol" selectedAccount tt).

End StatusExamples.

(** ** Example runs: a date written month first, read in two time zones *)

Module ZoneExamples.

Definition text : string :=
  "Symbol,Account,Date,Cash Impact
Cash,A,01/02/2024,100".

(** What the parser returns on that text (and no row on any other). *)
Definition parseTransactions (transactionsText : string)
  : list Transaction.t :=
  if transactionsText =? text then
    [Examples.exampleTransaction "Cash" "A" "01/02/2024" "" PrimFloat.nan
       PrimFloat.nan PrimFloat.nan 100]
  else [].

(** The pipeline on a host [offset] minutes east of UTC. *)
Definition run (offset : Z) (selectedAccount : string) : PortfolioData.t :=
  fst (Processor.processPortfolioData (ZoneHost.getTime offset)
         Host.toISODate Host.stackOf Host.notAFunction parseTransactions
         Examples.parseSymbols Examples.parseQuotes unit (fun _ log => log)
         text "Symbol" "Date,Close,Symbol" selectedAccount tt).

(** The same pipeline on a table of ISO dates. *)
Definition runISO (offset : Z) (selectedAccount : string) : PortfolioData.t :=
  fst (Processor.processPortfolioData (ZoneHost.getTime offset)
         Host.toISODate Host.stackOf Host.notAFunction
         RunExamples.parseTransactions Examples.parseSymbols
         Examples.parseQuotes unit (fun _ log => log)
         RunExamples.paddedAccountText "Symbol" "Date,Close,Symbol"
         selectedAccount tt).

End ZoneExamples.

(** ** Views of a holding *)

Module HoldingViews.

(** The text before the first ["-"] of a text. *)
Definition headSegment (s : string) : string :=
  nth 0 (JSStr.split "-" s) "".

(** The name, the sector and the price [processHoldings] finds for a
    symbol. *)
Definition nameOf (symbolMap : JSMap.t Symbol.t) (symbol : string) : string :=
  match JSMap.get symbolMap symbol with
  | Some info => JSStr.orElse (Symbol.Sh_name_eng info) symbol
  | None => symbol
  end.

Definition sectorOf (symbolMap : JSMap.t Symbol.t) (symbol : string)
  : string :=
  match JSMap.get symbolMap symbol with
  | Some info => JSStr.orElse (Symbol.Sector info) "Unknown"
  | None => "Unknown"
  end.

Definition priceOf (latestQuotes : JSMap.t Quote.t) (symbol : string)
  : number :=
  match JSMap.get latestQuotes symbol with
  | Some quote => Quote.Close quote
  | None => 0%float
  end.

(** What every current holding and every closed position of an account
    satisfies. *)
Definition current (h : Holding.t) : Prop :=
  Holding.Status h = "Open Items"
  /\ gt (PrimFloat.abs (Holding.Quantity h)) EPS = true.

Definition closed (h : Holding.t) : Prop :=
  Processor.isClosedStatus (Holding.Status h) = true
  /\ Holding.UnrealizedGain h = 0%float
  /\ Holding.TotalReturn h = Holding.RealizedGain h.

End HoldingViews.

(** ** Measures: the "Fixed Income Value" measure *)

Module Measures.

Section WithHost.

Variable getTime : string -> option Z.

(** The body of [symbolAccountGroups.forEach] in the measure:
    [holdingsValue] after one more group; [None] once reading
    [transactions[0]] has raised. *)
Definition fixedIncomeStep (data : PortfolioData.t)
    (holdingsValue : option number) (entry : string * list Transaction.t)
  : option number :=
  match holdingsValue, snd entry with
  | Some total, first :: _ =>
      let quantity := Processor.quantityOf (snd entry) in
      let price :=
        Components.fixedIncomePrice getTime data (Transaction.Symbol first)
          (Transaction.Net_Price first) in
      let value := (quantity * price)%float in
      Some (if gt (PrimFloat.abs quantity) EPS then (total + value)%float
            else total)
  | _, _ => None
  end.

(** The value of the measure. *)
Definition fixedIncomeValue (data : PortfolioData.t)
    (selectedAccount : string) : option number :=
  let openDepositsTransactions :=
    filter (fun tr => (Transaction.Status_Tr tr =? "Open Deposits")
                      && Components.inAccount selectedAccount tr)
      (PortfolioData.transactions data) in
  fold_left (fixedIncomeStep data)
    (JSArr.groupBy Components.depositKey openDepositsTransactions)
    (Some 0%float).

End WithHost.

(** [openDeposits.reduce((sum, h) => sum + h.Value, 0)] in the Open
    Deposits table. *)
Definition depositsValue (rows : list Components.DepositHolding) : number :=
  sumOf Components.dValue rows.

(** The latest-quote index of the data has a positive close for the
    symbol. *)
Definition quotedPositive (data : PortfolioData.t) (symbol : string) : Prop :=
  exists latestQuotes quote,
    PortfolioData.latestQuotes data = Some latestQuotes
    /\ JSMap.get latestQuotes symbol = Some quote
    /\ gt (Quote.Close quote) 0%float = true.

End Measures.

(** ** Tables that aggregate rows by a key *)

Module Aggregation.

(** The callback of a [reduce] that keeps one row for each key: the row
    of the key, created from the element when the key is new, then
    updated with the element. *)
Definition step {A R} (key : A -> string) (init : A -> R)
    (add : R -> A -> R) (acc : JSMap.t R) (x : A) : JSMap.t R :=
  JSMap.set acc (key x)
    (add match JSMap.get acc (key x) with
         | Some row => row
         | None => init x
         end x).

(** The elements of a key, in input order. *)
Definition sameKey {A} (key : A -> string) (xs : list A) (k : string)
  : list A :=
  filter (fun x => key x =? k) xs.

End Aggregation.

(** *** Closed Positions: the table and its counters *)

Module ClosedPositionsTable.

Section WithSearch.

(** The test of the search box on a position, for the term typed. *)
Variable matchesSearch : Holding.t -> bool.

Definition accountFiltered (closedPositions : list Holding.t)
    (selectedAccount : string) : list Holding.t :=
  if selectedAccount =? "all" then closedPositions
  else filter (fun p => Holding.Account p =? selectedAccount) closedPositions.

Definition isRE (p : Holding.t) : bool :=
  (Holding.Status p =? "Cleared") || (Holding.Status p =? "Cleared-RE")
  || (Holding.Status p =? "Clered -RE").

Definition statusFiltered (closedPositions : list Holding.t)
    (selectedAccount statusFilter : string) : list Holding.t :=
  let searchFiltered :=
    filter matchesSearch (accountFiltered closedPositions selectedAccount) in
  if statusFilter =? "all" then searchFiltered
  else if statusFilter =? "Cleared" then filter isRE searchFiltered
  else filter (fun p => Holding.Status p =? statusFilter) searchFiltered.

(** [`${position.Symbol}-${position.Status}`]. *)
Definition positionKey (position : Holding.t) : string :=
  (Holding.Symbol position ++ "-" ++ Holding.Status position)%string.

(** [{ ...position, Quantity: 0, Cost: 0, RealizedGain: 0, TotalCost: 0,
    Db: 0 }]. *)
Definition emptiedPosition (position : Holding.t) : Holding.t :=
  Holding.mk (Holding.Symbol position) (Holding.Account position)
    (Holding.Name position) (Holding.Sector position)
    (Holding.Status position) 0%float 0%float 0%float
    (Holding.AvgCost position) (Holding.Price position)
    (Holding.Value position) (Holding.UnrealizedGain position)
    (Holding.UnrealizedGainPct position) 0%float
    (Holding.RealizedGainPct position) (Holding.TotalReturn position)
    (Holding.TotalReturnPct position) 0%float (Holding.cashBalance position).

(** The updates of [entry] for one position. *)
Definition addPosition (entry position : Holding.t) : Holding.t :=
  let quantity := (Holding.Quantity entry + Holding.Quantity position)%float in
  let cost := (Holding.Cost entry + Holding.Cost position)%float in
  let totalCost :=
    (Holding.TotalCost entry + Holding.TotalCost position)%float in
  let realizedGain :=
    (Holding.RealizedGain entry + orZero (Holding.RealizedGain position))%float in
  let db := (Holding.Db entry + orZero (Holding.Db position))%float in
  Holding.mk (Holding.Symbol entry) (Holding.Account entry)
    (Holding.Name entry) (Holding.Sector entry) (Holding.Status entry)
    quantity cost totalCost (Holding.AvgCost entry) (Holding.Price entry)
    (Holding.Value entry) (Holding.UnrealizedGain entry)
    (Holding.UnrealizedGainPct entry) realizedGain
    (if sne totalCost 0%float
     then ((realizedGain / PrimFloat.abs totalCost) * 100)%float
     else 0%float)
    (Holding.TotalReturn entry) (Holding.TotalReturnPct entry) db
    (Holding.cashBalance entry).

(** The callback of [statusFiltered.reduce]; the accumulator object is a
    map from key to row in insertion order (a key holds a ["-"], so it is
    neither an array index nor a property of [Object.prototype]). *)
Definition aggregatePosition (acc : JSMap.t Holding.t)
    (position : Holding.t) : JSMap.t Holding.t :=
  let key := positionKey position in
  let entry :=
    match JSMap.get acc key with
    | Some entry => entry
    | None => emptiedPosition position
    end in
  JSMap.set acc key (addPosition entry position).

Definition getFilteredPositions (closedPositions : list Holding.t)
    (selectedAccount statusFilter : string) : list Holding.t :=
  let filtered := statusFiltered closedPositions selectedAccount statusFilter in
  if selectedAccount =? "all"
  then JSMap.values (fold_left aggregatePosition filtered [])
  else filtered.

End WithSearch.

(** The counters of the tabs. *)
Record StatusCounts : Type := mkStatusCounts {
  allCount : nat;
  ytdCount : nat;
  pydCount : nat;
  reCount : nat }.

Definition calculateStatusCounts (closedPositions : list Holding.t)
    (selectedAccount : string) : StatusCounts :=
  let accountFiltered := accountFiltered closedPositions selectedAccount in
  let ytdPositions :=
    filter (fun p => Holding.Status p =? "YTD Clear") accountFiltered in
  let pydPositions :=
    filter (fun p => Holding.Status p =? "PYD Clear") accountFiltered in
  let rePositions := filter isRE accountFiltered in
  let ytdSymbols := JSStr.setOf (map Holding.Symbol ytdPositions) in
  let pydSymbols := JSStr.setOf (map Holding.Symbol pydPositions) in
  let reSymbols := JSStr.setOf (map Holding.Symbol rePositions) in
  let allSymbols :=
    JSStr.setOf (map Holding.Symbol ytdPositions
                 ++ map Holding.Symbol pydPositions
                 ++ map Holding.Symbol rePositions) in
  mkStatusCounts (List.length allSymbols) (List.length ytdSymbols)
    (List.length pydSymbols) (List.length reSymbols).

End ClosedPositionsTable.

(** *** Current Holdings: the two halves of the aggregation callback *)

Module CurrentHoldingsTable.

(** [{ ...holding, Quantity: 0, Value: 0, Cost: 0, UnrealizedGain: 0 }]. *)
Definition emptiedHolding (holding : Holding.t) : Holding.t :=
  Holding.mk (Holding.Symbol holding) (Holding.Account holding)
    (Holding.Name holding) (Holding.Sector holding)
    (Holding.Status holding) 0%float 0%float
    (Holding.TotalCost holding) (Holding.AvgCost holding)
    (Holding.Price holding) 0%float 0%float
    (Holding.UnrealizedGainPct holding) (Holding.RealizedGain holding)
    (Holding.RealizedGainPct holding) (Holding.TotalReturn holding)
    (Holding.TotalReturnPct holding) (Holding.Db holding)
    (Holding.cashBalance holding).

(** The updates of [acc[holding.Symbol]] for one holding. *)
Definition addHolding (row holding : Holding.t) : Holding.t :=
  let quantity := (Holding.Quantity row + Holding.Quantity holding)%float in
  let value := (Holding.Value row + Holding.Value holding)%float in
  let cost := (Holding.Cost row + Holding.Cost holding)%float in
  let unrealizedGain :=
    (Holding.UnrealizedGain row + Holding.UnrealizedGain holding)%float in
  Holding.mk (Holding.Symbol row) (Holding.Account row)
    (Holding.Name row) (Holding.Sector row) (Holding.Status row)
    quantity cost (Holding.TotalCost row)
    (cost / quantity)%float
    (Holding.Price row) value unrealizedGain
    ((unrealizedGain / cost) * 100)%float
    (Holding.RealizedGain row) (Holding.RealizedGainPct row)
    (Holding.TotalReturn row) (Holding.TotalReturnPct row)
    (Holding.Db row) (Holding.cashBalance row).

End CurrentHoldingsTable.

(** ** The performance chart *)

Module PerformanceChart.

Record ChartDataPoint : Type := mkChartDataPoint {
  date : option Z;          (* [new Date(d.date).getTime()]; [None] is NaN *)
  totalValue : number;
  cashValue : number;
  equityValue : number;
  realizedReturn : number;
  unrealizedReturn : number;
  egx30 : number;
  realizedGain : number;
  unrealizedGain : number;
  accountValues : JSMap.t number }.

(** The names every object inherits from [Object.prototype]. *)
Definition objectPrototypeNames : list string :=
  ["constructor"; "__defineGetter__"; "__defineSetter__"; "hasOwnProperty";
   "__lookupGetter__"; "__lookupSetter__"; "isPrototypeOf";
   "propertyIsEnumerable"; "toString"; "valueOf"; "__proto__";
   "toLocaleString"].

(** [d.accountValues && d.accountValues[selectedAccount] !== undefined].
    A point of an account's series has no [accountValues]; a merged
    point of a result has the object, with the name of each account that
    has an entry for the date, so it is not empty.  On the object the
    lookup finds the number stored under the name, or what the name
    inherits. *)
Definition hasAccountValue (d : TimeSeriesDataPoint.t)
    (selectedAccount : string) : bool :=
  match TimeSeriesDataPoint.accountValues d with
  | [] => false
  | accountValues =>
      JSMap.has accountValues selectedAccount
      || JSStr.includes objectPrototypeNames selectedAccount
  end.

Section WithHost.

Variable getTime : string -> option Z.

Definition byPointDate (a b : TimeSeriesDataPoint.t) : comparison :=
  Processor.compareTimes getTime (TimeSeriesDataPoint.date a)
    (TimeSeriesDataPoint.date b).

(** The value the effect gives to [chartData]. *)
Definition chartData (timeSeriesData : list TimeSeriesDataPoint.t)
    (selectedAccount : string) : list ChartDataPoint :=
  let filteredData :=
    filter (fun d => (selectedAccount =? "all")
                     || hasAccountValue d selectedAccount)
      timeSeriesData in
  let sortedData := JSArr.sortBy byPointDate filteredData in
  map (fun d =>
         mkChartDataPoint (getTime (TimeSeriesDataPoint.date d))
           (TimeSeriesDataPoint.totalValue d)
           (TimeSeriesDataPoint.cashValue d)
           (TimeSeriesDataPoint.equityValue d)
           (TimeSeriesDataPoint.realizedGain d)
           (TimeSeriesDataPoint.unrealizedGain d)
           (TimeSeriesDataPoint.egx30 d)
           (TimeSeriesDataPoint.realizedGain d)
           (TimeSeriesDataPoint.unrealizedGain d)
           (TimeSeriesDataPoint.accountValues d))
    sortedData.

End WithHost.

End PerformanceChart.

(** ** Closed Deposits and Fixed Income: holdings valued at their net price *)

Module DepositsTable.

(** [ClosedHolding]: a holding without [cashBalance]. *)
Record ClosedHolding : Type := mkClosedHolding {
  Symbol : string;
  Account : string;
  Name : string;
  Sector : string;
  Status : string;
  Quantity : number;
  Cost : number;
  TotalCost : number;
  AvgCost : number;
  Price : number;
  Value : number;
  UnrealizedGain : number;
  UnrealizedGainPct : number;
  RealizedGain : number;
  RealizedGainPct : number;
  TotalReturn : number;
  TotalReturnPct : number;
  Db : number }.

(** The key [`${symbol}-${account}`]: the account cell as a template
    literal prints it. *)
Definition groupKey (tr : Transaction.t) : string :=
  (Transaction.Symbol tr ++ "-" ++ JSCell.text (Transaction.Account tr))%string.

(** [groupTransactionsBySymbol]: the object is a map from key to array in
    insertion order (a key holds a ["-"], so it is neither an array index
    nor a property of [Object.prototype]). *)
Definition groupTransactionsBySymbol (transactions : list Transaction.t)
  : JSMap.t (list Transaction.t) :=
  JSArr.groupBy groupKey transactions.

(** The body of [Object.entries(symbolGroups).forEach]: the holding
    pushed; [None] when [transactions[0]] is [undefined] and the property
    read raises. *)
Definition holdingOfGroup (entry : string * list Transaction.t)
  : option ClosedHolding :=
  let parts := JSStr.split "-" (fst entry) in
  let symbol := nth 0 parts "" in
  let account := nth 1 parts "" in
  let transactions := snd entry in
  let quantity := Processor.quantityOf transactions in
  let totalDebit := Processor.totalDebitOf transactions in
  let costChangeSum := Processor.costChangeSumOf transactions in
  let cumulativeRealizedReturn :=
    Processor.cumulativeRealizedReturnOf transactions in
  let openCost := (costChangeSum + cumulativeRealizedReturn)%float in
  match transactions with
  | [] => None
  | first :: _ =>
      let price := orZero (Transaction.Net_Price first) in
      let value := (quantity * price)%float in
      let unrealizedGain := (value - openCost)%float in
      let totalReturn := (cumulativeRealizedReturn + unrealizedGain)%float in
      let absDebit := PrimFloat.abs totalDebit in
      Some (mkClosedHolding symbol account
              (JSStr.orElse (Transaction.Sh_name_eng first) symbol)
              "Fixed Income" (Transaction.Status_Tr first)
              quantity openCost costChangeSum
              (if gt (PrimFloat.abs quantity) EPS
               then PrimFloat.abs (openCost / quantity) else 0%float)
              price value unrealizedGain
              (Processor.pctOf unrealizedGain absDebit)
              cumulativeRealizedReturn
              (Processor.pctOf cumulativeRealizedReturn absDebit)
              totalReturn (Processor.pctOf totalReturn absDebit) totalDebit)
  end.

(** The holdings pushed by a loop, unless a step raises. *)
Fixpoint collect {A} (steps : list (option A)) : option (list A) :=
  match steps with
  | [] => Some []
  | None :: _ => None
  | Some h :: steps' => option_map (cons h) (collect steps')
  end.

(** The inner [processHoldings] of the two components. *)
Definition processHoldings (transactions : list Transaction.t)
  : option (list ClosedHolding) :=
  collect (map holdingOfGroup (groupTransactionsBySymbol transactions)).

(** The holdings of the Closed Deposits table. *)
Definition closedDepositHoldings (data : PortfolioData.t)
    (selectedAccount : string) : option (list ClosedHolding) :=
  processHoldings
    (filter (fun tr => (Transaction.Status_Tr tr =? "Closed Deposits")
                       && Components.inAccount selectedAccount tr)
       (PortfolioData.transactions data)).

(** The transactions of the key of a transaction, in input order. *)
Definition groupOfKey (transactions : list Transaction.t)
    (tr : Transaction.t) : list Transaction.t :=
  JSArr.groupOf groupKey transactions (groupKey tr).

End DepositsTable.

(** ** Top and bottom performers; allocation by sector *)

Module NumericSort.

(** The sign of a comparator's numeric result; NaN counts as equal. *)
Definition signOf (d : number) : comparison :=
  if lt d 0%float then Lt else if gt d 0%float then Gt else Eq.

(** [(a, b) => f(b) - f(a)] and [(a, b) => f(a) - f(b)]. *)
Definition descendingBy {A} (f : A -> number) (a b : A) : comparison :=
  signOf (f b - f a)%float.

Definition ascendingBy {A} (f : A -> number) (a b : A) : comparison :=
  signOf (f a - f b)%float.

End NumericSort.

Module Performers.

(** The literal [0.01]: the binary64 value nearest to it. *)
Definition CENT : number := 0x1.47ae147ae147bp-7%float.

(** [{ ...h, returnPct, totalReturn }]. *)
Record Performer : Type := mkPerformer {
  holding : Holding.t;
  returnPct : number;
  totalReturn : number }.

(** [h && h.Cost !== 0 && Math.abs(h.Cost) > 0.01]. *)
Definition hasCost (h : Holding.t) : bool :=
  sne (Holding.Cost h) 0%float && gt (PrimFloat.abs (Holding.Cost h)) CENT.

Definition performerOf (h : Holding.t) : Performer :=
  mkPerformer h
    (((Holding.UnrealizedGain h + Holding.RealizedGain h)
      / PrimFloat.abs (Holding.Cost h)) * 100)%float
    (Holding.UnrealizedGain h + Holding.RealizedGain h)%float.

Definition filteredCurrentHoldings (data : PortfolioData.t)
    (selectedAccount : string) : list Holding.t :=
  if selectedAccount =? "all" then PortfolioData.currentHoldings data
  else filter (fun h => Holding.Account h =? selectedAccount)
         (PortfolioData.currentHoldings data).

(** Nothing in the [try] block of the memo can raise. *)
Definition performersData (data : PortfolioData.t) (selectedAccount : string)
  : list Performer :=
  map performerOf
    (filter hasCost (filteredCurrentHoldings data selectedAccount)).

Definition topPerformers (data : PortfolioData.t) (selectedAccount : string)
  : list Performer :=
  firstn 5
    (JSArr.sortBy (NumericSort.descendingBy returnPct)
       (performersData data selectedAccount)).

Definition bottomPerformers (data : PortfolioData.t)
    (selectedAccount : string) : list Performer :=
  firstn 5
    (JSArr.sortBy (NumericSort.ascendingBy returnPct)
       (performersData data selectedAccount)).

End Performers.

Module Allocation.

Record Slice : Type := mkSlice {
  name : string;
  value : number;
  percentage : number }.

(** The body of [filteredHoldings.forEach]: the map of the sectors and
    the running total. *)
Definition addToSector (state : JSMap.t number * number) (holding : Holding.t)
  : JSMap.t number * number :=
  let '(sectorMap, totalValue) := state in
  let sector := JSStr.orElse (Holding.Sector holding) "Unknown" in
  let value := orZero (Holding.Value holding) in
  (match JSMap.get sectorMap sector with
   | Some sum => JSMap.set sectorMap sector (sum + value)%float
   | None => JSMap.set sectorMap sector value
   end,
   (totalValue + value)%float).

Definition sectorData (data : PortfolioData.t) (selectedAccount : string)
  : list Slice :=
  let filteredHoldings :=
    filter (fun h => ((selectedAccount =? "all")
                      || (Holding.Account h =? selectedAccount))
                     && negb (Holding.Account h =? "AhlyBank"))
      (PortfolioData.currentHoldings data) in
  let '(sectorMap, totalValue) :=
    fold_left addToSector filteredHoldings ([], 0%float) in
  JSArr.sortBy (NumericSort.descendingBy value)
    (map (fun entry =>
            mkSlice (fst entry) (snd entry)
              (if gt totalValue 0%float
               then ((snd entry / totalValue) * 100)%float else 0%float))
       sectorMap).

(** The sector and the value the allocation reads from a holding. *)
Definition sectorOf (holding : Holding.t) : string :=
  JSStr.orElse (Holding.Sector holding) "Unknown".

Definition valueOf (holding : Holding.t) : number :=
  orZero (Holding.Value holding).

End Allocation.
Module JSNumFacts.

Import JSNum.

Lemma sumOf_map {A} (f : A -> number) (rows : list A) :
  sumOf f rows = sum (map f rows).
Proof.
  unfold sumOf, sum. generalize 0%float.
  induction rows as [|r rows IH]; intros s; simpl; [reflexivity|apply IH].
Qed.

Lemma SFcompare_Lt_Gt (a b : spec_float) :
  SFcompare a b = Some Lt -> SFcompare b a = Some Gt.
Proof.
  destruct a as [sa|sa| |sa ma ea], b as [sb|sb| |sb mb eb]; simpl;
    try discriminate;
    try (destruct sa; simpl; intros H; (discriminate H || reflexivity); fail);
    try (destruct sb; simpl; intros H; (discriminate H || reflexivity); fail);
    try (destruct sa, sb; simpl; intros H;
         (discriminate H || reflexivity); fail).
  rewrite (Z.compare_antisym ea eb).
  assert (E : Pos.compare_cont Eq mb ma = CompOpp (Pos.compare_cont Eq ma mb))
    by (rewrite (Pos.compare_cont_antisym ma mb Eq); reflexivity).
  change (PosDef.Pos.compare_cont Eq mb ma) with (Pos.compare_cont Eq mb ma).
  rewrite E.
  destruct sa, sb; try discriminate; try reflexivity;
    destruct (ea ?= eb)%Z; simpl; try discriminate; try reflexivity;
    destruct (PosDef.Pos.compare_cont Eq ma mb); simpl; try discriminate;
    intros _; reflexivity.
Qed.

Lemma ltb_asym (x y : number) :
  PrimFloat.ltb x y = true -> PrimFloat.ltb y x = false.
Proof.
  rewrite !ltb_spec. unfold SFltb.
  destruct (SFcompare (Prim2SF x) (Prim2SF y)) as [[| |]|] eqn:E;
    try discriminate.
  intros _. now rewrite (SFcompare_Lt_Gt _ _ E).
Qed.

Lemma ltb_neq (x y : number) :
  PrimFloat.ltb x y = true -> PrimFloat.eqb y x = false.
Proof.
  rewrite ltb_spec, eqb_spec. unfold SFltb, SFeqb.
  destruct (SFcompare (Prim2SF x) (Prim2SF y)) as [[| |]|] eqn:E;
    try discriminate.
  intros _. now rewrite (SFcompare_Lt_Gt _ _ E).
Qed.

Lemma gt_zero_sne (x : number) : gt x 0%float = true -> seq x 0%float = false.
Proof. unfold gt, seq. apply ltb_neq. Qed.

Lemma gt_zero_truthy (x : number) : gt x 0%float = true -> truthy x = true.
Proof.
  intros H. unfold truthy.
  pose proof (gt_zero_sne x H) as E. unfold seq in E. rewrite E. simpl.
  unfold gt in H. unfold PrimFloat.is_nan.
  rewrite ltb_spec in H. rewrite eqb_spec.
  unfold SFltb in H. unfold SFeqb.
  destruct (Prim2SF x) as [s|s| |s m e]; simpl in *; try discriminate;
    try reflexivity.
  - destruct s; reflexivity.
  - rewrite Z.compare_refl, Pos.compare_cont_refl. destruct s; reflexivity.
Qed.

Lemma lt_not_gt (x y : number) : lt x y = true -> gt x y = false.
Proof. unfold lt, gt. apply ltb_asym. Qed.

Lemma orZero_truthy (x : number) : truthy x = true -> orZero x = x.
Proof. unfold orZero, orElse. now intros ->. Qed.

End JSNumFacts.

Module JSStrFacts.

Import JSStr.

Lemma setAdd_In (seen : list string) (s x : string) :
  In x (setAdd seen s) <-> In x seen \/ x = s.
Proof.
  induction seen as [|y seen IH]; simpl.
  - intuition.
  - destruct (String.eqb_spec y s) as [->|N]; simpl.
    + intuition.
    + rewrite IH. intuition.
Qed.

Lemma setOf_In (xs : list string) (x : string) : In x (setOf xs) <-> In x xs.
Proof.
  unfold setOf.
  assert (G : forall seen, In x (fold_left setAdd xs seen) <-> In x seen \/ In x xs).
  { induction xs as [|y xs IH]; intros seen; simpl.
    - intuition.
    - rewrite IH, setAdd_In. intuition. }
  rewrite G. simpl. intuition.
Qed.

Lemma insertSorted_In (s : string) (xs : list string) (x : string) :
  In x (insertSorted s xs) <-> x = s \/ In x xs.
Proof.
  induction xs as [|y xs IH]; simpl.
  - intuition.
  - destruct (String.leb s y); simpl.
    + intuition.
    + rewrite IH. intuition.
Qed.

Lemma sort_In (xs : list string) (x : string) : In x (sort xs) <-> In x xs.
Proof.
  induction xs as [|y xs IH]; simpl.
  - reflexivity.
  - rewrite insertSorted_In, IH. intuition.
Qed.

(** A text without the separator, the separator and a second text
    determine both texts. *)
Lemma append_separator_inj (c : ascii) (s1 s2 a1 a2 : string) :
  contains c s1 = false -> contains c s2 = false ->
  (s1 ++ String c a1)%string = (s2 ++ String c a2)%string ->
  s1 = s2 /\ a1 = a2.
Proof.
  revert s2. induction s1 as [|x s1 IH]; intros [|y s2]; simpl;
    intros H1 H2 E.
  - injection E as ->. now split.
  - injection E as <- _. rewrite Ascii.eqb_refl in H2. discriminate H2.
  - injection E as -> _. rewrite Ascii.eqb_refl in H1. discriminate H1.
  - injection E as -> E.
    apply orb_false_elim in H1. apply orb_false_elim in H2.
    destruct (IH s2 (proj2 H1) (proj2 H2) E) as [-> ->]. now split.
Qed.

End JSStrFacts.

Module JSMapFacts.

Import JSMap.

Lemma get_set_same {V} (m : t V) k v : get (set m k v) k = Some v.
Proof.
  induction m as [|[k' v'] m IH]; simpl.
  - now rewrite String.eqb_refl.
  - destruct (k' =? k) eqn:E; simpl; rewrite E; [reflexivity|exact IH].
Qed.

Lemma get_set_other {V} (m : t V) k k' v :
  k <> k' -> get (set m k v) k' = get m k'.
Proof.
  intros N. induction m as [|[k0 v0] m IH]; simpl.
  - destruct (String.eqb_spec k k'); [contradiction|reflexivity].
  - destruct (String.eqb_spec k0 k) as [->|N0]; simpl.
    + destruct (String.eqb_spec k k'); [contradiction|reflexivity].
    + destruct (k0 =? k'); [reflexivity|exact IH].
Qed.

Lemma get_In {V} (m : t V) k v : get m k = Some v -> In (k, v) m.
Proof.
  induction m as [|[k' v'] m IH]; simpl; [discriminate|].
  destruct (String.eqb_spec k' k) as [->|N].
  - intros [= ->]. now left.
  - intros H. right. now apply IH.
Qed.

Lemma In_get {V} (m : t V) k v :
  NoDup (keys m) -> In (k, v) m -> get m k = Some v.
Proof.
  induction m as [|[k' v'] m IH]; simpl; [contradiction|].
  intros ND [E|H].
  - injection E as -> ->. now rewrite String.eqb_refl.
  - inversion ND as [|? ? Hn ND']; subst.
    destruct (String.eqb_spec k' k) as [->|N].
    + exfalso. apply Hn. change k with (fst (k, v)). now apply in_map.
    + now apply IH.
Qed.

Lemma keys_set {V} (m : t V) k v :
  keys (set m k v) = if has m k then keys m else keys m ++ [k].
Proof.
  unfold has. induction m as [|[k' v'] m IH]; simpl; [reflexivity|].
  destruct (String.eqb_spec k' k) as [->|N]; simpl; [reflexivity|].
  rewrite IH. now destruct (get m k).
Qed.

Lemma has_In_keys {V} (m : t V) k : has m k = true <-> In k (keys m).
Proof.
  unfold has. induction m as [|[k' v'] m IH]; simpl.
  - split; [discriminate|contradiction].
  - destruct (String.eqb_spec k' k) as [->|N].
    + split; auto.
    + rewrite IH. split; [auto|]. intros [E|H]; [contradiction|exact H].
Qed.

Lemma NoDup_keys_set {V} (m : t V) k v :
  NoDup (keys m) -> NoDup (keys (set m k v)).
Proof.
  intros ND. rewrite keys_set. destruct (has m k) eqn:E; [exact ND|].
  apply NoDup_app; [exact ND| |].
  - constructor; [intros []|constructor].
  - intros x Hx [<-|[]].
    apply has_In_keys in Hx. congruence.
Qed.

End JSMapFacts.

Module JSArrFacts.

Import JSArr.

Lemma insertBy_In {A} (cmp : A -> A -> comparison) x xs y :
  In y (insertBy cmp x xs) <-> y = x \/ In y xs.
Proof.
  induction xs as [|z xs IH]; simpl.
  - intuition.
  - destruct (cmp x z); simpl; try rewrite IH; intuition.
Qed.

Lemma sortBy_In {A} (cmp : A -> A -> comparison) xs y :
  In y (sortBy cmp xs) <-> In y xs.
Proof.
  induction xs as [|z xs IH]; simpl.
  - reflexivity.
  - rewrite insertBy_In, IH. intuition.
Qed.

Lemma insertBy_length {A} (cmp : A -> A -> comparison) x xs :
  List.length (insertBy cmp x xs) = S (List.length xs).
Proof.
  induction xs as [|z xs IH]; simpl; [reflexivity|].
  destruct (cmp x z); simpl; try rewrite IH; reflexivity.
Qed.

Lemma sortBy_length {A} (cmp : A -> A -> comparison) xs :
  List.length (sortBy cmp xs) = List.length xs.
Proof.
  induction xs as [|z xs IH]; simpl; [reflexivity|].
  now rewrite insertBy_length, IH.
Qed.

Lemma sortBy_nonempty {A} (cmp : A -> A -> comparison) xs :
  xs <> [] -> sortBy cmp xs <> [].
Proof.
  intros N E. apply N. apply length_zero_iff_nil.
  rewrite <- (sortBy_length cmp), E. reflexivity.
Qed.

Lemma get_pushTo_same {A} (m : JSMap.t (list A)) k (x : A) :
  JSMap.get (pushTo m k x) k =
  Some (match JSMap.get m k with Some g => g ++ [x] | None => [x] end).
Proof.
  unfold pushTo. destruct (JSMap.get m k); apply JSMapFacts.get_set_same.
Qed.

Lemma get_pushTo_other {A} (m : JSMap.t (list A)) k k' (x : A) :
  k <> k' -> JSMap.get (pushTo m k x) k' = JSMap.get m k'.
Proof.
  intros N. unfold pushTo.
  destruct (JSMap.get m k); now apply JSMapFacts.get_set_other.
Qed.

Lemma NoDup_keys_pushTo {A} (m : JSMap.t (list A)) k (x : A) :
  NoDup (JSMap.keys m) -> NoDup (JSMap.keys (pushTo m k x)).
Proof.
  unfold pushTo. destruct (JSMap.get m k); apply JSMapFacts.NoDup_keys_set.
Qed.

Lemma groupBy_snoc {A} (key : A -> string) (xs : list A) (x : A) :
  groupBy key (xs ++ [x]) = pushTo (groupBy key xs) (key x) x.
Proof. unfold groupBy. now rewrite fold_left_app. Qed.

Lemma groupOf_snoc {A} (key : A -> string) (xs : list A) (x : A) k :
  groupOf key (xs ++ [x]) k =
  if key x =? k then groupOf key xs k ++ [x] else groupOf key xs k.
Proof.
  unfold groupOf. rewrite filter_app. simpl.
  destruct (key x =? k); [reflexivity|apply app_nil_r].
Qed.

Lemma get_groupBy {A} (key : A -> string) (xs : list A) (k : string) :
  JSMap.get (groupBy key xs) k =
  match groupOf key xs k with [] => None | g => Some g end.
Proof.
  induction xs as [|x xs IH] using rev_ind; [reflexivity|].
  rewrite groupBy_snoc, groupOf_snoc.
  destruct (String.eqb_spec (key x) k) as [->|N].
  - rewrite get_pushTo_same, IH.
    destruct (groupOf key xs k) as [|y g]; reflexivity.
  - rewrite (get_pushTo_other _ _ _ _ N). exact IH.
Qed.

Lemma NoDup_keys_groupBy {A} (key : A -> string) (xs : list A) :
  NoDup (JSMap.keys (groupBy key xs)).
Proof.
  induction xs as [|x xs IH] using rev_ind; [constructor|].
  rewrite groupBy_snoc. now apply NoDup_keys_pushTo.
Qed.

Lemma In_groupBy {A} (key : A -> string) (xs : list A) k g :
  In (k, g) (groupBy key xs) <-> g = groupOf key xs k /\ g <> [].
Proof.
  split.
  - intros H. apply JSMapFacts.In_get in H; [|apply NoDup_keys_groupBy].
    rewrite get_groupBy in H.
    destruct (groupOf key xs k); [discriminate|].
    injection H as <-. split; [reflexivity|discriminate].
  - intros [-> N]. apply JSMapFacts.get_In. rewrite get_groupBy.
    destruct (groupOf key xs k); [contradiction|reflexivity].
Qed.

Lemma groupOf_nonempty {A} (key : A -> string) (xs : list A) (x : A) :
  In x xs -> groupOf key xs (key x) <> [].
Proof.
  intros H E.
  assert (I : In x (groupOf key xs (key x))).
  { apply filter_In. split; [exact H|apply String.eqb_refl]. }
  rewrite E in I. exact I.
Qed.

Lemma groups_nonempty {A} (key : A -> string) (xs : list A)
    (entry : string * list A) :
  In entry (JSArr.groupBy key xs) -> snd entry <> [].
Proof.
  destruct entry as [k g]. intros H. apply In_groupBy in H. now destruct H.
Qed.

End JSArrFacts.

(** ** Holdings: what [processHoldings] returns *)

Module HoldingsFacts.

Import JSNumFacts JSArrFacts.

Section WithHost.

Variable getTime : string -> option Z.

Local Abbreviation viewGroups := (Views.viewGroups getTime).
Local Abbreviation statusText := Views.statusText.
Local Abbreviation groupHolding := (Views.groupHolding getTime).

Lemma statusOf_nonempty (displayStatus : option string)
    (transactions : list Transaction.t) :
  transactions <> [] ->
  exists s, Processor.statusOf displayStatus transactions = Some s.
Proof.
  intros N. destruct transactions as [|tr rest]; [contradiction|].
  unfold Processor.statusOf.
  destruct displayStatus as [s|]; simpl; [|eauto].
  destruct (JSStr.truthy s); eauto.
Qed.

Lemma processGroup_nonempty symbolMap latestQuotes statusType
    includeZeroQuantity cash (entry : string * list Transaction.t) :
  snd entry <> [] ->
  Processor.processGroup getTime symbolMap latestQuotes statusType
    includeZeroQuantity cash entry =
  Some
    (if Processor.included includeZeroQuantity
          (JSArr.sortBy (Processor.byDateAsc getTime) (snd entry))
     then
       Some
         (Processor.holdingOf symbolMap latestQuotes includeZeroQuantity cash
            (fst entry)
            (JSArr.sortBy (Processor.byDateAsc getTime) (snd entry))
            (statusText statusType
               (JSArr.sortBy (Processor.byDateAsc getTime) (snd entry))))
     else None).
Proof.
  intros N. unfold Processor.processGroup, Views.statusText.
  destruct (Processor.included _ _); [|reflexivity].
  destruct (statusOf_nonempty (Processor.displayStatusOf statusType)
              (JSArr.sortBy (Processor.byDateAsc getTime) (snd entry)))
    as [s Hs].
  - now apply sortBy_nonempty.
  - now rewrite Hs.
Qed.

(** A loop none of whose steps raises pushes the results of the steps
    that push. *)
Lemma pushed_all {A B} (step : A -> option (option B)) (keep : A -> bool)
    (result : A -> B) (xs : list A) :
  (forall x, In x xs ->
     step x = Some (if keep x then Some (result x) else None)) ->
  Processor.pushed (map step xs) = Some (map result (filter keep xs)).
Proof.
  induction xs as [|x xs IH]; intros H; simpl; [reflexivity|].
  rewrite (H x (or_introl eq_refl)).
  rewrite IH by (intros y Hy; apply H; now right).
  destruct (keep x); reflexivity.
Qed.

(** [processHoldings] never takes its [catch] branch: it returns one
    holding for each group its view shows, in the order of the groups. *)
Lemma processHoldings_eq (transactions : list Transaction.t) symbolMap
    latestQuotes statusType includeZeroQuantity :
  Processor.processHoldings getTime transactions symbolMap latestQuotes
    statusType includeZeroQuantity =
  map (groupHolding transactions symbolMap latestQuotes statusType
         includeZeroQuantity)
    (viewGroups includeZeroQuantity transactions).
Proof.
  unfold Processor.processHoldings, Views.viewGroups.
  rewrite (pushed_all _
             (fun entry =>
                Processor.included includeZeroQuantity
                  (JSArr.sortBy (Processor.byDateAsc getTime) (snd entry)))
             (fun entry =>
                Processor.holdingOf symbolMap latestQuotes includeZeroQuantity
                  (Processor.holdingsCash transactions) (fst entry)
                  (JSArr.sortBy (Processor.byDateAsc getTime) (snd entry))
                  (statusText statusType
                     (JSArr.sortBy (Processor.byDateAsc getTime) (snd entry))))).
  - rewrite map_map. reflexivity.
  - intros entry H. apply processGroup_nonempty.
    exact (groups_nonempty _ _ _ H).
Qed.

(** Two transactions whose symbols have no ["-"] fall in the same group
    exactly when they have the same symbol and the same account text. *)
Lemma holdingKey_same (t1 t2 : Transaction.t) :
  JSStr.contains "-" (Transaction.Symbol t1) = false ->
  JSStr.contains "-" (Transaction.Symbol t2) = false ->
  (Processor.holdingKey t1 = Processor.holdingKey t2 <->
   Transaction.Symbol t1 = Transaction.Symbol t2
   /\ JSCell.orUnknown (Transaction.Account t1)
      = JSCell.orUnknown (Transaction.Account t2)).
Proof.
  intros H1 H2. unfold Processor.holdingKey. split.
  - intros E. exact (JSStrFacts.append_separator_inj "-" _ _ _ _ H1 H2 E).
  - intros [-> ->]. reflexivity.
Qed.

(** The groups are those of the transactions present. *)
Lemma In_groups (transactions : list Transaction.t)
    (entry : string * list Transaction.t) :
  In entry (JSArr.groupBy Processor.holdingKey transactions) <->
  exists tr, In tr transactions /\ fst entry = Processor.holdingKey tr
             /\ snd entry =
                JSArr.groupOf Processor.holdingKey transactions
                  (Processor.holdingKey tr).
Proof.
  destruct entry as [k g]. rewrite In_groupBy. simpl. split.
  - intros [-> N].
    destruct (JSArr.groupOf Processor.holdingKey transactions k)
      as [|tr rest] eqn:E; [contradiction|].
    assert (I : In tr (JSArr.groupOf Processor.holdingKey transactions k))
      by (rewrite E; now left).
    apply filter_In in I. destruct I as [I K].
    apply String.eqb_eq in K. exists tr. rewrite K, E. auto.
  - intros (tr & I & -> & ->). split; [reflexivity|].
    now apply groupOf_nonempty.
Qed.

(** Each holding carries the sums of its group. *)
Lemma processHoldings_rows (transactions : list Transaction.t) symbolMap
    latestQuotes statusType includeZeroQuantity :
  Forall2
    (fun holding entry =>
       holding = groupHolding transactions symbolMap latestQuotes statusType
                   includeZeroQuantity entry)
    (Processor.processHoldings getTime transactions symbolMap latestQuotes
       statusType includeZeroQuantity)
    (viewGroups includeZeroQuantity transactions).
Proof.
  rewrite processHoldings_eq.
  induction (viewGroups includeZeroQuantity transactions) as [|e l IH];
    simpl; constructor; [reflexivity|exact IH].
Qed.

(** With zero quantities included, the view shows every group. *)
Lemma viewGroups_all (transactions : list Transaction.t) :
  viewGroups true transactions =
  JSArr.groupBy Processor.holdingKey transactions.
Proof.
  unfold Views.viewGroups.
  induction (JSArr.groupBy Processor.holdingKey transactions) as [|e l IH];
    [reflexivity|].
  cbn [filter]. unfold Processor.included at 1. cbn [orb].
  f_equal. exact IH.
Qed.

(** Every holding of a view without zero quantities has a net quantity
    above the threshold. *)
Lemma current_quantity (transactions : list Transaction.t) symbolMap
    latestQuotes statusType (h : Holding.t) :
  In h (Processor.processHoldings getTime transactions symbolMap latestQuotes
          statusType false) ->
  gt (PrimFloat.abs (Holding.Quantity h)) EPS = true.
Proof.
  rewrite processHoldings_eq. intros H. apply in_map_iff in H.
  destruct H as (entry & <- & H).
  unfold Views.viewGroups in H. apply filter_In in H. destruct H as [_ H].
  exact H.
Qed.

(** Every holding of a view with zero quantities included has no
    unrealized gain, and its total return is its realized gain. *)
Lemma closed_returns (transactions : list Transaction.t) symbolMap
    latestQuotes statusType (h : Holding.t) :
  In h (Processor.processHoldings getTime transactions symbolMap latestQuotes
          statusType true) ->
  Holding.UnrealizedGain h = 0%float
  /\ Holding.TotalReturn h = Holding.RealizedGain h.
Proof.
  rewrite processHoldings_eq. intros H. apply in_map_iff in H.
  destruct H as (entry & <- & H). split; reflexivity.
Qed.

End WithHost.

End HoldingsFacts.

(** ** Open Deposits: what the memo returns *)

Module DepositFacts.

Import JSNumFacts JSArrFacts.

(** A loop none of whose steps raises: its pushes correspond, in order,
    to the steps that push. *)
Lemma pushed_Forall2 {A B} (step : A -> option (option B)) (keep : A -> bool)
    (P : B -> A -> Prop) (xs : list A) :
  (forall x, In x xs ->
     if keep x then exists r, step x = Some (Some r) /\ P r x
     else step x = Some None) ->
  exists rs, Processor.pushed (map step xs) = Some rs
             /\ Forall2 P rs (filter keep xs).
Proof.
  induction xs as [|x xs IH]; intros H; simpl.
  - exists []. split; [reflexivity|constructor].
  - destruct IH as (rs & E & F); [intros y Hy; apply H; now right|].
    specialize (H x (or_introl eq_refl)).
    destruct (keep x).
    + destruct H as (r & -> & Pr). rewrite E. simpl.
      exists (r :: rs). split; [reflexivity|now constructor].
    + rewrite H, E. now exists rs.
Qed.

Section WithHost.

Variable getTime : string -> option Z.

(** The memo never raises, and each row it returns carries the sums of
    its group. *)
Lemma openDeposits_rows (data : PortfolioData.t) (selectedAccount : string) :
  exists rows,
    Components.openDeposits getTime data selectedAccount = Some rows
    /\ Forall2
         (fun row entry =>
            Components.dQuantity row = Processor.quantityOf (snd entry)
            /\ Components.dCost row =
               (Processor.costChangeSumOf (snd entry)
                + Processor.cumulativeRealizedReturnOf (snd entry))%float
            /\ Components.dRealizedGain row =
               Processor.cumulativeRealizedReturnOf (snd entry)
            /\ exists first rest,
                 snd entry = first :: rest
                 /\ Components.dSymbol row = Transaction.Symbol first
                 /\ Components.dPrice row =
                    fst (Components.depositPrice getTime data
                           (Transaction.Symbol first)
                           (Transaction.Net_Price first)))
         rows (Views.depositGroups data selectedAccount).
Proof.
  unfold Components.openDeposits, Views.depositGroups.
  apply pushed_Forall2.
  intros [k g] H. apply groups_nonempty in H. simpl in H.
  destruct g as [|first rest]; [contradiction|].
  unfold Components.processDepositGroup. cbn [snd fst].
  destruct (Components.depositPrice getTime data (Transaction.Symbol first)
              (Transaction.Net_Price first)) as [price source] eqn:E.
  destruct (gt (PrimFloat.abs (Processor.quantityOf (first :: rest))) EPS);
    [|reflexivity].
  eexists. split; [reflexivity|]. cbn [Components.dQuantity Components.dCost Components.dRealizedGain
         Components.dSymbol Components.dPrice snd].
  repeat split. exists first, rest. rewrite E. repeat split.
Qed.

End WithHost.

End DepositFacts.

(** ** Time series: the carry-forward of the replay *)

Module ReplayFacts.

Import JSNumFacts Processor.

Lemma noDropToZero_snoc (series : list TimeSeriesDataPoint.t)
    (x : TimeSeriesDataPoint.t) :
  Views.noDropToZero series ->
  (forall p, last series x = p -> series <> [] ->
     gt (TimeSeriesDataPoint.totalValue p) 0%float = true ->
     seq (TimeSeriesDataPoint.totalValue x) 0%float = false) ->
  Views.noDropToZero (series ++ [x]).
Proof.
  induction series as [|p [|q rest] IH]; intros H L.
  - exact I.
  - split; [|exact I]. apply (L p); [reflexivity|discriminate].
  - destruct H as [H1 H2]. split; [exact H1|].
    apply IH; [exact H2|].
    intros p' E N. apply (L p'); [exact E|discriminate].
Qed.

Lemma noDropToZero_consecutive (series : list TimeSeriesDataPoint.t)
    before p q after :
  Views.noDropToZero series ->
  series = before ++ p :: q :: after ->
  gt (TimeSeriesDataPoint.totalValue p) 0%float = true ->
  seq (TimeSeriesDataPoint.totalValue q) 0%float = false.
Proof.
  revert series. induction before as [|b before IH]; intros series H ->.
  - destruct H as [H _]. exact H.
  - simpl in H. destruct (before ++ p :: q :: after) eqn:E.
    + destruct before; discriminate.
    + destruct H as [_ H]. rewrite <- E in H. now apply (IH _ H).
Qed.

Lemma applyTransaction_keeps (st : Replay) (tr : Transaction.t) :
  timeSeriesData (applyTransaction st tr) = timeSeriesData st
  /\ lastValidTotalValue (applyTransaction st tr) = lastValidTotalValue st
  /\ lastValidEquityValue (applyTransaction st tr) = lastValidEquityValue st
  /\ lastValidUnrealizedGain (applyTransaction st tr)
     = lastValidUnrealizedGain st.
Proof. repeat split. Qed.

Lemma applyDate_keeps (accountTransactions : list Transaction.t)
    (st : Replay) (date : string) :
  timeSeriesData (applyDate accountTransactions st date) = timeSeriesData st
  /\ lastValidTotalValue (applyDate accountTransactions st date)
     = lastValidTotalValue st
  /\ lastValidEquityValue (applyDate accountTransactions st date)
     = lastValidEquityValue st
  /\ lastValidUnrealizedGain (applyDate accountTransactions st date)
     = lastValidUnrealizedGain st.
Proof.
  unfold applyDate.
  generalize (filter (fun tr => Transaction.Date tr =? date) accountTransactions).
  intros txs. revert st.
  induction txs as [|tr txs IH]; intros st; simpl; [repeat split|].
  destruct (IH (applyTransaction st tr)) as (A & B & C & D).
  rewrite A, B, C, D. apply applyTransaction_keeps.
Qed.

(** The point a date pushes. *)
Lemma emitDay_point egx30Map datePrices selectedAccount date st v :
  exists point,
    timeSeriesData (emitDay egx30Map datePrices selectedAccount date st v)
    = timeSeriesData st ++ [point]
    /\ TimeSeriesDataPoint.date point = date
    /\ lastValidTotalValue
         (emitDay egx30Map datePrices selectedAccount date st v)
       = TimeSeriesDataPoint.totalValue point
    /\ (gt (lastValidTotalValue st) 0%float = true ->
        seq (TimeSeriesDataPoint.totalValue point) 0%float = false).
Proof.
  unfold emitDay.
  match goal with
  | |- context [if ?c then _ else _] =>
      match c with
      | (seq ?t 0%float && gt (lastValidTotalValue st) 0%float)%bool =>
          destruct (seq t 0%float) eqn:Z;
          destruct (gt (lastValidTotalValue st) 0%float) eqn:G
      end
  end; cbn [andb]; eexists; (split; [reflexivity|]);
    cbn [TimeSeriesDataPoint.totalValue TimeSeriesDataPoint.date
         lastValidTotalValue];
    (split; [reflexivity|]); (split; [reflexivity|]);
    intros H; try discriminate H.
  - now apply gt_zero_sne.
  - exact Z.
Qed.

Lemma emitDay_sound egx30Map datePrices selectedAccount date st v :
  Views.sound st -> Views.sound (emitDay egx30Map datePrices selectedAccount date st v).
Proof.
  intros [S1 S2].
  destruct (emitDay_point egx30Map datePrices selectedAccount date st v)
    as (point & E & _ & L & Z).
  unfold Views.sound. rewrite E, L. split.
  - apply noDropToZero_snoc; [exact S1|].
    intros p Hp N G. apply Z. rewrite (S2 N point), Hp. exact G.
  - intros _ d. now rewrite last_last.
Qed.

Lemma replayDate_sound accountTransactions egx30Map quotesByDateAndSymbol
    latestQuotes selectedAccount st date :
  Views.sound st ->
  Views.sound (replayDate accountTransactions egx30Map quotesByDateAndSymbol
           latestQuotes selectedAccount st date).
Proof.
  intros [S1 S2]. unfold replayDate. apply emitDay_sound.
  destruct (applyDate_keeps accountTransactions st date) as (A & B & _).
  unfold Views.sound. rewrite A, B. split; assumption.
Qed.

Lemma replay_sound accountTransactions egx30Map quotesByDateAndSymbol
    latestQuotes selectedAccount dates st :
  Views.sound st ->
  Views.sound (fold_left
           (replayDate accountTransactions egx30Map quotesByDateAndSymbol
              latestQuotes selectedAccount)
           dates st).
Proof.
  revert st. induction dates as [|d dates IH]; intros st S; simpl;
    [exact S|].
  apply IH. now apply replayDate_sound.
Qed.

Lemma processTimeSeriesData_noDropToZero transactions quotes quoteDates
    selectedAccount latestQuotes :
  Views.noDropToZero
    (processTimeSeriesData transactions quotes quoteDates selectedAccount
       latestQuotes).
Proof.
  unfold processTimeSeriesData.
  apply replay_sound. split; [exact I|]. intros N. now contradiction N.
Qed.

End ReplayFacts.

(** ** The latest-quote index *)

Module QuoteFacts.

Import JSMapFacts Processor.

Section WithHost.

Variable getTime : string -> option Z.

Lemma latestQuotesOf_snoc (quotes : list Quote.t) (quote : Quote.t) :
  latestQuotesOf getTime (quotes ++ [quote])
  = latestQuotesStep getTime (latestQuotesOf getTime quotes) quote.
Proof. unfold latestQuotesOf. now rewrite fold_left_app. Qed.

Lemma get_latestQuotesStep (m : JSMap.t Quote.t) (quote : Quote.t)
    (symbol : string) :
  JSMap.get (latestQuotesStep getTime m quote) symbol
  = if Quote.Symbol quote =? symbol then
      match JSMap.get m symbol with
      | None => Some quote
      | Some existing =>
          if dateGt getTime (Quote.Date quote) (Quote.Date existing)
          then Some quote else Some existing
      end
    else JSMap.get m symbol.
Proof.
  unfold latestQuotesStep.
  destruct (String.eqb_spec (Quote.Symbol quote) symbol) as [<-|N].
  - destruct (JSMap.get m (Quote.Symbol quote)) as [existing|] eqn:E.
    + destruct (dateGt getTime _ _); [apply get_set_same|exact E].
    + apply get_set_same.
  - destruct (JSMap.get m (Quote.Symbol quote)) as [existing|].
    + destruct (dateGt getTime _ _); [now apply get_set_other|reflexivity].
    + now apply get_set_other.
Qed.

(** The index holds, for a symbol whose quotes all have valid dates, the
    first of its quotes with the latest date; it holds nothing for a
    symbol without quotes. *)
Lemma latestQuotesOf_spec (quotes : list Quote.t) (symbol : string) :
  (forall q, In q quotes -> Quote.Symbol q = symbol ->
             getTime (Quote.Date q) <> None) ->
  match JSMap.get (latestQuotesOf getTime quotes) symbol with
  | Some best => Views.firstLatest getTime symbol quotes best
  | None => forall q, In q quotes -> Quote.Symbol q <> symbol
  end.
Proof.
  induction quotes as [|quote quotes IH] using rev_ind; intros V.
  - intros q [].
  - rewrite latestQuotesOf_snoc, get_latestQuotesStep.
    assert (V' : forall q, In q quotes -> Quote.Symbol q = symbol ->
                           getTime (Quote.Date q) <> None).
    { intros q Hq. apply V. apply in_or_app. now left. }
    specialize (IH V').
    destruct (String.eqb_spec (Quote.Symbol quote) symbol) as [S|S].
    + assert (Vq : getTime (Quote.Date quote) <> None).
      { apply V; [apply in_or_app; right; now left|exact S]. }
      destruct (getTime (Quote.Date quote)) as [tq|] eqn:Tq;
        [clear Vq|contradiction].
      destruct (JSMap.get (latestQuotesOf getTime quotes) symbol)
        as [existing|].
      * destruct IH as (before & after & te & E & Se & Te & B & A).
        unfold dateGt. rewrite Tq, Te.
        destruct (Z.gtb_spec tq te) as [G|G].
        -- exists quotes, [], tq. repeat split; try assumption.
           ++ intros q Hq Sq. rewrite E in Hq.
              apply in_app_or in Hq. destruct Hq as [Hq|[<-|Hq]].
              ** destruct (B q Hq Sq) as (t & Ht & Lt).
                 exists t. split; [exact Ht|lia].
              ** exists te. split; [exact Te|lia].
              ** destruct (A q Hq Sq) as (t & Ht & Lt).
                 exists t. split; [exact Ht|lia].
           ++ intros q [].
        -- exists before, (after ++ [quote]), te. repeat split;
             try assumption.
           ++ rewrite E, <- app_assoc. reflexivity.
           ++ intros q Hq Sq. apply in_app_or in Hq.
              destruct Hq as [Hq|[<-|[]]].
              ** exact (A q Hq Sq).
              ** exists tq. split; [exact Tq|lia].
      * exists quotes, [], tq. repeat split; try assumption.
        -- intros q Hq Sq. now destruct (IH q Hq).
        -- intros q [].
    + destruct (JSMap.get (latestQuotesOf getTime quotes) symbol)
        as [best|].
      * destruct IH as (before & after & te & E & Se & Te & B & A).
        exists before, (after ++ [quote]), te. repeat split;
          try assumption.
        -- rewrite E, <- app_assoc. reflexivity.
        -- intros q Hq Sq. apply in_app_or in Hq.
           destruct Hq as [Hq|[<-|[]]]; [exact (A q Hq Sq)|contradiction].
      * intros q Hq. apply in_app_or in Hq.
        destruct Hq as [Hq|[<-|[]]]; [now apply IH|exact S].
Qed.

End WithHost.

End QuoteFacts.

(** ** Merging the series of the accounts *)

Module MergeFacts.

Import JSNumFacts JSMapFacts JSStrFacts Processor.

Lemma fold_mergeEntry (date : string)
    (timeSeriesDataArray : list (list TimeSeriesDataPoint.t))
    (mergedEntry : TimeSeriesDataPoint.t) :
  fold_left (mergeEntry date) timeSeriesDataArray mergedEntry
  = fold_left addEntry (Views.presentOn date timeSeriesDataArray) mergedEntry.
Proof.
  revert mergedEntry.
  induction timeSeriesDataArray as [|series rest IH]; intros mergedEntry;
    [reflexivity|].
  cbn [fold_left Views.presentOn flat_map]. rewrite fold_left_app, IH.
  unfold mergeEntry.
  destruct (JSArr.find _ series); reflexivity.
Qed.

Lemma fold_addEntry_snoc (entries : list TimeSeriesDataPoint.t)
    (entry mergedEntry : TimeSeriesDataPoint.t) :
  fold_left addEntry (entries ++ [entry]) mergedEntry
  = addEntry (fold_left addEntry entries mergedEntry) entry.
Proof. now rewrite fold_left_app. Qed.

Lemma date_fold_addEntry entries mergedEntry :
  TimeSeriesDataPoint.date (fold_left addEntry entries mergedEntry)
  = TimeSeriesDataPoint.date mergedEntry.
Proof.
  revert mergedEntry. induction entries as [|e entries IH];
    intros mergedEntry; simpl; [reflexivity|now rewrite IH].
Qed.

(** A field that [addEntry] adds to is, after all entries, the running
    sum of the entries' values. *)
Lemma sum_fold_addEntry (field : TimeSeriesDataPoint.t -> number) :
  (forall m e, field (addEntry m e) = (field m + orZero (field e))%float) ->
  forall entries mergedEntry,
    field (fold_left addEntry entries mergedEntry)
    = fold_left (fun s e => (s + orZero (field e))%float) entries
        (field mergedEntry).
Proof.
  intros H entries.
  induction entries as [|e entries IH]; intros mergedEntry; simpl;
    [reflexivity|].
  now rewrite IH, H.
Qed.

Lemma egx30_fold_addEntry entries mergedEntry :
  TimeSeriesDataPoint.egx30 (fold_left addEntry entries mergedEntry)
  = match find (fun e => JSNum.truthy (TimeSeriesDataPoint.egx30 e))
            (rev entries) with
    | Some e => TimeSeriesDataPoint.egx30 e
    | None => TimeSeriesDataPoint.egx30 mergedEntry
    end.
Proof.
  induction entries as [|e entries IH] using rev_ind; [reflexivity|].
  rewrite fold_addEntry_snoc, rev_app_distr. cbn [rev app find].
  cbn [addEntry TimeSeriesDataPoint.egx30]. unfold orElse.
  destruct (JSNum.truthy (TimeSeriesDataPoint.egx30 e)); [reflexivity|exact IH].
Qed.

Lemma hasQuotes_fold_addEntry entries mergedEntry :
  flagTruthy
    (TimeSeriesDataPoint.hasQuotes (fold_left addEntry entries mergedEntry))
  = flagTruthy (TimeSeriesDataPoint.hasQuotes mergedEntry)
    || existsb (fun e => flagTruthy (TimeSeriesDataPoint.hasQuotes e)) entries.
Proof.
  revert mergedEntry. induction entries as [|e entries IH];
    intros mergedEntry; simpl; [now rewrite orb_false_r|].
  rewrite IH. cbn [addEntry TimeSeriesDataPoint.hasQuotes].
  destruct (TimeSeriesDataPoint.hasQuotes mergedEntry) as [[|]|];
    simpl; try reflexivity;
    destruct (TimeSeriesDataPoint.hasQuotes e) as [[|]|]; reflexivity.
Qed.

Lemma accountValues_fold_addEntry entries mergedEntry (name : string) :
  JSMap.get
    (TimeSeriesDataPoint.accountValues
       (fold_left addEntry entries mergedEntry)) name
  = if JSStr.truthy name then
      match find (fun e => TimeSeriesDataPoint.account e =? name)
              (rev entries) with
      | Some e => Some (TimeSeriesDataPoint.totalValue e)
      | None =>
          JSMap.get (TimeSeriesDataPoint.accountValues mergedEntry) name
      end
    else JSMap.get (TimeSeriesDataPoint.accountValues mergedEntry) name.
Proof.
  induction entries as [|e entries IH] using rev_ind.
  - simpl. now destruct (JSStr.truthy name).
  - rewrite fold_addEntry_snoc, rev_app_distr. cbn [rev app find].
    cbn [addEntry TimeSeriesDataPoint.accountValues].
    destruct (String.eqb_spec (TimeSeriesDataPoint.account e) name) as [E|N].
    + rewrite E. destruct (JSStr.truthy name) eqn:T.
      * apply get_set_same.
      * exact IH.
    + destruct (JSStr.truthy (TimeSeriesDataPoint.account e));
        [rewrite (get_set_other _ _ _ _ N)|]; exact IH.
Qed.

Lemma mergeTimeSeriesData_eq timeSeriesDataArray :
  mergeTimeSeriesData timeSeriesDataArray
  = map (fun date => Views.mergedFor date timeSeriesDataArray)
      (JSStr.sort
         (JSStr.setOf
            (flat_map (map TimeSeriesDataPoint.date) timeSeriesDataArray))).
Proof. destruct timeSeriesDataArray; reflexivity. Qed.

Lemma mergedFor_fields date timeSeriesDataArray :
  let merged := Views.mergedFor date timeSeriesDataArray in
  let present := Views.presentOn date timeSeriesDataArray in
  TimeSeriesDataPoint.date merged = date
  /\ TimeSeriesDataPoint.cashValue merged
     = Views.sumOrZero TimeSeriesDataPoint.cashValue present
  /\ TimeSeriesDataPoint.equityValue merged
     = Views.sumOrZero TimeSeriesDataPoint.equityValue present
  /\ TimeSeriesDataPoint.totalValue merged
     = Views.sumOrZero TimeSeriesDataPoint.totalValue present
  /\ TimeSeriesDataPoint.realizedGain merged
     = Views.sumOrZero TimeSeriesDataPoint.realizedGain present
  /\ TimeSeriesDataPoint.unrealizedGain merged
     = Views.sumOrZero TimeSeriesDataPoint.unrealizedGain present
  /\ TimeSeriesDataPoint.egx30 merged = Views.keptBenchmark present
  /\ flagTruthy (TimeSeriesDataPoint.hasQuotes merged)
     = existsb (fun e => flagTruthy (TimeSeriesDataPoint.hasQuotes e)) present
  /\ forall name,
       JSMap.get (TimeSeriesDataPoint.accountValues merged) name
       = Views.recordedFor name present.
Proof.
  intros merged present. unfold merged, Views.mergedFor.
  rewrite fold_mergeEntry. fold present.
  unfold Views.sumOrZero, sumOf.
  repeat split.
  - now rewrite date_fold_addEntry.
  - now rewrite (sum_fold_addEntry TimeSeriesDataPoint.cashValue).
  - now rewrite (sum_fold_addEntry TimeSeriesDataPoint.equityValue).
  - now rewrite (sum_fold_addEntry TimeSeriesDataPoint.totalValue).
  - now rewrite (sum_fold_addEntry TimeSeriesDataPoint.realizedGain).
  - now rewrite (sum_fold_addEntry TimeSeriesDataPoint.unrealizedGain).
  - rewrite egx30_fold_addEntry. unfold Views.keptBenchmark.
    now destruct (find _ (rev present)).
  - now rewrite hasQuotes_fold_addEntry.
  - intros name. rewrite accountValues_fold_addEntry.
    unfold Views.recordedFor.
    destruct (JSStr.truthy name); [|reflexivity].
    now destruct (find _ (rev present)).
Qed.

End MergeFacts.

(** ** Price resolution *)

Module PriceFacts.

Import JSNumFacts JSArrFacts Processor Components.

Section WithHost.

Variable getTime : string -> option Z.

(** The head of an array sorted latest first. *)
Lemma hd_sortBy_desc (quotes : list Quote.t) :
  hd_error (JSArr.sortBy (byQuoteDateDesc getTime) quotes)
  = Views.latestDated getTime quotes.
Proof.
  induction quotes as [|quote rest IH]; [reflexivity|].
  cbn [JSArr.sortBy fold_right Views.latestDated]. rewrite <- IH.
  change (fold_right (JSArr.insertBy (byQuoteDateDesc getTime)) [] rest)
    with (JSArr.sortBy (byQuoteDateDesc getTime) rest).
  destruct (JSArr.sortBy (byQuoteDateDesc getTime) rest) as [|best sorted];
    [reflexivity|].
  cbn [JSArr.insertBy hd_error].
  unfold byQuoteDateDesc, compareTimes, dateGt.
  destruct (getTime (Quote.Date best)) as [tb|];
    destruct (getTime (Quote.Date quote)) as [tq|]; try reflexivity.
  rewrite Z.gtb_ltb, Z.ltb_compare, (Z.compare_antisym tb tq).
  destruct (tb ?= tq)%Z; reflexivity.
Qed.

(** When the dates are valid, the latest-dated quote has the maximum
    date. *)
Lemma latestDated_max (quotes : list Quote.t) :
  (forall q, In q quotes -> getTime (Quote.Date q) <> None) ->
  match Views.latestDated getTime quotes with
  | Some best =>
      In best quotes
      /\ exists time,
           getTime (Quote.Date best) = Some time
           /\ forall q, In q quotes ->
                exists t, getTime (Quote.Date q) = Some t /\ (t <= time)%Z
  | None => quotes = []
  end.
Proof.
  induction quotes as [|quote rest IH]; intros V; [reflexivity|].
  cbn [Views.latestDated].
  assert (Vq : getTime (Quote.Date quote) <> None) by (apply V; now left).
  destruct (getTime (Quote.Date quote)) as [tq|] eqn:Tq; [|contradiction].
  specialize (IH (fun q Hq => V q (or_intror Hq))).
  destruct (Views.latestDated getTime rest) as [best|].
  - destruct IH as (Hb & tb & Tb & M).
    unfold dateGt. rewrite Tb, Tq.
    destruct (Z.gtb_spec tb tq) as [G|G].
    + split; [now right|]. exists tb. split; [exact Tb|].
      intros q [<-|Hq]; [exists tq; split; [exact Tq|lia]|now apply M].
    + split; [now left|]. exists tq. split; [exact Tq|].
      intros q [<-|Hq]; [exists tq; split; [exact Tq|lia]|].
      destruct (M q Hq) as (t & Ht & L). exists t. split; [exact Ht|lia].
  - subst rest. split; [now left|]. exists tq. split; [exact Tq|].
    intros q [<-|[]]. exists tq. split; [exact Tq|lia].
Qed.

Lemma truthy_and_gt (x : number) :
  JSNum.truthy x && gt x 0%float = gt x 0%float.
Proof.
  destruct (gt x 0%float) eqn:G.
  - now rewrite (gt_zero_truthy x G).
  - apply andb_false_r.
Qed.

Lemma gt_parseFloatText (x : number) :
  gt (parseFloatText x) 0%float = gt x 0%float.
Proof.
  unfold parseFloatText. destruct (seq x 0%float) eqn:Z; [|reflexivity].
  destruct (gt x 0%float) eqn:G; [|reflexivity].
  rewrite (gt_zero_sne x G) in Z. discriminate Z.
Qed.

Lemma parseFloatText_positive (x : number) :
  gt x 0%float = true -> parseFloatText x = x.
Proof.
  intros G. unfold parseFloatText. now rewrite (gt_zero_sne x G).
Qed.

Lemma orElse_parseFloatText (x d : number) :
  orElse (parseFloatText x) d = orElse x d.
Proof.
  unfold parseFloatText, orElse, JSNum.truthy, seq.
  destruct (PrimFloat.eqb x 0) eqn:Z; [reflexivity|]. now rewrite Z.
Qed.

Lemma filter_matchesExactly (symbol : string) (quotes : list Quote.t) :
  filter (matchesExactly symbol) quotes
  = filter (fun q => Views.exactSymbol symbol q && gt (Quote.Close q) 0%float)
      quotes.
Proof.
  apply filter_ext. intros q. unfold matchesExactly, Views.exactSymbol.
  now rewrite <- andb_assoc, truthy_and_gt.
Qed.

Lemma filter_matchesExactlyText (symbol : string) (quotes : list Quote.t) :
  filter (matchesExactlyText symbol) quotes
  = filter (fun q => Views.exactSymbol symbol q && gt (Quote.Close q) 0%float)
      quotes.
Proof.
  apply filter_ext. intros q. unfold matchesExactlyText, Views.exactSymbol.
  now rewrite gt_parseFloatText, <- andb_assoc, truthy_and_gt.
Qed.

Lemma filter_matchesPrefix (symbol : string) (quotes : list Quote.t) :
  filter (matchesPrefix (nth 0 (JSStr.split "@" symbol) "")) quotes
  = filter (fun q => Views.prefixOf symbol q && gt (Quote.Close q) 0%float)
      quotes.
Proof.
  apply filter_ext. intros q. unfold matchesPrefix, Views.prefixOf.
  now rewrite gt_parseFloatText, <- !andb_assoc, truthy_and_gt.
Qed.

(** The close of the head of a sorted array of quotes with positive
    closes, read through [parseFloat(String(...))], is the close. *)
Lemma latestDated_filter_positive (keep : Quote.t -> bool)
    (quotes : list Quote.t) (best : Quote.t) :
  Views.latestDated getTime
    (filter (fun q => keep q && gt (Quote.Close q) 0%float) quotes)
  = Some best ->
  gt (Quote.Close best) 0%float = true.
Proof.
  intros H.
  assert (I : In best (filter (fun q => keep q && gt (Quote.Close q) 0%float)
                         quotes)).
  { revert best H.
    induction (filter (fun q => keep q && gt (Quote.Close q) 0%float) quotes)
      as [|q l IH]; intros best H; [discriminate H|].
    cbn [Views.latestDated] in H.
    destruct (Views.latestDated getTime l) as [b|].
    - destruct (dateGt getTime _ _); injection H as <-;
        [right; now apply IH|now left].
    - injection H as <-. now left. }
  apply filter_In in I. destruct I as [_ I].
  now apply andb_prop in I.
Qed.

(** The Open Deposits price is the chain: latest-quote index with a
    positive close, latest-dated exact match in the quotes list, the
    group's net price, 1.0. *)
Lemma depositPrice_chain (data : PortfolioData.t) (symbol : string)
    (netPrice : number) :
  fst (depositPrice getTime data symbol netPrice)
  = Views.firstSuccess
      [Views.fromLatestIndex data symbol;
       Views.fromQuotesList getTime (Views.exactSymbol symbol) data;
       Views.fromNetPrice netPrice]
      1%float.
Proof.
  unfold depositPrice, Views.fromLatestIndex, Views.fromQuotesList.
  assert (Last : forall p : number * string,
            seq (fst p) 0%float = true ->
            fst (if seq (fst p) 0%float
                 then (orElse netPrice 1%float, "transaction Net Price")
                 else p)
            = Views.firstSuccess [Views.fromNetPrice netPrice] 1%float).
  { intros p ->. cbn. unfold Views.fromNetPrice, orElse.
    now destruct (JSNum.truthy netPrice). }
  assert (Step2 : forall p : number * string,
            seq (fst p) 0%float = true ->
            fst (let step2 :=
                   if seq (fst p) 0%float then
                     match PortfolioData.quotes data with
                     | Some quotes =>
                         match JSArr.sortBy (byQuoteDateDesc getTime)
                                 (filter (matchesExactly symbol) quotes) with
                         | latestQuote :: _ =>
                             (Quote.Close latestQuote, "quotes array")
                         | [] => p
                         end
                     | None => p
                     end
                   else p in
                 if seq (fst step2) 0%float
                 then (orElse netPrice 1%float, "transaction Net Price")
                 else step2)
            = Views.firstSuccess
                [match PortfolioData.quotes data with
                 | Some quotes =>
                     option_map Quote.Close
                       (Views.latestDated getTime
                          (filter
                             (fun q => Views.exactSymbol symbol q
                                       && gt (Quote.Close q) 0%float)
                             quotes))
                 | None => None
                 end;
                 Views.fromNetPrice netPrice] 1%float).
  { intros p Z. cbv zeta. rewrite Z.
    destruct (PortfolioData.quotes data) as [quotes|]; [|now apply Last].
    rewrite <- filter_matchesExactly, <- hd_sortBy_desc.
    pose proof (hd_sortBy_desc (filter (matchesExactly symbol) quotes)) as Hd.
    rewrite filter_matchesExactly in Hd at 2.
    destruct (JSArr.sortBy (byQuoteDateDesc getTime)
                (filter (matchesExactly symbol) quotes)) as [|best sorted];
      [now apply Last|].
    cbn [hd_error option_map Views.firstSuccess fst].
    symmetry in Hd. apply latestDated_filter_positive in Hd.
    now rewrite (gt_zero_sne _ Hd). }
  destruct (PortfolioData.latestQuotes data) as [latestQuotes|];
    [|now apply Step2].
  destruct (JSMap.get latestQuotes symbol) as [quote|]; [|now apply Step2].
  rewrite truthy_and_gt.
  destruct (gt (Quote.Close quote) 0%float) eqn:G; [|now apply Step2].
  cbn [Views.firstSuccess]. cbv zeta.
  repeat (cbn [fst]; rewrite (gt_zero_sne _ G)). reflexivity.
Qed.

(** The price of the fixed-income measure: the close of the symbol's
    entry in the latest-quote index, whatever it is, when there is one;
    else the chain with the prefix match. *)
Lemma fixedIncomePrice_chain (data : PortfolioData.t) (symbol : string)
    (netPrice : number) :
  fixedIncomePrice getTime data symbol netPrice
  = match match PortfolioData.latestQuotes data with
          | Some latestQuotes => JSMap.get latestQuotes symbol
          | None => None
          end with
    | Some quote => parseFloatText (Quote.Close quote)
    | None =>
        Views.firstSuccess
          [Views.fromQuotesList getTime (Views.exactSymbol symbol) data;
           Views.fromQuotesList getTime (Views.prefixOf symbol) data;
           Views.fromNetPrice netPrice]
          1%float
    end.
Proof.
  unfold fixedIncomePrice, Views.fromQuotesList.
  assert (Last : orElse (parseFloatText netPrice) 1%float
                 = Views.firstSuccess [Views.fromNetPrice netPrice] 1%float).
  { rewrite orElse_parseFloatText. cbn. unfold Views.fromNetPrice, orElse.
    now destruct (JSNum.truthy netPrice). }
  destruct (match PortfolioData.latestQuotes data with
            | Some latestQuotes => JSMap.get latestQuotes symbol
            | None => None
            end); [reflexivity|].
  destruct (PortfolioData.quotes data) as [quotes|]; [|exact Last].
  pose proof (hd_sortBy_desc (filter (matchesExactlyText symbol) quotes))
    as H1.
  rewrite filter_matchesExactlyText in H1 at 2.
  destruct (JSArr.sortBy (byQuoteDateDesc getTime)
              (filter (matchesExactlyText symbol) quotes)) as [|best sorted].
  - rewrite <- H1. cbn [hd_error option_map Views.firstSuccess].
    pose proof (hd_sortBy_desc
                  (filter (matchesPrefix (nth 0 (JSStr.split "@" symbol) ""))
                     quotes)) as H2.
    rewrite filter_matchesPrefix in H2 at 2.
    destruct (JSArr.sortBy (byQuoteDateDesc getTime)
                (filter (matchesPrefix (nth 0 (JSStr.split "@" symbol) ""))
                   quotes)) as [|similar sorted].
    + rewrite <- H2. exact Last.
    + rewrite <- H2. cbn [hd_error option_map Views.firstSuccess].
      symmetry in H2. apply latestDated_filter_positive in H2.
      now apply parseFloatText_positive.
  - rewrite <- H1. cbn [hd_error option_map Views.firstSuccess].
    symmetry in H1. apply latestDated_filter_positive in H1.
    now apply parseFloatText_positive.
Qed.

End WithHost.

End PriceFacts.

(** ** The pipeline *)

Module PipelineFacts.

Import Processor.

Section WithHost.

Variable getTime : string -> option Z.
Variable toISODate : Z -> string.
Variable stackOf : string -> string.
Variable notAFunction : string.
Variable parseTransactions : string -> list Transaction.t.
Variable parseSymbols : string -> list Symbol.t.
Variable parseQuotes : string -> list Quote.t.

Local Abbreviation tryBlock :=
  (processPortfolioDataTry getTime toISODate stackOf notAFunction
     parseTransactions parseSymbols parseQuotes).
Local Abbreviation process :=
  (processPortfolioData getTime toISODate stackOf notAFunction
     parseTransactions parseSymbols parseQuotes).

(** What the [try] block computes does not depend on the log function or
    on the caller's state. *)
Lemma tryBlock_result (S1 S2 : Type) (log1 : string -> S1 -> S1)
    (log2 : string -> S2 -> S2) (transactionsText symbolsText quotesText
    selectedAccount : string) (s1 : S1) (s2 : S2) :
  fst (tryBlock S1 log1 transactionsText symbolsText quotesText
         selectedAccount s1)
  = fst (tryBlock S2 log2 transactionsText symbolsText quotesText
           selectedAccount s2).
Proof.
  unfold processPortfolioDataTry.
  destruct (negb (JSStr.truthy transactionsText)
            || negb (JSStr.truthy symbolsText)
            || negb (JSStr.truthy quotesText)); [reflexivity|].
  cbv zeta.
  destruct (groupByAccount stackOf notAFunction _ []); reflexivity.
Qed.

Lemma process_result (S1 S2 : Type) (log1 : string -> S1 -> S1)
    (log2 : string -> S2 -> S2) (transactionsText symbolsText quotesText
    selectedAccount : string) (s1 : S1) (s2 : S2) :
  fst (process S1 log1 transactionsText symbolsText quotesText
         selectedAccount s1)
  = fst (process S2 log2 transactionsText symbolsText quotesText
           selectedAccount s2).
Proof.
  unfold processPortfolioData.
  pose proof (tryBlock_result S1 S2 log1 log2 transactionsText symbolsText
                quotesText selectedAccount s1 s2) as E.
  destruct (tryBlock S1 log1 transactionsText symbolsText quotesText
              selectedAccount s1) as [[e1|d1] l1];
    destruct (tryBlock S2 log2 transactionsText symbolsText quotesText
                selectedAccount s2) as [[e2|d2] l2];
    cbn [fst] in E; try discriminate E.
  - reflexivity.
  - now injection E as ->.
Qed.

(** The summary of a view adds up. *)
Lemma portfolioOf_totalValue accountsData transactions quotes latestQuotes
    selectedAccount :
  let m := PortfolioData.summaryMetrics
             (portfolioOf accountsData transactions quotes latestQuotes
                selectedAccount) in
  SummaryMetrics.totalValue m
  = (SummaryMetrics.equityValue m + SummaryMetrics.cashBalance m)%float.
Proof.
  unfold portfolioOf.
  destruct (selectedAccount =? "all"); [reflexivity|].
  destruct (JSArr.find _ accountsData); reflexivity.
Qed.

Lemma portfolioOf_accounts accountsData transactions quotes latestQuotes
    selectedAccount :
  PortfolioData.accounts
    (portfolioOf accountsData transactions quotes latestQuotes
       selectedAccount)
  = accountsData.
Proof.
  unfold portfolioOf.
  destruct (selectedAccount =? "all"); [reflexivity|].
  destruct (JSArr.find _ accountsData); reflexivity.
Qed.

Lemma portfolioOf_all accountsData transactions quotes latestQuotes :
  let m := PortfolioData.summaryMetrics
             (portfolioOf accountsData transactions quotes latestQuotes
                "all") in
  SummaryMetrics.equityValue m
  = sumOf (fun acc => SummaryMetrics.equityValue
                        (AccountData.summaryMetrics acc)) accountsData
  /\ SummaryMetrics.cashBalance m
     = sumOf (fun acc => SummaryMetrics.cashBalance
                           (AccountData.summaryMetrics acc)) accountsData.
Proof. split; reflexivity. Qed.

(** The result of a run is the empty result or the view built from the
    accounts processed. *)
Lemma process_cases (S : Type) (logFunction : string -> S -> S)
    (transactionsText symbolsText quotesText selectedAccount : string)
    (s : S) :
  fst (process S logFunction transactionsText symbolsText quotesText
         selectedAccount s) = emptyPortfolioData
  \/ exists accountTransactionsMap symbolMap latestQuotes quotes quoteDates
            transactions accounts,
       fst (process S logFunction transactionsText symbolsText quotesText
              selectedAccount s)
       = portfolioOf
           (map (processAccount getTime accountTransactionsMap symbolMap
                   latestQuotes quotes quoteDates) accounts)
           transactions quotes latestQuotes selectedAccount.
Proof.
  unfold processPortfolioData, processPortfolioDataTry.
  destruct (negb (JSStr.truthy transactionsText)
            || negb (JSStr.truthy symbolsText)
            || negb (JSStr.truthy quotesText)); [left; reflexivity|].
  cbv zeta.
  destruct (groupByAccount stackOf notAFunction _ []) as [e|m];
    [left; reflexivity|].
  right. cbn [fst]. repeat eexists.
Qed.

End WithHost.

End PipelineFacts.

(** ** Time series: dates, running sums and carried values *)

Module SeriesFacts.

Import JSNumFacts JSStrFacts JSMapFacts Processor.

(** *** [sort] sorts *)

Lemma leb_ne_ltb (a b : string) :
  String.leb a b = true -> a <> b -> String.ltb a b = true.
Proof.
  unfold String.leb, String.ltb. intros L N.
  destruct (String.compare a b) eqn:C; try reflexivity; try discriminate L.
  apply String.compare_eq_iff in C. contradiction.
Qed.

Lemma leb_false_ltb (a b : string) :
  String.leb a b = false -> String.ltb b a = true.
Proof.
  unfold String.leb, String.ltb. rewrite (String.compare_antisym a b).
  destruct (String.compare b a); simpl; intros H; try discriminate H;
    reflexivity.
Qed.

Lemma insertSorted_ascending (s : string) (xs : list string) :
  SeriesViews.ascending xs -> ~ In s xs ->
  SeriesViews.ascending (JSStr.insertSorted s xs).
Proof.
  unfold SeriesViews.ascending.
  induction xs as [|x xs IH]; intros S N; simpl.
  - repeat constructor.
  - destruct (String.leb s x) eqn:L.
    + constructor; [exact S|]. constructor.
      apply leb_ne_ltb; [exact L|]. intros ->. apply N. now left.
    + inversion S as [|? ? S' H]; subst.
      constructor.
      * apply IH; [exact S'|]. intros I. apply N. now right.
      * destruct xs as [|y xs]; simpl.
        -- constructor. now apply leb_false_ltb.
        -- destruct (String.leb s y); constructor.
           ++ now apply leb_false_ltb.
           ++ now inversion H.
Qed.

Lemma setAdd_NoDup (seen : list string) (s : string) :
  NoDup seen -> NoDup (JSStr.setAdd seen s).
Proof.
  induction seen as [|x seen IH]; intros N; simpl.
  - constructor; [intros []|constructor].
  - destruct (String.eqb_spec x s) as [->|D]; [exact N|].
    inversion N as [|? ? Hx N']; subst. constructor.
    + rewrite setAdd_In. intros [I|E]; [contradiction|]. now apply D.
    + now apply IH.
Qed.

Lemma setOf_NoDup (xs : list string) : NoDup (JSStr.setOf xs).
Proof.
  unfold JSStr.setOf.
  assert (G : forall seen, NoDup seen -> NoDup (fold_left JSStr.setAdd xs seen)).
  { induction xs as [|x xs IH]; intros seen N; simpl; [exact N|].
    apply IH. now apply setAdd_NoDup. }
  apply G. constructor.
Qed.

Lemma sort_ascending (xs : list string) :
  NoDup xs -> SeriesViews.ascending (JSStr.sort xs).
Proof.
  induction xs as [|x xs IH]; intros N; simpl.
  - constructor.
  - inversion N as [|? ? Hx N']; subst.
    apply insertSorted_ascending; [now apply IH|].
    now rewrite sort_In.
Qed.

(** *** The indexes built from the quotes *)

Lemma egx30MapOf_get (quotes : list Quote.t) (date : string) :
  JSStr.truthy date = true ->
  JSMap.get (egx30MapOf quotes) date = SeriesViews.benchmarkOn quotes date.
Proof.
  intros T. unfold egx30MapOf, SeriesViews.benchmarkOn.
  induction quotes as [|q quotes IH] using rev_ind; [reflexivity|].
  rewrite fold_left_app, rev_app_distr. cbn [fold_left rev app find].
  destruct (String.eqb_spec (Quote.Date q) date) as [E|N].
  - subst date. rewrite T, !andb_true_r.
    destruct (Quote.Symbol q =? "EGX30"); cbn [andb]; [|exact IH].
    destruct (gt (Quote.Close q) 0%float); [|exact IH].
    now rewrite get_set_same.
  - rewrite andb_false_r. cbn [andb].
    destruct ((Quote.Symbol q =? "EGX30") && JSStr.truthy (Quote.Date q)
              && gt (Quote.Close q) 0%float); [|exact IH].
    now rewrite get_set_other.
Qed.

Lemma benchmarkOn_positive (quotes : list Quote.t) (date : string) e :
  SeriesViews.benchmarkOn quotes date = Some e -> gt e 0%float = true.
Proof.
  unfold SeriesViews.benchmarkOn.
  destruct (find _ (rev quotes)) as [q|] eqn:F; [|discriminate].
  intros [= <-]. apply find_some in F. destruct F as [_ F].
  now apply andb_prop in F.
Qed.

Lemma set_nonempty {V} (m : JSMap.t V) k v : JSMap.set m k v <> [].
Proof.
  destruct m as [|[k' v'] m]; simpl; [discriminate|].
  destruct (k' =? k); discriminate.
Qed.

Lemma quotesByDateAndSymbolOf_get (quotes : list Quote.t) (date : string) :
  JSStr.truthy date = true ->
  match JSMap.get (quotesByDateAndSymbolOf quotes) date with
  | Some prices => SeriesViews.quotedOn quotes date = true /\ prices <> []
  | None => SeriesViews.quotedOn quotes date = false
  end.
Proof.
  intros T. unfold quotesByDateAndSymbolOf, SeriesViews.quotedOn.
  induction quotes as [|q quotes IH] using rev_ind; [reflexivity|].
  rewrite fold_left_app, existsb_app. cbn [fold_left existsb].
  rewrite orb_false_r.
  destruct (String.eqb_spec (Quote.Date q) date) as [E|N].
  - subst date. rewrite T. cbn [andb].
    destruct (JSStr.truthy (Quote.Symbol q)).
    + rewrite get_set_same, orb_true_r. split; [reflexivity|].
      apply set_nonempty.
    + now rewrite orb_false_r.
  - cbn [andb]. rewrite orb_false_r.
    destruct (JSStr.truthy (Quote.Date q) && JSStr.truthy (Quote.Symbol q));
      [|exact IH].
    now rewrite get_set_other.
Qed.

Lemma hasQuotes_flagOn (quotes : list Quote.t) (date : string) :
  JSStr.truthy date = true ->
  option_map (fun prices : JSMap.t number => (0 <? List.length prices)%nat)
    (JSMap.get (quotesByDateAndSymbolOf quotes) date)
  = SeriesViews.flagOn quotes date.
Proof.
  intros T. pose proof (quotesByDateAndSymbolOf_get quotes date T) as H.
  unfold SeriesViews.flagOn.
  destruct (JSMap.get (quotesByDateAndSymbolOf quotes) date) as [prices|].
  - destruct H as [-> N]. destruct prices; [contradiction|reflexivity].
  - now rewrite H.
Qed.

(** *** The running sums *)

Lemma applyTransactions_sums (txs : list Transaction.t) (st : Replay) :
  cashBalance (fold_left applyTransaction txs st)
  = fold_left (fun s r => (s + orZero (Transaction.Cash_Impact r))%float)
      txs (cashBalance st)
  /\ totalRealizedGain (fold_left applyTransaction txs st)
     = fold_left (fun s r => (s + orZero (Transaction.Realized3 r))%float)
         txs (totalRealizedGain st)
  /\ lastValidEgx30Value (fold_left applyTransaction txs st)
     = lastValidEgx30Value st.
Proof.
  revert st. induction txs as [|tr txs IH]; intros st; simpl;
    [repeat split|].
  destruct (IH (applyTransaction st tr)) as (A & B & C).
  rewrite A, B, C. repeat split.
Qed.

Lemma sumOf_rowsUpTo_snoc (f : Transaction.t -> number)
    (accountTransactions : list Transaction.t) (done : list string)
    (date : string) :
  sumOf f (SeriesViews.rowsUpTo accountTransactions (done ++ [date]))
  = fold_left (fun s r => (s + f r)%float)
      (SeriesViews.rowsOn accountTransactions date)
      (sumOf f (SeriesViews.rowsUpTo accountTransactions done)).
Proof.
  unfold sumOf, SeriesViews.rowsUpTo.
  rewrite flat_map_app, fold_left_app. cbn [flat_map].
  now rewrite app_nil_r.
Qed.

Lemma carriedBenchmark_snoc (quotes : list Quote.t) (done : list string)
    (date : string) :
  SeriesViews.carriedBenchmark quotes (done ++ [date])
  = match SeriesViews.benchmarkOn quotes date with
    | Some close => close
    | None => SeriesViews.carriedBenchmark quotes done
    end.
Proof. unfold SeriesViews.carriedBenchmark. now rewrite fold_left_app. Qed.

(** *** One date of the replay *)

Lemma totalsFollow_snoc (start : number)
    (series : list TimeSeriesDataPoint.t) (point : TimeSeriesDataPoint.t) :
  SeriesViews.totalsFollow start series ->
  SeriesViews.totalFollows (SeriesViews.lastTotal start series) point ->
  SeriesViews.totalsFollow start (series ++ [point]).
Proof.
  revert start. induction series as [|p series IH]; intros start H L.
  - split; [exact L|exact I].
  - destruct H as [H1 H2]. split; [exact H1|]. now apply IH.
Qed.

Lemma lastTotal_snoc (start : number) (series : list TimeSeriesDataPoint.t)
    (point : TimeSeriesDataPoint.t) :
  SeriesViews.lastTotal start (series ++ [point])
  = TimeSeriesDataPoint.totalValue point.
Proof. unfold SeriesViews.lastTotal. now rewrite fold_left_app. Qed.

(** All that a date's point and the state after it take from the state
    in which the date is valued. *)
Lemma emitDay_fields egx30Map datePrices selectedAccount date st v :
  exists point,
    timeSeriesData (emitDay egx30Map datePrices selectedAccount date st v)
    = timeSeriesData st ++ [point]
    /\ TimeSeriesDataPoint.date point = date
    /\ TimeSeriesDataPoint.cashValue point = cashBalance st
    /\ TimeSeriesDataPoint.realizedGain point = totalRealizedGain st
    /\ TimeSeriesDataPoint.egx30 point
       = match JSMap.get egx30Map date with
         | Some e => if gt e 0%float then e else lastValidEgx30Value st
         | None => lastValidEgx30Value st
         end
    /\ TimeSeriesDataPoint.hasQuotes point
       = option_map (fun prices : JSMap.t number =>
                       (0 <? List.length prices)%nat) datePrices
    /\ TimeSeriesDataPoint.account point = selectedAccount
    /\ TimeSeriesDataPoint.accountValues point = []
    /\ SeriesViews.totalFollows (lastValidTotalValue st) point
    /\ cashBalance (emitDay egx30Map datePrices selectedAccount date st v)
       = cashBalance st
    /\ totalRealizedGain
         (emitDay egx30Map datePrices selectedAccount date st v)
       = totalRealizedGain st
    /\ lastValidEgx30Value
         (emitDay egx30Map datePrices selectedAccount date st v)
       = TimeSeriesDataPoint.egx30 point
    /\ lastValidTotalValue
         (emitDay egx30Map datePrices selectedAccount date st v)
       = TimeSeriesDataPoint.totalValue point.
Proof.
  unfold emitDay.
  match goal with
  | |- context [if ?c then _ else _] =>
      match c with
      | (seq ?t 0%float && gt (lastValidTotalValue st) 0%float)%bool =>
          destruct (seq t 0%float) eqn:Z;
          destruct (gt (lastValidTotalValue st) 0%float) eqn:G
      end
  end; cbn [andb]; eexists; (split; [reflexivity|]);
    cbn [TimeSeriesDataPoint.totalValue TimeSeriesDataPoint.date
         TimeSeriesDataPoint.cashValue TimeSeriesDataPoint.realizedGain
         TimeSeriesDataPoint.egx30 TimeSeriesDataPoint.hasQuotes
         TimeSeriesDataPoint.account TimeSeriesDataPoint.accountValues
         TimeSeriesDataPoint.equityValue
         lastValidTotalValue cashBalance totalRealizedGain
         lastValidEgx30Value];
    unfold SeriesViews.totalFollows;
    cbn [TimeSeriesDataPoint.totalValue TimeSeriesDataPoint.cashValue
         TimeSeriesDataPoint.equityValue];
    repeat split; try reflexivity; try (left; reflexivity).
  right. now split.
Qed.

Lemma replayDate_tracks accountTransactions quotes latestQuotes
    selectedAccount st done date :
  JSStr.truthy date = true ->
  SeriesViews.tracks accountTransactions quotes selectedAccount st done ->
  SeriesViews.tracks accountTransactions quotes selectedAccount
    (replayDate accountTransactions (egx30MapOf quotes)
       (quotesByDateAndSymbolOf quotes) latestQuotes selectedAccount st date)
    (done ++ [date]).
Proof.
  intros T (D & C & R & B & L & F & P).
  unfold replayDate.
  set (st1 := applyDate accountTransactions st date).
  destruct (emitDay_fields (egx30MapOf quotes)
              (JSMap.get (quotesByDateAndSymbolOf quotes) date)
              selectedAccount date st1
              (valueDay (JSMap.get (quotesByDateAndSymbolOf quotes) date)
                 latestQuotes st1))
    as (point & E & Pd & Pc & Pr & Pe & Ph & Pa & Pv & Pt & Sc & Sr & Se & Sl).
  destruct (ReplayFacts.applyDate_keeps accountTransactions st date)
    as (K1 & K2 & _).
  fold st1 in K1, K2.
  destruct (applyTransactions_sums
              (SeriesViews.rowsOn accountTransactions date) st)
    as (A1 & A2 & A3).
  change (fold_left applyTransaction
            (SeriesViews.rowsOn accountTransactions date) st)
    with st1 in A1, A2, A3.
  assert (Ec : cashBalance st1
               = SeriesViews.cashUpTo accountTransactions (done ++ [date])).
  { unfold SeriesViews.cashUpTo. rewrite sumOf_rowsUpTo_snoc, A1, C.
    reflexivity. }
  assert (Er : totalRealizedGain st1
               = SeriesViews.realizedUpTo accountTransactions
                   (done ++ [date])).
  { unfold SeriesViews.realizedUpTo. rewrite sumOf_rowsUpTo_snoc, A2, R.
    reflexivity. }
  assert (Ee : TimeSeriesDataPoint.egx30 point
               = SeriesViews.carriedBenchmark quotes (done ++ [date])).
  { rewrite Pe, carriedBenchmark_snoc, (egx30MapOf_get quotes date T), A3, B.
    destruct (SeriesViews.benchmarkOn quotes date) as [e|] eqn:Q;
      [|reflexivity].
    now rewrite (benchmarkOn_positive quotes date e Q). }
  assert (Len : List.length (timeSeriesData st) = List.length done).
  { rewrite <- D. now rewrite length_map. }
  unfold SeriesViews.tracks. rewrite E, K1.
  split; [|split; [|split; [|split; [|split; [|split]]]]].
  - rewrite map_app, D. cbn [map]. now rewrite Pd.
  - now rewrite Sc.
  - now rewrite Sr.
  - now rewrite Se.
  - now rewrite Sl, lastTotal_snoc.
  - apply totalsFollow_snoc; [exact F|]. rewrite <- L, <- K2. exact Pt.
  - intros i p H.
    destruct (Nat.lt_ge_cases i (List.length (timeSeriesData st))) as [Lt|Ge].
    + rewrite nth_error_app1 in H by exact Lt.
      rewrite firstn_app.
      replace (S i - List.length done)%nat with O by lia.
      cbn [firstn]. rewrite app_nil_r. now apply P.
    + rewrite nth_error_app2 in H by exact Ge.
      destruct (i - List.length (timeSeriesData st))%nat as [|k] eqn:K;
        [|destruct k; discriminate H].
      injection H as <-.
      assert (i = List.length done) by lia. subst i.
      rewrite firstn_all2 by (rewrite length_app; simpl; lia).
      rewrite Pc, Pr, Ph, Pd, Pa, Pv, Ec, Er, Ee.
      rewrite (hasQuotes_flagOn quotes date T). repeat split.
Qed.

Lemma replay_tracks accountTransactions quotes latestQuotes selectedAccount
    dates st done :
  Forall (fun date => JSStr.truthy date = true) dates ->
  SeriesViews.tracks accountTransactions quotes selectedAccount st done ->
  SeriesViews.tracks accountTransactions quotes selectedAccount
    (fold_left
       (replayDate accountTransactions (egx30MapOf quotes)
          (quotesByDateAndSymbolOf quotes) latestQuotes selectedAccount)
       dates st)
    (done ++ dates).
Proof.
  revert st done. induction dates as [|d dates IH]; intros st done T H.
  - now rewrite app_nil_r.
  - inversion T as [|? ? Td T']; subst. cbn [fold_left].
    replace (done ++ d :: dates) with ((done ++ [d]) ++ dates)
      by now rewrite <- app_assoc.
    apply IH; [exact T'|]. now apply replayDate_tracks.
Qed.

Lemma initialReplay_tracks accountTransactions quotes selectedAccount :
  SeriesViews.tracks accountTransactions quotes selectedAccount
    initialReplay [].
Proof.
  unfold SeriesViews.tracks. cbn.
  repeat split; try reflexivity; destruct i; discriminate.
Qed.

(** *** The whole series *)

Lemma truthy_nonempty (s : string) : JSStr.truthy s = true <-> s <> "".
Proof.
  unfold JSStr.truthy. destruct (String.eqb_spec s ""); simpl.
  - split; [discriminate|contradiction].
  - split; auto.
Qed.

Lemma datesOf_In (dates : list string) (d : string) :
  In d (datesOf dates) <-> d <> "" /\ In d dates.
Proof.
  unfold datesOf. rewrite setOf_In, filter_In, truthy_nonempty. tauto.
Qed.

Lemma sortedDates_In (transactionDates quoteDates : list string) d :
  In d (JSStr.sort
          (JSStr.setOf (datesOf transactionDates ++ datesOf quoteDates)))
  <-> d <> "" /\ (In d transactionDates \/ In d quoteDates).
Proof.
  rewrite sort_In, setOf_In, in_app_iff, !datesOf_In. tauto.
Qed.

Lemma processTimeSeriesData_tracks transactions quotes quoteDates
    selectedAccount latestQuotes :
  exists st,
    processTimeSeriesData transactions quotes quoteDates selectedAccount
      latestQuotes
    = timeSeriesData st
    /\ SeriesViews.tracks (SeriesViews.replayed transactions selectedAccount)
         quotes selectedAccount st
         (JSStr.sort
            (JSStr.setOf
               (datesOf (map Transaction.Date
                           (SeriesViews.replayed transactions selectedAccount))
                ++ datesOf (map Quote.Date quotes)))).
Proof.
  eexists. split; [reflexivity|].
  fold (SeriesViews.replayed transactions selectedAccount).
  apply (replay_tracks _ quotes latestQuotes selectedAccount _ initialReplay []).
  - apply Forall_forall. intros d H. apply sortedDates_In in H.
    now apply truthy_nonempty.
  - apply initialReplay_tracks.
Qed.

Lemma processTimeSeriesData_dates transactions quotes quoteDates
    selectedAccount latestQuotes :
  map TimeSeriesDataPoint.date
    (processTimeSeriesData transactions quotes quoteDates selectedAccount
       latestQuotes)
  = JSStr.sort
      (JSStr.setOf
         (datesOf (map Transaction.Date
                     (SeriesViews.replayed transactions selectedAccount))
          ++ datesOf (map Quote.Date quotes))).
Proof.
  destruct (processTimeSeriesData_tracks transactions quotes quoteDates
              selectedAccount latestQuotes) as (st & -> & D & _).
  exact D.
Qed.

Lemma nth_error_middle {A} (before : list A) (x : A) (after : list A) :
  nth_error (before ++ x :: after) (List.length before) = Some x.
Proof.
  rewrite nth_error_app2 by lia. now rewrite Nat.sub_diag.
Qed.

Lemma nth_error_date (series : list TimeSeriesDataPoint.t) i point :
  nth_error series i = Some point ->
  firstn (S i) (map TimeSeriesDataPoint.date series)
  = firstn i (map TimeSeriesDataPoint.date series)
    ++ [TimeSeriesDataPoint.date point].
Proof.
  revert i. induction series as [|p series IH]; intros [|i] H;
    try discriminate H.
  - injection H as ->. reflexivity.
  - cbn [map firstn app]. f_equal. now apply IH.
Qed.

Lemma totalsFollow_at (start : number)
    (before : list TimeSeriesDataPoint.t) q after :
  SeriesViews.totalsFollow start (before ++ q :: after) ->
  SeriesViews.totalFollows (SeriesViews.lastTotal start before) q.
Proof.
  revert start. induction before as [|b before IH]; intros start H.
  - destruct H as [H _]. exact H.
  - destruct H as [_ H]. exact (IH _ H).
Qed.

(** *** An account without transactions *)

Lemma replayDate_idle egx30Map quotesByDateAndSymbol latestQuotes
    selectedAccount st date :
  SeriesViews.idle st ->
  exists point,
    timeSeriesData
      (replayDate [] egx30Map quotesByDateAndSymbol latestQuotes
         selectedAccount st date)
    = timeSeriesData st ++ [point]
    /\ SeriesViews.flat point
    /\ SeriesViews.idle
         (replayDate [] egx30Map quotesByDateAndSymbol latestQuotes
            selectedAccount st date).
Proof.
  destruct st as [c h t r e x u v series].
  intros (C & H & T & R & E & U & V). cbn in C, H, T, R, E, U, V. subst.
  unfold replayDate, applyDate. cbn [filter fold_left].
  unfold valueDay, emitDay, carriesForward.
  cbn [holdings timeDepositHoldings forEachUpdating v_equityValue
       v_unrealizedGain v_hasAllPrices computedEquityValue
       regularUnrealizedGain timeDepositUnrealizedGain hasAllPrices
       valuedHoldings valuedTimeDeposits lastValidEquityValue
       lastValidUnrealizedGain lastValidTotalValue cashBalance
       totalRealizedGain lastValidEgx30Value timeSeriesData].
  replace (gt 0%float 0%float) with false by reflexivity.
  replace (seq 0%float 0%float) with true by reflexivity.
  cbn [negb orb andb].
  replace (0 + 0)%float with 0%float by reflexivity.
  replace (sne 0%float 0%float) with false by reflexivity.
  replace (seq 0%float 0%float) with true by reflexivity.
  cbn [andb].
  eexists. split; [reflexivity|]. split; repeat split.
Qed.

Lemma replay_idle egx30Map quotesByDateAndSymbol latestQuotes selectedAccount
    dates st :
  SeriesViews.idle st ->
  Forall SeriesViews.flat (timeSeriesData st) ->
  Forall SeriesViews.flat
    (timeSeriesData
       (fold_left
          (replayDate [] egx30Map quotesByDateAndSymbol latestQuotes
             selectedAccount)
          dates st)).
Proof.
  revert st. induction dates as [|d dates IH]; intros st I F; [exact F|].
  cbn [fold_left].
  destruct (replayDate_idle egx30Map quotesByDateAndSymbol latestQuotes
              selectedAccount st d I) as (point & E & Fp & I').
  apply IH; [exact I'|]. rewrite E. apply Forall_app. split; [exact F|].
  now constructor.
Qed.

End SeriesFacts.

(** ** The latest-quote index: what it holds whatever the dates *)

Module QuoteIndexFacts.

Import JSMapFacts Processor.

Section WithHost.

Variable getTime : string -> option Z.

Lemma entry_of_symbol (quotes : list Quote.t) (symbol : string) :
  match JSMap.get (latestQuotesOf getTime quotes) symbol with
  | Some best => In best quotes /\ Quote.Symbol best = symbol
  | None => forall q, In q quotes -> Quote.Symbol q <> symbol
  end.
Proof.
  induction quotes as [|quote quotes IH] using rev_ind.
  - intros q [].
  - rewrite QuoteFacts.latestQuotesOf_snoc, QuoteFacts.get_latestQuotesStep.
    destruct (String.eqb_spec (Quote.Symbol quote) symbol) as [S|S].
    + destruct (JSMap.get (latestQuotesOf getTime quotes) symbol)
        as [existing|].
      * destruct IH as [I E].
        destruct (dateGt getTime _ _).
        -- split; [apply in_or_app; right; now left|exact S].
        -- split; [apply in_or_app; now left|exact E].
      * split; [apply in_or_app; right; now left|exact S].
    + destruct (JSMap.get (latestQuotesOf getTime quotes) symbol)
        as [existing|].
      * destruct IH as [I E]. split; [apply in_or_app; now left|exact E].
      * intros q Hq. apply in_app_or in Hq.
        destruct Hq as [Hq|[<-|[]]]; [now apply IH|exact S].
Qed.

Lemma dateGt_invalid (a b : string) :
  getTime b = None -> dateGt getTime a b = false.
Proof. unfold dateGt. intros ->. now destruct (getTime a). Qed.

Lemma invalid_entry_stays (quotes : list Quote.t) (m : JSMap.t Quote.t)
    (first : Quote.t) :
  JSMap.get m (Quote.Symbol first) = Some first ->
  getTime (Quote.Date first) = None ->
  JSMap.get (fold_left (latestQuotesStep getTime) quotes m)
    (Quote.Symbol first)
  = Some first.
Proof.
  intros G T. revert m G.
  induction quotes as [|q quotes IH]; intros m G; [exact G|].
  cbn [fold_left]. apply IH.
  rewrite QuoteFacts.get_latestQuotesStep, G, (dateGt_invalid _ _ T).
  now destruct (Quote.Symbol q =? Quote.Symbol first).
Qed.

End WithHost.

End QuoteIndexFacts.

(** ** The accounts of a run *)

Module AccountsFacts.

Import JSMapFacts JSArrFacts Processor.

(** *** [trim] *)

Lemma trimStart_eq (s : string) :
  JSStr.trimStart s
  = match JSStr.afterSpace s with
    | Some r => JSStr.trimStart r
    | None => s
    end.
Proof.
  destruct s as [|a [|b [|c s3]]]; cbn [JSStr.trimStart JSStr.afterSpace];
    try reflexivity.
  - now destruct (JSStr.isSpace a).
  - destruct (JSStr.isSpace a); [reflexivity|].
    now destruct (JSStr.isSpace2 a b).
  - destruct (JSStr.isSpace a); [reflexivity|].
    destruct (JSStr.isSpace2 a b); [reflexivity|].
    now destruct (JSStr.isSpace3 a b c).
Qed.

Lemma afterSpace_length (s r : string) :
  JSStr.afterSpace s = Some r -> (String.length r < String.length s)%nat.
Proof.
  destruct s as [|a [|b [|c s3]]]; cbn [JSStr.afterSpace]; try discriminate.
  - destruct (JSStr.isSpace a); [|discriminate].
    intros [= <-]. cbn. lia.
  - destruct (JSStr.isSpace a); [intros [= <-]; cbn; lia|].
    destruct (JSStr.isSpace2 a b); [|discriminate].
    intros [= <-]. cbn. lia.
  - destruct (JSStr.isSpace a); [intros [= <-]; cbn; lia|].
    destruct (JSStr.isSpace2 a b); [intros [= <-]; cbn; lia|].
    destruct (JSStr.isSpace3 a b c); [|discriminate].
    intros [= <-]. cbn. lia.
Qed.

Lemma afterSpace_app (s r t : string) :
  JSStr.afterSpace s = Some r ->
  JSStr.afterSpace (s ++ t) = Some (r ++ t)%string.
Proof.
  destruct s as [|a [|b [|c s3]]];
    cbn [JSStr.afterSpace String.append]; try discriminate.
  - destruct (JSStr.isSpace a); [|discriminate].
    now intros [= <-].
  - destruct (JSStr.isSpace a); [now intros [= <-]|].
    destruct (JSStr.isSpace2 a b); [|discriminate].
    now intros [= <-].
  - destruct (JSStr.isSpace a); [now intros [= <-]|].
    destruct (JSStr.isSpace2 a b); [now intros [= <-]|].
    destruct (JSStr.isSpace3 a b c); [|discriminate].
    now intros [= <-].
Qed.

(** What [trimStart] leaves starts with no white space. *)
Lemma trimStart_done (s : string) :
  JSStr.afterSpace (JSStr.trimStart s) = None.
Proof.
  remember (String.length s) as n eqn:L.
  assert (B : (String.length s <= n)%nat) by lia. clear L.
  revert s B. induction n as [|n IH]; intros s B.
  - destruct s; [reflexivity|cbn in B; lia].
  - rewrite trimStart_eq.
    destruct (JSStr.afterSpace s) as [r|] eqn:E; [|exact E].
    apply IH. apply afterSpace_length in E. lia.
Qed.

Lemma trimStart_kept (s : string) :
  JSStr.afterSpace s = None -> JSStr.trimStart s = s.
Proof. intros E. now rewrite trimStart_eq, E. Qed.

(** White space before a string does not count. *)
Lemma trimStart_blank_app (a b : string) :
  JSStr.isBlank a = true -> JSStr.trimStart (a ++ b) = JSStr.trimStart b.
Proof.
  unfold JSStr.isBlank.
  remember (String.length a) as n eqn:L.
  assert (B : (String.length a <= n)%nat) by lia. clear L.
  revert a B. induction n as [|n IH]; intros a B H.
  - destruct a; [reflexivity|cbn in B; lia].
  - apply String.eqb_eq in H.
    destruct (JSStr.afterSpace a) as [r|] eqn:E.
    + rewrite (trimStart_eq (a ++ b)), (afterSpace_app _ _ b E).
      apply IH.
      * apply afterSpace_length in E. lia.
      * rewrite trimStart_eq, E in H. now rewrite H.
    + rewrite (trimStart_kept _ E) in H. now subst a.
Qed.

(** [trimEnd] cuts white space off. *)
Lemma trimEnd_split (s : string) :
  exists r, s = (JSStr.trimEnd s ++ r)%string /\ JSStr.isBlank r = true.
Proof.
  induction s as [|c s IH]; [now exists ""|].
  cbn [JSStr.trimEnd].
  destruct (JSStr.isBlank (String c s)) eqn:E.
  - now exists (String c s).
  - destruct IH as (r & S & R). exists r. split; [|exact R].
    cbn [String.append]. now rewrite <- S.
Qed.

Lemma trimEnd_idempotent (s : string) :
  JSStr.trimEnd (JSStr.trimEnd s) = JSStr.trimEnd s.
Proof.
  induction s as [|c s IH]; [reflexivity|].
  cbn [JSStr.trimEnd].
  destruct (JSStr.isBlank (String c s)) eqn:E; [reflexivity|].
  cbn [JSStr.trimEnd]. rewrite IH.
  destruct (JSStr.isBlank (String c (JSStr.trimEnd s))) eqn:F;
    [|reflexivity].
  destruct (trimEnd_split s) as (r & S & R).
  pose proof (trimStart_blank_app _ r F) as T.
  cbn [String.append] in T. rewrite <- S in T.
  unfold JSStr.isBlank in E, R. apply String.eqb_eq in R.
  rewrite T, R in E. discriminate E.
Qed.

Lemma trimEnd_done (s : string) :
  JSStr.afterSpace s = None -> JSStr.afterSpace (JSStr.trimEnd s) = None.
Proof.
  intros E. destruct (trimEnd_split s) as (r & S & _).
  destruct (JSStr.afterSpace (JSStr.trimEnd s)) as [x|] eqn:F;
    [|reflexivity].
  apply (afterSpace_app _ _ r) in F. rewrite <- S in F. congruence.
Qed.

Lemma trim_idempotent (s : string) : JSStr.trim (JSStr.trim s) = JSStr.trim s.
Proof.
  unfold JSStr.trim.
  rewrite (trimStart_kept (JSStr.trimEnd (JSStr.trimStart s))).
  - apply trimEnd_idempotent.
  - apply trimEnd_done, trimStart_done.
Qed.

(** A no-break space, which is not an ASCII character, is trimmed like a
    space. *)
Lemma trim_no_break_space :
  JSStr.trim (String "194" (String "160" "A") ++ String "194" (String "160" " "))
  = "A".
Proof. reflexivity. Qed.

(** *** The grouping by account *)

Section Grouping.

Variable stackOf : string -> string.
Variable notAFunction : string.

Local Abbreviation groupByAccount :=
  (Processor.groupByAccount stackOf notAFunction).

Lemma groupAt_pushTo {A} (m : JSMap.t (list A)) k x k' :
  PipelineViews.groupAt (JSArr.pushTo m k x) k'
  = PipelineViews.groupAt m k' ++ (if k =? k' then [x] else []).
Proof.
  unfold PipelineViews.groupAt.
  destruct (String.eqb_spec k k') as [<-|N].
  - rewrite get_pushTo_same. now destruct (JSMap.get m k).
  - rewrite get_pushTo_other by exact N. now rewrite app_nil_r.
Qed.

Lemma keys_pushTo {A} (m : JSMap.t (list A)) k x k' :
  In k' (JSMap.keys (JSArr.pushTo m k x)) <-> In k' (JSMap.keys m) \/ k = k'.
Proof.
  rewrite <- !has_In_keys. unfold JSMap.has.
  destruct (String.eqb_spec k k') as [<-|N].
  - rewrite get_pushTo_same. tauto.
  - rewrite get_pushTo_other by exact N.
    destruct (JSMap.get m k'); intuition congruence.
Qed.

(** What the single pass leaves in the map when it does not raise. *)
Lemma groupByAccount_spec (transactions : list Transaction.t)
    (m0 m : JSMap.t (list Transaction.t)) :
  groupByAccount transactions m0 = inr m ->
  (NoDup (JSMap.keys m0) -> NoDup (JSMap.keys m))
  /\ (forall name,
        In name (JSMap.keys m)
        <-> In name (JSMap.keys m0)
            \/ (PipelineViews.validName name = true
                /\ exists tr, In tr transactions
                              /\ PipelineViews.belongsTo name tr = true))
  /\ forall name,
       PipelineViews.groupAt m name
       = PipelineViews.groupAt m0 name
         ++ (if PipelineViews.validName name
             then filter (PipelineViews.belongsTo name) transactions
             else []).
Proof.
  revert m0. induction transactions as [|tr rest IH]; intros m0 H.
  - injection H as <-. split; [auto|]. split.
    + intros name. split; [auto|]. intros [I|(_ & tr & [] & _)]. exact I.
    + intros name. destruct (PipelineViews.validName name);
        now rewrite app_nil_r.
  - cbn [Processor.groupByAccount] in H.
    unfold trimmedAccount in H. unfold PipelineViews.belongsTo.
    destruct (Transaction.Account tr) as [s| | |] eqn:A;
      [|discriminate H| |].
    + fold (PipelineViews.validName (JSStr.trim s)) in H.
      destruct (PipelineViews.validName (JSStr.trim s)) eqn:V.
      * destruct (IH _ H) as (N & K & G). split; [|split].
        -- intros N0. apply N. now apply NoDup_keys_pushTo.
        -- intros name. rewrite K, keys_pushTo. split.
           ++ intros [[I|E]|(Vn & tr' & I & B)].
              ** now left.
              ** right. subst name. split; [exact V|].
                 exists tr. split; [now left|].
                 rewrite A. apply String.eqb_refl.
              ** right. split; [exact Vn|]. exists tr'. split; [now right|].
                 exact B.
           ++ intros [I|(Vn & tr' & [<-|I] & B)].
              ** left. now left.
              ** rewrite A in B. apply String.eqb_eq in B. left. now right.
              ** right. split; [exact Vn|]. now exists tr'.
        -- intros name. rewrite G, groupAt_pushTo, <- app_assoc. f_equal.
           cbn [filter]. rewrite A.
           destruct (String.eqb_spec (JSStr.trim s) name) as [<-|D].
           ++ now rewrite V.
           ++ now destruct (PipelineViews.validName name).
      * destruct (IH _ H) as (N & K & G). split; [exact N|]. split.
        -- intros name. rewrite K. split.
           ++ intros [I|(Vn & tr' & I & B)]; [now left|].
              right. split; [exact Vn|]. exists tr'. split; [now right|].
              exact B.
           ++ intros [I|(Vn & tr' & [<-|I] & B)]; [now left| |].
              ** rewrite A in B. apply String.eqb_eq in B. congruence.
              ** right. split; [exact Vn|]. now exists tr'.
        -- intros name. rewrite G. f_equal. cbn [filter]. rewrite A.
           destruct (String.eqb_spec (JSStr.trim s) name) as [<-|D];
             [now rewrite V|reflexivity].
    + destruct (IH _ H) as (N & K & G). split; [exact N|]. split.
      * intros name. rewrite K. split.
        -- intros [I|(Vn & tr' & I & B)]; [now left|].
           right. split; [exact Vn|]. exists tr'. split; [now right|].
           exact B.
        -- intros [I|(Vn & tr' & [<-|I] & B)]; [now left| |].
           ++ rewrite A in B. discriminate B.
           ++ right. split; [exact Vn|]. now exists tr'.
      * intros name. rewrite G. f_equal. cbn [filter]. now rewrite A.
    + destruct (IH _ H) as (N & K & G). split; [exact N|]. split.
      * intros name. rewrite K. split.
        -- intros [I|(Vn & tr' & I & B)]; [now left|].
           right. split; [exact Vn|]. exists tr'. split; [now right|].
           exact B.
        -- intros [I|(Vn & tr' & [<-|I] & B)]; [now left| |].
           ++ rewrite A in B. discriminate B.
           ++ right. split; [exact Vn|]. now exists tr'.
      * intros name. rewrite G. f_equal. cbn [filter]. now rewrite A.
Qed.

End Grouping.

(** *** The shape of a result *)

Section WithHost.

Variable getTime : string -> option Z.
Variable toISODate : Z -> string.
Variable stackOf : string -> string.
Variable notAFunction : string.
Variable parseTransactions : string -> list Transaction.t.
Variable parseSymbols : string -> list Symbol.t.
Variable parseQuotes : string -> list Quote.t.

Local Abbreviation process :=
  (processPortfolioData getTime toISODate stackOf notAFunction
     parseTransactions parseSymbols parseQuotes).
Local Abbreviation transactionsOf :=
  (PipelineViews.transactionsOf getTime toISODate parseTransactions).
Local Abbreviation quotesOf :=
  (PipelineViews.quotesOf getTime toISODate parseQuotes).
Local Abbreviation accountOf :=
  (PipelineViews.accountOf getTime toISODate parseSymbols parseQuotes).

(** A run returns the empty result, or the view of the accounts found
    by a grouping that did not raise. *)
Lemma process_shape (S : Type) (logFunction : string -> S -> S)
    (transactionsText symbolsText quotesText selectedAccount : string)
    (s : S) :
  fst (process S logFunction transactionsText symbolsText quotesText
         selectedAccount s) = emptyPortfolioData
  \/ exists accountTransactionsMap,
       groupByAccount stackOf notAFunction (transactionsOf transactionsText)
         [] = inr accountTransactionsMap
       /\ fst (process S logFunction transactionsText symbolsText
                 quotesText selectedAccount s)
          = portfolioOf
              (map (accountOf symbolsText quotesText accountTransactionsMap)
                 (JSStr.sort (JSMap.keys accountTransactionsMap)))
              (transactionsOf transactionsText) (quotesOf quotesText)
              (latestQuotesOf getTime (quotesOf quotesText))
              selectedAccount.
Proof.
  unfold processPortfolioData, processPortfolioDataTry.
  destruct (negb (JSStr.truthy transactionsText)
            || negb (JSStr.truthy symbolsText)
            || negb (JSStr.truthy quotesText)); [left; reflexivity|].
  cbv zeta.
  fold (transactionsOf transactionsText). fold (quotesOf quotesText).
  destruct (groupByAccount stackOf notAFunction
              (transactionsOf transactionsText) []) as [e|m];
    [left; reflexivity|].
  right. exists m. split; reflexivity.
Qed.

Lemma name_accountOf symbolsText quotesText m name :
  AccountData.name (accountOf symbolsText quotesText m name) = name.
Proof. reflexivity. Qed.

Lemma names_accountOf symbolsText quotesText m names :
  map AccountData.name (map (accountOf symbolsText quotesText m) names)
  = names.
Proof.
  rewrite map_map. induction names as [|n names IH]; [reflexivity|].
  cbn [map]. now rewrite IH.
Qed.

Lemma transactions_portfolioOf accountsData transactions quotes latestQuotes
    selectedAccount :
  PortfolioData.transactions
    (portfolioOf accountsData transactions quotes latestQuotes
       selectedAccount) = transactions
  /\ PortfolioData.quotes
       (portfolioOf accountsData transactions quotes latestQuotes
          selectedAccount) = Some quotes
  /\ PortfolioData.latestQuotes
       (portfolioOf accountsData transactions quotes latestQuotes
          selectedAccount) = Some latestQuotes.
Proof.
  unfold portfolioOf.
  destruct (selectedAccount =? "all"); [repeat split|].
  destruct (JSArr.find _ accountsData); repeat split.
Qed.

(** A cell that is not a text, wherever it is, makes the pass raise. *)
Lemma groupByAccount_raises (transactions : list Transaction.t)
    (m0 : JSMap.t (list Transaction.t)) (tr : Transaction.t) b text :
  In tr transactions -> Transaction.Account tr = COther b text ->
  exists e, groupByAccount stackOf notAFunction transactions m0 = inl e.
Proof.
  intros I A. revert m0.
  induction transactions as [|tr' rest IH]; intros m0; [contradiction|].
  cbn [Processor.groupByAccount]. destruct I as [->|I].
  - rewrite A. cbn [trimmedAccount]. eauto.
  - destruct (trimmedAccount stackOf notAFunction (Transaction.Account tr'))
      as [e|[account|]]; [eauto| |now apply IH].
    destruct (JSStr.truthy account && negb (account =? "all")
              && negb (account =? "All Accounts")); now apply IH.
Qed.

Lemma process_raises (S : Type) (logFunction : string -> S -> S)
    (transactionsText symbolsText quotesText selectedAccount : string)
    (s : S) e :
  groupByAccount stackOf notAFunction (transactionsOf transactionsText) []
  = inl e ->
  fst (process S logFunction transactionsText symbolsText quotesText
         selectedAccount s) = emptyPortfolioData.
Proof.
  intros E. unfold processPortfolioData, processPortfolioDataTry.
  destruct (negb (JSStr.truthy transactionsText)
            || negb (JSStr.truthy symbolsText)
            || negb (JSStr.truthy quotesText)); [reflexivity|].
  cbv zeta. fold (transactionsOf transactionsText). now rewrite E.
Qed.

End WithHost.

(** *** The transactions a series replays *)

Lemma replayed_idempotent (transactions : list Transaction.t)
    (selectedAccount : string) :
  SeriesViews.replayed (SeriesViews.replayed transactions selectedAccount)
    selectedAccount
  = SeriesViews.replayed transactions selectedAccount.
Proof.
  unfold SeriesViews.replayed.
  destruct (selectedAccount =? "all"); [reflexivity|].
  induction transactions as [|tr rest IH]; [reflexivity|].
  cbn [filter].
  destruct (JSCell.isStr (Transaction.Account tr) selectedAccount) eqn:E;
    [|exact IH].
  cbn [filter]. rewrite E. now f_equal.
Qed.

Lemma processTimeSeriesData_replayed transactions quotes quoteDates
    selectedAccount latestQuotes :
  processTimeSeriesData transactions quotes quoteDates selectedAccount
    latestQuotes
  = processTimeSeriesData
      (SeriesViews.replayed transactions selectedAccount) quotes quoteDates
      selectedAccount latestQuotes.
Proof.
  unfold processTimeSeriesData.
  fold (SeriesViews.replayed transactions selectedAccount).
  fold (SeriesViews.replayed
          (SeriesViews.replayed transactions selectedAccount)
          selectedAccount).
  now rewrite replayed_idempotent.
Qed.

Lemma replayed_group (transactions : list Transaction.t) (name : string) :
  (name =? "all") = false -> JSStr.trim name = name ->
  SeriesViews.replayed
    (filter (PipelineViews.belongsTo name) transactions) name
  = filter (fun tr => JSCell.isStr (Transaction.Account tr) name)
      transactions.
Proof.
  intros N T. unfold SeriesViews.replayed. rewrite N.
  induction transactions as [|tr rest IH]; [reflexivity|].
  cbn [filter]. unfold PipelineViews.belongsTo at 1.
  destruct (Transaction.Account tr) as [s| | |] eqn:A; cbn [JSCell.isStr].
  - destruct (String.eqb_spec s name) as [->|D].
    + rewrite T, String.eqb_refl. cbn [filter]. rewrite A.
      cbn [JSCell.isStr]. rewrite String.eqb_refl. now f_equal.
    + destruct (JSStr.trim s =? name); [|exact IH].
      cbn [filter]. rewrite A. cbn [JSCell.isStr].
      destruct (String.eqb_spec s name); [contradiction|exact IH].
  - exact IH.
  - exact IH.
  - exact IH.
Qed.

End AccountsFacts.

(** ** Holdings: what identifies them *)

Module HoldingViewsFacts.

Import JSArrFacts.

(** *** [split] *)

Lemma splitBy_nonempty (sep : ascii -> bool) (s : string) :
  JSStr.splitBy sep s <> [].
Proof.
  destruct s as [|c s]; cbn [JSStr.splitBy]; [discriminate|].
  destruct (sep c); [discriminate|].
  destruct (JSStr.splitBy sep s); discriminate.
Qed.

Lemma splitBy_head (sep : ascii -> bool) (a : string) (c : ascii)
    (b : string) :
  sep c = true ->
  nth 0 (JSStr.splitBy sep (a ++ String c b)) ""
  = nth 0 (JSStr.splitBy sep a) "".
Proof.
  intros C. induction a as [|x a IH]; cbn [append JSStr.splitBy].
  - now rewrite C.
  - destruct (sep x); [reflexivity|].
    pose proof (splitBy_nonempty sep (a ++ String c b)) as N1.
    pose proof (splitBy_nonempty sep a) as N2.
    destruct (JSStr.splitBy sep (a ++ String c b)) as [|p ps];
      [contradiction|].
    destruct (JSStr.splitBy sep a) as [|q qs]; [contradiction|].
    cbn [nth] in IH |- *. now rewrite IH.
Qed.

Lemma splitBy_second (sep : ascii -> bool) (a : string) (c : ascii)
    (b : string) :
  sep c = true ->
  (forall x, JSStr.contains x a = true -> sep x = false) ->
  nth 1 (JSStr.splitBy sep (a ++ String c b)) ""
  = nth 0 (JSStr.splitBy sep b) "".
Proof.
  intros C. induction a as [|x a IH]; intros F; cbn [append JSStr.splitBy].
  - now rewrite C.
  - rewrite (F x) by (cbn [JSStr.contains]; now rewrite Ascii.eqb_refl).
    pose proof (splitBy_nonempty sep (a ++ String c b)) as N1.
    destruct (JSStr.splitBy sep (a ++ String c b)) as [|p ps];
      [contradiction|].
    cbn [nth] in IH |- *. apply IH.
    intros y H. apply F. cbn [JSStr.contains]. rewrite H.
    apply orb_true_r.
Qed.

Lemma contains_false (c : ascii) (s : string) :
  JSStr.contains c s = false ->
  forall x, JSStr.contains x s = true -> Ascii.eqb c x = false.
Proof.
  intros H x Hx. destruct (Ascii.eqb_spec c x) as [<-|]; [|reflexivity].
  congruence.
Qed.

(** *** The fields that identify a holding *)

Section WithHost.

Variable getTime : string -> option Z.

Lemma holding_of_group (transactions : list Transaction.t) symbolMap
    latestQuotes statusType includeZeroQuantity (h : Holding.t) :
  In h (Processor.processHoldings getTime transactions symbolMap latestQuotes
          statusType includeZeroQuantity) ->
  exists tr,
    In tr transactions
    /\ h = Views.groupHolding getTime transactions symbolMap latestQuotes
             statusType includeZeroQuantity
             (Processor.holdingKey tr,
              JSArr.groupOf Processor.holdingKey transactions
                (Processor.holdingKey tr)).
Proof.
  rewrite HoldingsFacts.processHoldings_eq. intros H.
  apply in_map_iff in H. destruct H as (entry & <- & H).
  unfold Views.viewGroups in H. apply filter_In in H. destruct H as [H _].
  apply HoldingsFacts.In_groups in H. destruct H as (tr & I & K & G).
  exists tr. split; [exact I|]. destruct entry as [k g]. cbn [fst snd] in K, G.
  now subst.
Qed.

Lemma symbol_of_key (tr : Transaction.t) :
  nth 0 (JSStr.split "-" (Processor.holdingKey tr)) ""
  = HoldingViews.headSegment (Transaction.Symbol tr).
Proof.
  unfold Processor.holdingKey, JSStr.split, HoldingViews.headSegment.
  apply (splitBy_head (Ascii.eqb "-") (Transaction.Symbol tr) "-"
           (JSCell.orUnknown (Transaction.Account tr))).
  reflexivity.
Qed.

Lemma account_of_key (tr : Transaction.t) :
  JSStr.contains "-" (Transaction.Symbol tr) = false ->
  nth 1 (JSStr.split "-" (Processor.holdingKey tr)) ""
  = HoldingViews.headSegment (JSCell.orUnknown (Transaction.Account tr)).
Proof.
  intros H.
  unfold Processor.holdingKey, JSStr.split, HoldingViews.headSegment.
  apply (splitBy_second (Ascii.eqb "-") (Transaction.Symbol tr) "-"
           (JSCell.orUnknown (Transaction.Account tr))); [reflexivity|].
  now apply contains_false.
Qed.

(** *** The status of a holding *)

Lemma statusText_given (status : string) (transactions : list Transaction.t) :
  JSStr.truthy status = true ->
  (status =? "Cleared-RE") || (status =? "Clered -RE") = false ->
  Views.statusText (Some status) transactions = status.
Proof.
  intros T N. unfold Views.statusText, Processor.displayStatusOf.
  rewrite N. cbn [Processor.statusOf]. now rewrite T.
Qed.

Lemma statusText_first (transactions : list Transaction.t) :
  transactions <> [] ->
  exists tr, In tr transactions
             /\ Views.statusText None transactions = Transaction.Status_Tr tr.
Proof.
  destruct transactions as [|tr rest]; [contradiction|]. intros _.
  exists tr. split; [now left|reflexivity].
Qed.

Lemma current_holdings (transactions : list Transaction.t) symbolMap
    latestQuotes (h : Holding.t) :
  In h (Processor.processHoldings getTime transactions symbolMap latestQuotes
          (Some "Open Items") false) ->
  HoldingViews.current h.
Proof.
  intros H. split.
  - apply holding_of_group in H. destruct H as (tr & _ & ->).
    reflexivity.
  - exact (HoldingsFacts.current_quantity getTime _ _ _ _ _ H).
Qed.

Lemma closed_holdings (transactions : list Transaction.t) symbolMap
    latestQuotes (h : Holding.t) :
  Forall (fun tr => Processor.isClosedStatus (Transaction.Status_Tr tr) = true)
    transactions ->
  In h (Processor.processHoldings getTime transactions symbolMap latestQuotes
          None true) ->
  HoldingViews.closed h.
Proof.
  intros F H. split.
  - apply holding_of_group in H. destruct H as (tr & I & ->).
    change (Processor.isClosedStatus
              (Views.statusText None
                 (JSArr.sortBy (Processor.byDateAsc getTime)
                    (JSArr.groupOf Processor.holdingKey transactions
                       (Processor.holdingKey tr)))) = true).
    destruct (statusText_first
                (JSArr.sortBy (Processor.byDateAsc getTime)
                   (JSArr.groupOf Processor.holdingKey transactions
                      (Processor.holdingKey tr)))) as (first & If & ->).
    + apply sortBy_nonempty. now apply groupOf_nonempty.
    + apply sortBy_In in If. apply filter_In in If. destruct If as [If _].
      exact (proj1 (Forall_forall _ _) F first If).
  - exact (HoldingsFacts.closed_returns getTime _ _ _ _ _ H).
Qed.

Lemma account_holdings (accountTransactionsMap : JSMap.t (list Transaction.t))
    symbolMap latestQuotes quotes quoteDates (name : string) :
  let account :=
    Processor.processAccount getTime accountTransactionsMap symbolMap
      latestQuotes quotes quoteDates name in
  Forall HoldingViews.current (AccountData.currentHoldings account)
  /\ Forall HoldingViews.closed (AccountData.closedPositions account).
Proof.
  intros account. split; apply Forall_forall; intros h H.
  - exact (current_holdings _ _ _ _ H).
  - refine (closed_holdings _ _ _ _ _ H).
    apply Forall_forall. intros tr I. apply filter_In in I.
    destruct I as [_ I]. now apply andb_prop in I.
Qed.

Lemma portfolioOf_holdings (accountsData : list AccountData.t) transactions
    quotes latestQuotes selectedAccount (P Q : Holding.t -> Prop) :
  Forall (fun account =>
            Forall P (AccountData.currentHoldings account)
            /\ Forall Q (AccountData.closedPositions account))
    accountsData ->
  let data :=
    Processor.portfolioOf accountsData transactions quotes latestQuotes
      selectedAccount in
  Forall P (PortfolioData.currentHoldings data)
  /\ Forall Q (PortfolioData.closedPositions data).
Proof.
  intros F data. unfold data, Processor.portfolioOf.
  destruct (selectedAccount =? "all").
  - cbn [PortfolioData.currentHoldings PortfolioData.closedPositions].
    split; apply Forall_flat_map; apply Forall_forall; intros account I;
      now destruct (proj1 (Forall_forall _ _) F account I).
  - unfold JSArr.find. destruct (find _ accountsData) as [account|] eqn:E.
    + apply find_some in E. destruct E as [I _].
      exact (proj1 (Forall_forall _ _) F account I).
    + split; constructor.
Qed.

End WithHost.

End HoldingViewsFacts.

(** ** Dates *)

Module DateFacts.

Import Processor.

Section WithHost.

Variable getTime : string -> option Z.
Variable toISODate : Z -> string.

Lemma firstValid_printed (arrangements : list string) (d : string) :
  firstValid getTime toISODate arrangements = Some d ->
  exists ms, d = toISODate ms.
Proof.
  induction arrangements as [|a rest IH]; [discriminate|].
  cbn [firstValid]. destruct (getTime a) as [ms|]; [|exact IH].
  intros [= <-]. now exists ms.
Qed.

(** The result is the text given, which then does not parse, or a date
    the host printed. *)
Lemma standardizeDate_cases (dateStr : string) :
  (standardizeDate getTime toISODate dateStr = dateStr
   /\ getTime dateStr = None)
  \/ exists ms, standardizeDate getTime toISODate dateStr = toISODate ms.
Proof.
  unfold standardizeDate.
  destruct (getTime dateStr) as [ms|]; [right; now exists ms|].
  destruct (JSStr.splitBy isDateSeparator dateStr) as [|p0 [|p1 [|p2 [|]]]];
    try (left; now split).
  destruct (firstValid _ _ _) as [d|] eqn:E; [|left; now split].
  right. exact (firstValid_printed _ _ E).
Qed.

End WithHost.

End DateFacts.

(** ** Open Deposits: the rows and the measure that sums them *)

Module DepositRowFacts.

Import JSNumFacts JSArrFacts.

Lemma abs_gt_nonzero (x : number) :
  gt (PrimFloat.abs x) EPS = true -> seq x 0%float = false.
Proof.
  unfold gt, seq. rewrite ltb_spec, eqb_spec, abs_spec.
  change (Prim2SF 0%float) with (S754_zero false).
  destruct (Prim2SF x) as [s|s| |s m e]; intros H.
  - vm_compute in H. discriminate H.
  - now destruct s.
  - reflexivity.
  - now destruct s.
Qed.

Lemma truthy_not_nan (x : number) :
  JSNum.truthy x = true -> seq x 0%float = false /\ PrimFloat.is_nan x = false.
Proof.
  unfold JSNum.truthy, seq. intros H. apply andb_prop in H.
  destruct H as [A B]. split.
  - now destruct (PrimFloat.eqb x 0%float).
  - now destruct (PrimFloat.is_nan x).
Qed.

Lemma pushed_In {A} (steps : list (option (option A))) (rs : list A) (r : A) :
  Processor.pushed steps = Some rs -> In r rs -> In (Some (Some r)) steps.
Proof.
  revert rs. induction steps as [|[[h|]|] steps IH]; intros rs E I;
    cbn [Processor.pushed] in E.
  - injection E as <-. destruct I.
  - destruct (Processor.pushed steps) as [rs'|]; [|discriminate E].
    injection E as <-. destruct I as [->|I]; [now left|].
    right. now apply (IH rs').
  - right. now apply (IH rs).
  - discriminate E.
Qed.

Section WithHost.

Variable getTime : string -> option Z.

(** The price of a deposit is never zero and never NaN. *)
Lemma depositPrice_usable (data : PortfolioData.t) (exactSymbol : string)
    (netPrice : number) :
  let price := fst (Components.depositPrice getTime data exactSymbol netPrice) in
  seq price 0%float = false /\ PrimFloat.is_nan price = false.
Proof.
  cbv zeta. unfold Components.depositPrice.
  set (step1 :=
         match PortfolioData.latestQuotes data with
         | Some latestQuotes =>
             match JSMap.get latestQuotes exactSymbol with
             | Some quote =>
                 if JSNum.truthy (Quote.Close quote)
                    && gt (Quote.Close quote) 0%float
                 then (Quote.Close quote, "latestQuotes")
                 else (0%float, "default")
             | None => (0%float, "default")
             end
         | None => (0%float, "default")
         end).
  assert (N1 : PrimFloat.is_nan (fst step1) = false).
  { unfold step1. destruct (PortfolioData.latestQuotes data) as [lq|];
      [|reflexivity].
    destruct (JSMap.get lq exactSymbol) as [quote|]; [|reflexivity].
    destruct (JSNum.truthy (Quote.Close quote)) eqn:T; [|reflexivity].
    destruct (gt (Quote.Close quote) 0%float); [|reflexivity].
    exact (proj2 (truthy_not_nan _ T)). }
  set (step2 :=
         if seq (fst step1) 0%float then
           match PortfolioData.quotes data with
           | Some quotes =>
               match JSArr.sortBy (Components.byQuoteDateDesc getTime)
                       (filter (Components.matchesExactly exactSymbol) quotes)
               with
               | latestQuote :: _ => (Quote.Close latestQuote, "quotes array")
               | [] => step1
               end
           | None => step1
           end
         else step1).
  assert (N2 : PrimFloat.is_nan (fst step2) = false).
  { unfold step2. destruct (seq (fst step1) 0%float); [|exact N1].
    destruct (PortfolioData.quotes data) as [quotes|]; [|exact N1].
    destruct (JSArr.sortBy _ _) as [|latestQuote rest] eqn:E; [exact N1|].
    assert (I : In latestQuote
                  (JSArr.sortBy (Components.byQuoteDateDesc getTime)
                     (filter (Components.matchesExactly exactSymbol) quotes)))
      by (rewrite E; now left).
    apply sortBy_In in I. apply filter_In in I. destruct I as [_ I].
    unfold Components.matchesExactly in I.
    apply andb_prop in I. destruct I as [I _].
    apply andb_prop in I. destruct I as [_ I].
    exact (proj2 (truthy_not_nan _ I)). }
  destruct (seq (fst step2) 0%float) eqn:Z; [|now split].
  cbn [fst]. unfold orElse.
  destruct (JSNum.truthy netPrice) eqn:T; [exact (truthy_not_nan _ T)|].
  split; reflexivity.
Qed.

(** A row of the table is built from a group of the selected "Open
    Deposits" transactions. *)
Lemma openDeposits_row (data : PortfolioData.t) (selectedAccount : string)
    (rows : list Components.DepositHolding) (row : Components.DepositHolding) :
  Components.openDeposits getTime data selectedAccount = Some rows ->
  In row rows ->
  exists entry,
    In entry
      (JSArr.groupBy Components.depositKey
         (filter (fun tr => (Transaction.Status_Tr tr =? "Open Deposits")
                            && Components.inAccount selectedAccount tr)
            (PortfolioData.transactions data)))
    /\ Components.processDepositGroup getTime data entry = Some (Some row).
Proof.
  unfold Components.openDeposits. intros E I.
  pose proof (pushed_In _ _ _ E I) as H.
  apply in_map_iff in H. destruct H as (entry & P & G).
  now exists entry.
Qed.

(** With a positive close in the latest-quote index, the table and the
    measure price a symbol alike. *)
Lemma prices_agree (data : PortfolioData.t) (symbol : string)
    (netPrice : number) :
  Measures.quotedPositive data symbol ->
  fst (Components.depositPrice getTime data symbol netPrice)
  = Components.fixedIncomePrice getTime data symbol netPrice.
Proof.
  intros (lq & quote & L & G & P).
  unfold Components.depositPrice, Components.fixedIncomePrice.
  rewrite L, G, P, (gt_zero_truthy _ P). cbn [andb fst].
  pose proof (gt_zero_sne _ P) as Z. unfold seq in Z.
  unfold seq, Components.parseFloatText, seq. rewrite Z. cbn [fst].
  now rewrite Z.
Qed.

Lemma measure_sums_rows (data : PortfolioData.t)
    (groups : list (string * list Transaction.t)) (total : number) :
  (forall entry, In entry groups ->
     exists first rest,
       snd entry = first :: rest
       /\ Measures.quotedPositive data (Transaction.Symbol first)) ->
  exists rows,
    Processor.pushed (map (Components.processDepositGroup getTime data) groups)
    = Some rows
    /\ fold_left (Measures.fixedIncomeStep getTime data) groups (Some total)
       = Some (fold_left (fun s h => (s + Components.dValue h)%float) rows
                 total).
Proof.
  revert total. induction groups as [|entry groups IH]; intros total H.
  - exists []. split; reflexivity.
  - destruct (H entry (or_introl eq_refl)) as (first & rest & E & Q).
    destruct entry as [k g]. cbn [snd] in E. subst g.
    cbn [map fold_left Processor.pushed].
    change (Measures.fixedIncomeStep getTime data (Some total)
              (k, first :: rest))
      with (Some
              (if gt (PrimFloat.abs (Processor.quantityOf (first :: rest))) EPS
               then (total
                     + Processor.quantityOf (first :: rest)
                       * Components.fixedIncomePrice getTime data
                           (Transaction.Symbol first)
                           (Transaction.Net_Price first))%float
               else total)).
    unfold Components.processDepositGroup at 1. cbn [fst snd].
    rewrite <- (prices_agree data _ (Transaction.Net_Price first) Q).
    destruct (Components.depositPrice getTime data (Transaction.Symbol first)
                (Transaction.Net_Price first)) as [price source].
    cbn [fst].
    destruct (gt (PrimFloat.abs (Processor.quantityOf (first :: rest))) EPS);
      cbv iota.
    + destruct (IH (total
                    + Processor.quantityOf (first :: rest) * price)%float)
        as (rows & P & F); [intros e I; apply H; now right|].
      eexists. split; [rewrite P; reflexivity|]. exact F.
    + destruct (IH total) as (rows & P & F);
        [intros e I; apply H; now right|].
      exists rows. split; [exact P|exact F].
Qed.

End WithHost.

End DepositRowFacts.

(** ** Aggregation by key *)

Module AggregationFacts.

Import JSMapFacts.

Section Generic.

Context {A R : Type}.
Variable key : A -> string.
Variable init : A -> R.
Variable add : R -> A -> R.

Local Abbreviation step := (Aggregation.step key init add).
Local Abbreviation sameKey := (Aggregation.sameKey key).

Lemma sameKey_snoc (xs : list A) (x : A) (k : string) :
  sameKey (xs ++ [x]) k
  = sameKey xs k ++ (if key x =? k then [x] else []).
Proof.
  unfold Aggregation.sameKey. rewrite filter_app. cbn [filter].
  now destruct (key x =? k).
Qed.

(** The row the fold holds for a key: the row created from the first
    element of the key and updated with each of its elements in turn. *)
Lemma get_fold (xs : list A) (k : string) :
  JSMap.get (fold_left step xs []) k
  = match sameKey xs k with
    | [] => None
    | first :: rest => Some (fold_left add (first :: rest) (init first))
    end.
Proof.
  induction xs as [|x xs IH] using rev_ind; [reflexivity|].
  rewrite fold_left_app, sameKey_snoc. cbn [fold_left].
  unfold Aggregation.step at 1.
  destruct (String.eqb_spec (key x) k) as [E|N].
  - subst k. rewrite get_set_same, IH.
    destruct (sameKey xs (key x)) as [|first rest]; [reflexivity|].
    cbn [app fold_left]. now rewrite fold_left_app.
  - rewrite get_set_other by exact N. now rewrite IH, app_nil_r.
Qed.

Lemma keys_fold (xs : list A) : NoDup (JSMap.keys (fold_left step xs [])).
Proof.
  induction xs as [|x xs IH] using rev_ind; [constructor|].
  rewrite fold_left_app. cbn [fold_left]. now apply NoDup_keys_set.
Qed.

Lemma In_fold (xs : list A) (k : string) (row : R) :
  In (k, row) (fold_left step xs []) ->
  exists first rest,
    sameKey xs k = first :: rest
    /\ row = fold_left add (first :: rest) (init first).
Proof.
  intros H. apply In_get in H; [|apply keys_fold].
  rewrite get_fold in H.
  destruct (sameKey xs k) as [|first rest]; [discriminate H|].
  injection H as <-. now exists first, rest.
Qed.

Lemma In_values (xs : list A) (row : R) :
  In row (JSMap.values (fold_left step xs [])) ->
  exists k first rest,
    sameKey xs k = first :: rest
    /\ row = fold_left add (first :: rest) (init first).
Proof.
  intros H. unfold JSMap.values in H. apply in_map_iff in H.
  destruct H as ([k r] & E & H). cbn [snd] in E. subst r.
  exists k. now apply In_fold.
Qed.

(** A field that each update adds to is the running sum over the
    elements; a field no update touches is that of the row created. *)
Lemma fold_sum (field : R -> number) (amount : A -> number) :
  (forall r x, field (add r x) = (field r + amount x)%float) ->
  forall xs r,
    field (fold_left add xs r)
    = fold_left (fun s x => (s + amount x)%float) xs (field r).
Proof.
  intros H xs. induction xs as [|x xs IH]; intros r; [reflexivity|].
  cbn [fold_left]. now rewrite IH, H.
Qed.

Lemma fold_kept {B} (field : R -> B) :
  (forall r x, field (add r x) = field r) ->
  forall xs r, field (fold_left add xs r) = field r.
Proof.
  intros H xs. induction xs as [|x xs IH]; intros r; [reflexivity|].
  cbn [fold_left]. now rewrite IH, H.
Qed.

(** A field that each update recomputes from the updated row is, after
    the last element, what it computes from the final row. *)
Lemma fold_recomputed {B} (field : R -> B) (compute : R -> B) :
  (forall r x, field (add r x) = compute (add r x)) ->
  forall xs r, xs <> [] ->
    field (fold_left add xs r) = compute (fold_left add xs r).
Proof.
  intros H xs r N.
  destruct xs as [|x xs] using rev_ind; [contradiction|].
  rewrite fold_left_app. cbn [fold_left]. apply H.
Qed.

(** When the key of a row can be read off the row, the rows have
    distinct keys. *)
Lemma values_keys (keyOf : R -> string) (xs : list A) :
  (forall x, keyOf (init x) = key x) ->
  (forall r x, keyOf (add r x) = keyOf r) ->
  map keyOf (JSMap.values (fold_left step xs []))
  = JSMap.keys (fold_left step xs []).
Proof.
  intros Hi Ha. unfold JSMap.values, JSMap.keys. rewrite map_map.
  apply map_ext_in. intros [k row] I. cbn [fst snd].
  destruct (In_fold xs k row I) as (first & rest & E & ->).
  rewrite (fold_kept keyOf Ha), Hi.
  assert (F : In first (sameKey xs k)) by (rewrite E; now left).
  apply filter_In in F. destruct F as [_ F]. now apply String.eqb_eq in F.
Qed.

End Generic.

(** *** The two tables *)

Lemma aggregateHolding_step (acc : JSMap.t Holding.t) (holding : Holding.t) :
  Components.aggregateHolding acc holding
  = Aggregation.step Holding.Symbol CurrentHoldingsTable.emptiedHolding
      CurrentHoldingsTable.addHolding acc holding.
Proof. reflexivity. Qed.

Lemma aggregatePosition_step (acc : JSMap.t Holding.t)
    (position : Holding.t) :
  ClosedPositionsTable.aggregatePosition acc position
  = Aggregation.step ClosedPositionsTable.positionKey
      ClosedPositionsTable.emptiedPosition ClosedPositionsTable.addPosition
      acc position.
Proof. reflexivity. Qed.

Lemma fold_left_ext {S X} (f g : S -> X -> S) (xs : list X) (s : S) :
  (forall s x, f s x = g s x) -> fold_left f xs s = fold_left g xs s.
Proof.
  intros H. revert s. induction xs as [|x xs IH]; intros s; [reflexivity|].
  cbn [fold_left]. now rewrite H, IH.
Qed.

(** *** The counters of the tabs *)

Lemma setOf_length_le (xs ys : list string) :
  incl xs ys -> (List.length (JSStr.setOf xs) <= List.length (JSStr.setOf ys))%nat.
Proof.
  intros H. apply NoDup_incl_length; [apply SeriesFacts.setOf_NoDup|].
  intros x I. rewrite JSStrFacts.setOf_In in I |- *. now apply H.
Qed.

Lemma setOf_length_app (xs ys : list string) :
  (List.length (JSStr.setOf (xs ++ ys))
   <= List.length (JSStr.setOf xs) + List.length (JSStr.setOf ys))%nat.
Proof.
  rewrite <- length_app.
  apply NoDup_incl_length; [apply SeriesFacts.setOf_NoDup|].
  intros x I. rewrite JSStrFacts.setOf_In, in_app_iff in I.
  rewrite in_app_iff, !JSStrFacts.setOf_In. exact I.
Qed.

End AggregationFacts.

(** ** The performance chart *)

Module ChartFacts.

Lemma series_points_unmerged transactions quotes quoteDates selectedAccount
    latestQuotes (point : TimeSeriesDataPoint.t) :
  In point
    (Processor.processTimeSeriesData transactions quotes quoteDates
       selectedAccount latestQuotes) ->
  TimeSeriesDataPoint.accountValues point = [].
Proof.
  destruct (SeriesFacts.processTimeSeriesData_tracks transactions quotes
              quoteDates selectedAccount latestQuotes)
    as (st & -> & _ & _ & _ & _ & _ & _ & P).
  intros H. apply In_nth_error in H. destruct H as [i H].
  now destruct (P i point H) as (_ & _ & _ & _ & _ & V).
Qed.

Lemma chartData_unmerged (getTime : string -> option Z)
    (timeSeriesData : list TimeSeriesDataPoint.t) (selectedAccount : string) :
  selectedAccount <> "all" ->
  (forall point, In point timeSeriesData ->
                 TimeSeriesDataPoint.accountValues point = []) ->
  PerformanceChart.chartData getTime timeSeriesData selectedAccount = [].
Proof.
  intros N H. unfold PerformanceChart.chartData.
  destruct (String.eqb_spec selectedAccount "all") as [E|_];
    [contradiction|].
  cbn [orb].
  replace (filter
             (fun d => PerformanceChart.hasAccountValue d selectedAccount)
             timeSeriesData) with (@nil TimeSeriesDataPoint.t);
    [reflexivity|].
  symmetry. induction timeSeriesData as [|d rest IH]; [reflexivity|].
  cbn [filter]. unfold PerformanceChart.hasAccountValue at 1.
  rewrite (H d (or_introl eq_refl)). apply IH.
  intros point I. apply H. now right.
Qed.

End ChartFacts.

(** ** Closed Deposits: the rows *)

Module DepositsTableFacts.

Import JSArrFacts.

Lemma collect_all {A B} (f : A -> option B) (xs : list A) :
  (forall x, In x xs -> exists r, f x = Some r) ->
  exists rs,
    DepositsTable.collect (map f xs) = Some rs
    /\ forall r, In r rs <-> exists x, In x xs /\ f x = Some r.
Proof.
  induction xs as [|x xs IH]; intros H.
  - exists []. split; [reflexivity|]. intros r. split; [intros []|].
    now intros (x & [] & _).
  - destruct (H x (or_introl eq_refl)) as [r0 E].
    destruct IH as (rs & C & I); [intros y Hy; apply H; now right|].
    exists (r0 :: rs). cbn [map DepositsTable.collect]. rewrite E, C.
    split; [reflexivity|]. intros r. cbn [In]. rewrite I. split.
    + intros [<-|(y & Hy & Fy)]; [exists x; auto|exists y; auto].
    + intros (y & [<-|Hy] & Fy); [left; congruence|right; now exists y].
Qed.

(** The rows are those of the groups of the transactions. *)
Lemma deposit_rows (transactions : list Transaction.t) :
  exists rows,
    DepositsTable.processHoldings transactions = Some rows
    /\ forall row,
         In row rows
         <-> exists first rest,
               In first transactions
               /\ DepositsTable.groupOfKey transactions first = first :: rest
               /\ DepositsTable.holdingOfGroup
                    (DepositsTable.groupKey first, first :: rest)
                  = Some row.
Proof.
  unfold DepositsTable.processHoldings,
    DepositsTable.groupTransactionsBySymbol.
  destruct (collect_all DepositsTable.holdingOfGroup
              (JSArr.groupBy DepositsTable.groupKey transactions))
    as (rows & C & I).
  - intros [k g] H. apply groups_nonempty in H. cbn [snd] in H.
    destruct g as [|first rest]; [contradiction|].
    unfold DepositsTable.holdingOfGroup. cbn [snd]. eauto.
  - exists rows. split; [exact C|]. intros row. rewrite I. split.
    + intros ([k g] & H & F). apply In_groupBy in H. destruct H as [-> N].
      destruct (JSArr.groupOf DepositsTable.groupKey transactions k)
        as [|first rest] eqn:E; [contradiction|].
      assert (M : In first
                    (JSArr.groupOf DepositsTable.groupKey transactions k))
        by (rewrite E; now left).
      apply filter_In in M. destruct M as [M K].
      apply String.eqb_eq in K. subst k.
      exists first, rest. repeat split; assumption.
    + intros (first & rest & M & E & F).
      exists (DepositsTable.groupKey first, first :: rest). split; [|exact F].
      apply In_groupBy. unfold DepositsTable.groupOfKey in E.
      split; [now rewrite E|discriminate].
Qed.

End DepositsTableFacts.

(** ** Sorting, the performers and the allocation *)

Module SortFacts.

Lemma insertBy_Permutation {A} (cmp : A -> A -> comparison) (x : A)
    (xs : list A) :
  Permutation (JSArr.insertBy cmp x xs) (x :: xs).
Proof.
  induction xs as [|y xs IH]; cbn [JSArr.insertBy]; [reflexivity|].
  destruct (cmp x y); try reflexivity.
  rewrite IH. apply perm_swap.
Qed.

Lemma sortBy_Permutation {A} (cmp : A -> A -> comparison) (xs : list A) :
  Permutation (JSArr.sortBy cmp xs) xs.
Proof.
  unfold JSArr.sortBy. induction xs as [|x xs IH]; [reflexivity|].
  cbn [fold_right]. rewrite insertBy_Permutation. now constructor.
Qed.

Lemma In_firstn {A} (n : nat) (xs : list A) (x : A) :
  In x (firstn n xs) -> In x xs.
Proof.
  intros H. rewrite <- (firstn_skipn n xs). apply in_or_app. now left.
Qed.

End SortFacts.

Module AllocationFacts.

Import JSMapFacts.

Lemma sectorKey_snoc {A} (key : A -> string) (xs : list A) (x : A) k :
  Aggregation.sameKey key (xs ++ [x]) k
  = Aggregation.sameKey key xs k ++ (if key x =? k then [x] else []).
Proof.
  unfold Aggregation.sameKey. rewrite filter_app. cbn [filter].
  now destruct (key x =? k).
Qed.

(** The map of the sectors and the total after the holdings. *)
Lemma fold_addToSector (holdings : list Holding.t) :
  let state := fold_left Allocation.addToSector holdings ([], 0%float) in
  NoDup (JSMap.keys (fst state))
  /\ snd state = sumOf Allocation.valueOf holdings
  /\ forall sector,
       JSMap.get (fst state) sector
       = match Aggregation.sameKey Allocation.sectorOf holdings sector with
         | [] => None
         | first :: rest =>
             Some (fold_left (fun s h => (s + Allocation.valueOf h)%float)
                     rest (Allocation.valueOf first))
         end.
Proof.
  induction holdings as [|h holdings IH] using rev_ind.
  - split; [constructor|]. split; reflexivity.
  - cbv zeta in IH |- *. rewrite fold_left_app. cbn [fold_left].
    destruct (fold_left Allocation.addToSector holdings ([], 0%float))
      as [m total].
    cbn [fst snd] in IH. destruct IH as (N & T & G).
    unfold Allocation.addToSector.
    fold (Allocation.sectorOf h). fold (Allocation.valueOf h).
    split; [|split].
    + cbn [fst]. destruct (JSMap.get m (Allocation.sectorOf h));
        now apply NoDup_keys_set.
    + cbn [snd]. unfold sumOf. rewrite fold_left_app. cbn [fold_left].
      rewrite T. reflexivity.
    + intros sector. cbn [fst]. rewrite sectorKey_snoc.
      destruct (String.eqb_spec (Allocation.sectorOf h) sector) as [E|D].
      * subst sector. rewrite (G (Allocation.sectorOf h)).
        destruct (Aggregation.sameKey Allocation.sectorOf holdings
                    (Allocation.sectorOf h)) as [|first rest].
        -- now rewrite get_set_same.
        -- rewrite get_set_same. cbn [app]. now rewrite fold_left_app.
      * rewrite app_nil_r, <- (G sector).
        destruct (JSMap.get m (Allocation.sectorOf h));
          now rewrite get_set_other.
Qed.

End AllocationFacts.

(** ** Two hosts: what of the host a run depends on *)

Module HostFacts.

Import JSArrFacts Processor.

Lemma insertBy_ext {A} (cmp1 cmp2 : A -> A -> comparison) (x : A)
    (xs : list A) :
  (forall y, In y xs -> cmp1 x y = cmp2 x y) ->
  JSArr.insertBy cmp1 x xs = JSArr.insertBy cmp2 x xs.
Proof.
  induction xs as [|y xs IH]; intros H; [reflexivity|].
  cbn [JSArr.insertBy]. rewrite (H y (or_introl eq_refl)).
  rewrite IH by (intros z Hz; apply H; now right). reflexivity.
Qed.

(** A sort reads its comparator on the elements of the array only. *)
Lemma sortBy_ext {A} (cmp1 cmp2 : A -> A -> comparison) (xs : list A) :
  (forall x y, In x xs -> In y xs -> cmp1 x y = cmp2 x y) ->
  JSArr.sortBy cmp1 xs = JSArr.sortBy cmp2 xs.
Proof.
  induction xs as [|x xs IH]; intros H; [reflexivity|].
  cbn [JSArr.sortBy fold_right].
  change (fold_right (JSArr.insertBy cmp1) [] xs) with (JSArr.sortBy cmp1 xs).
  change (fold_right (JSArr.insertBy cmp2) [] xs) with (JSArr.sortBy cmp2 xs).
  rewrite IH by (intros a b Ha Hb; apply H; now right).
  apply insertBy_ext. intros y Hy. apply sortBy_In in Hy.
  apply H; [now left|now right].
Qed.

Section TwoHosts.

Variables getTime1 getTime2 : string -> option Z.

Lemma compareTimes_ext (a b : string) :
  getTime1 a = getTime2 a -> getTime1 b = getTime2 b ->
  compareTimes getTime1 a b = compareTimes getTime2 a b.
Proof. unfold compareTimes. now intros -> ->. Qed.

Lemma dateGt_ext (a b : string) :
  getTime1 a = getTime2 a -> getTime1 b = getTime2 b ->
  dateGt getTime1 a b = dateGt getTime2 a b.
Proof. unfold dateGt. now intros -> ->. Qed.

(** The rows of a group are rows of the array grouped. *)
Lemma In_group {A} (key : A -> string) (xs : list A)
    (entry : string * list A) (x : A) :
  In entry (JSArr.groupBy key xs) -> In x (snd entry) -> In x xs.
Proof.
  destruct entry as [k g]. intros H I. apply In_groupBy in H.
  destruct H as [-> _]. cbn [snd] in I. unfold JSArr.groupOf in I.
  now apply filter_In in I.
Qed.

Lemma processHoldings_ext (transactions : list Transaction.t) symbolMap
    latestQuotes statusType includeZeroQuantity :
  (forall tr, In tr transactions ->
     getTime1 (Transaction.Date tr) = getTime2 (Transaction.Date tr)) ->
  processHoldings getTime1 transactions symbolMap latestQuotes statusType
    includeZeroQuantity
  = processHoldings getTime2 transactions symbolMap latestQuotes statusType
      includeZeroQuantity.
Proof.
  intros H. unfold processHoldings.
  rewrite (map_ext_in
             (processGroup getTime1 symbolMap latestQuotes statusType
                includeZeroQuantity (holdingsCash transactions))
             (processGroup getTime2 symbolMap latestQuotes statusType
                includeZeroQuantity (holdingsCash transactions)));
    [reflexivity|].
  intros entry I. unfold processGroup.
  rewrite (sortBy_ext (byDateAsc getTime1) (byDateAsc getTime2) (snd entry));
    [reflexivity|].
  intros a b Ha Hb. unfold byDateAsc.
  apply compareTimes_ext; apply H; eapply In_group; eauto.
Qed.

Lemma latestQuotesOf_ext (quotes : list Quote.t) :
  (forall q, In q quotes ->
     getTime1 (Quote.Date q) = getTime2 (Quote.Date q)) ->
  latestQuotesOf getTime1 quotes = latestQuotesOf getTime2 quotes.
Proof.
  induction quotes as [|quote quotes IH] using rev_ind; intros H;
    [reflexivity|].
  rewrite !QuoteFacts.latestQuotesOf_snoc.
  rewrite IH by (intros q Hq; apply H, in_or_app; now left).
  unfold latestQuotesStep.
  pose proof (QuoteIndexFacts.entry_of_symbol getTime2 quotes
                (Quote.Symbol quote)) as E.
  destruct (JSMap.get (latestQuotesOf getTime2 quotes) (Quote.Symbol quote))
    as [existing|]; [|reflexivity].
  destruct E as [I _].
  rewrite (dateGt_ext (Quote.Date quote) (Quote.Date existing));
    [reflexivity| |].
  - apply H, in_or_app. right. now left.
  - apply H, in_or_app. now left.
Qed.

Lemma In_concat_groups {A} (key : A -> string) (xs : list A) (x : A) :
  In x (List.concat (JSMap.values (JSArr.groupBy key xs))) -> In x xs.
Proof.
  intros I. apply in_concat in I. destruct I as (g & G & I).
  unfold JSMap.values in G. apply in_map_iff in G.
  destruct G as (entry & <- & G). eapply In_group; eauto.
Qed.

Lemma processAccount_ext accountTransactionsMap symbolMap latestQuotes
    quotes quoteDates account :
  (forall tr, In tr (Views.accountTransactionsOf accountTransactionsMap
                       account) ->
     getTime1 (Transaction.Date tr) = getTime2 (Transaction.Date tr)) ->
  processAccount getTime1 accountTransactionsMap symbolMap latestQuotes
    quotes quoteDates account
  = processAccount getTime2 accountTransactionsMap symbolMap latestQuotes
      quotes quoteDates account.
Proof.
  intros H. unfold processAccount. cbv zeta.
  fold (Views.accountTransactionsOf accountTransactionsMap account).
  set (rows := Views.accountTransactionsOf accountTransactionsMap account)
    in *.
  rewrite (processHoldings_ext
             (filter (fun tr => Transaction.Status_Tr tr =? "Open Items")
                rows))
    by (intros tr I; apply H; now apply filter_In in I).
  rewrite (processHoldings_ext
             (filter (fun tr =>
                        negb (Transaction.Status_Tr tr =? "Open Items")
                        && isClosedStatus (Transaction.Status_Tr tr))
                rows))
    by (intros tr I; apply H; now apply filter_In in I).
  rewrite (processHoldings_ext
             (List.concat
                (JSMap.values
                   (JSArr.groupBy timeDepositKey
                      (filter (fun tr =>
                                 Transaction.Status_Tr tr =? "Time Deposit")
                         rows)))))
    by (intros tr I; apply H; apply In_concat_groups in I;
        now apply filter_In in I).
  reflexivity.
Qed.

End TwoHosts.

(** The grouping by account raises or not, and gives the same map,
    whatever the texts of the error it raises. *)
Lemma groupByAccount_hosts stackOf1 notAFunction1 stackOf2 notAFunction2
    (transactions : list Transaction.t) (m : JSMap.t (list Transaction.t)) :
  match groupByAccount stackOf1 notAFunction1 transactions m,
        groupByAccount stackOf2 notAFunction2 transactions m with
  | inr m1, inr m2 => m1 = m2
  | inl _, inl _ => True
  | _, _ => False
  end.
Proof.
  revert m. induction transactions as [|tr rest IH]; intros m;
    [reflexivity|].
  cbn [groupByAccount]. unfold trimmedAccount.
  destruct (Transaction.Account tr) as [s| | |]; try apply IH; [|exact I].
  destruct (JSStr.truthy (JSStr.trim s) && negb (JSStr.trim s =? "all")
            && negb (JSStr.trim s =? "All Accounts")); apply IH.
Qed.

(** The rows the grouping files under a name are rows of the table. *)
Lemma In_account stackOf notAFunction (transactions : list Transaction.t)
    (m : JSMap.t (list Transaction.t)) (account : string)
    (tr : Transaction.t) :
  groupByAccount stackOf notAFunction transactions [] = inr m ->
  In tr (Views.accountTransactionsOf m account) -> In tr transactions.
Proof.
  intros G I.
  destruct (AccountsFacts.groupByAccount_spec stackOf notAFunction _ _ _ G)
    as (_ & _ & A).
  specialize (A account).
  change (Views.accountTransactionsOf m account)
    with (PipelineViews.groupAt m account) in I.
  rewrite A in I.
  change (PipelineViews.groupAt [] account) with (@nil Transaction.t) in I.
  cbn [app] in I.
  destruct (PipelineViews.validName account); [|contradiction].
  now apply filter_In in I.
Qed.

Section Runs.

Variables getTime1 getTime2 : string -> option Z.
Variables toISODate1 toISODate2 : Z -> string.
Variables stackOf1 stackOf2 : string -> string.
Variables notAFunction1 notAFunction2 : string.
Variable parseTransactions : string -> list Transaction.t.
Variable parseSymbols : string -> list Symbol.t.
Variable parseQuotes : string -> list Quote.t.

(** Two hosts that standardize the dates of the rows alike and read the
    standardized dates alike return the same data. *)
Lemma process_hosts (S1 S2 : Type) (log1 : string -> S1 -> S1)
    (log2 : string -> S2 -> S2)
    (transactionsText symbolsText quotesText selectedAccount : string)
    (s1 : S1) (s2 : S2) :
  PipelineViews.transactionsOf getTime1 toISODate1 parseTransactions
    transactionsText
  = PipelineViews.transactionsOf getTime2 toISODate2 parseTransactions
      transactionsText ->
  PipelineViews.quotesOf getTime1 toISODate1 parseQuotes quotesText
  = PipelineViews.quotesOf getTime2 toISODate2 parseQuotes quotesText ->
  (forall tr,
     In tr (PipelineViews.transactionsOf getTime1 toISODate1
              parseTransactions transactionsText) ->
     getTime1 (Transaction.Date tr) = getTime2 (Transaction.Date tr)) ->
  (forall q,
     In q (PipelineViews.quotesOf getTime1 toISODate1 parseQuotes
             quotesText) ->
     getTime1 (Quote.Date q) = getTime2 (Quote.Date q)) ->
  fst (processPortfolioData getTime1 toISODate1 stackOf1 notAFunction1
         parseTransactions parseSymbols parseQuotes S1 log1
         transactionsText symbolsText quotesText selectedAccount s1)
  = fst (processPortfolioData getTime2 toISODate2 stackOf2 notAFunction2
           parseTransactions parseSymbols parseQuotes S2 log2
           transactionsText symbolsText quotesText selectedAccount s2).
Proof.
  intros T Q HT HQ.
  unfold processPortfolioData, processPortfolioDataTry.
  destruct (negb (JSStr.truthy transactionsText)
            || negb (JSStr.truthy symbolsText)
            || negb (JSStr.truthy quotesText)); [reflexivity|].
  cbv zeta.
  fold (PipelineViews.transactionsOf getTime1 toISODate1 parseTransactions
          transactionsText).
  fold (PipelineViews.transactionsOf getTime2 toISODate2 parseTransactions
          transactionsText).
  fold (PipelineViews.quotesOf getTime1 toISODate1 parseQuotes quotesText).
  fold (PipelineViews.quotesOf getTime2 toISODate2 parseQuotes quotesText).
  rewrite <- T, <- Q.
  set (rows := PipelineViews.transactionsOf getTime1 toISODate1
                 parseTransactions transactionsText) in *.
  set (quotes := PipelineViews.quotesOf getTime1 toISODate1 parseQuotes
                   quotesText) in *.
  pose proof (groupByAccount_hosts stackOf1 notAFunction1 stackOf2
                notAFunction2 rows []) as G.
  destruct (groupByAccount stackOf1 notAFunction1 rows []) as [e1|m1] eqn:G1;
    destruct (groupByAccount stackOf2 notAFunction2 rows []) as [e2|m2];
    try contradiction; [reflexivity|].
  subst m2. cbn [fst].
  rewrite <- (latestQuotesOf_ext getTime1 getTime2 quotes HQ).
  f_equal. apply map_ext_in. intros account _.
  apply processAccount_ext. intros tr I. apply HT.
  exact (In_account _ _ _ _ _ _ G1 I).
Qed.

End Runs.

Section OneHost.

Variable getTime : string -> option Z.
Variable toISODate : Z -> string.
Variable stackOf : string -> string.
Variable notAFunction : string.
Variable parseTransactions : string -> list Transaction.t.
Variable parseSymbols : string -> list Symbol.t.
Variable parseQuotes : string -> list Quote.t.

(** The selected account decides the top-level view only. *)
Lemma process_selection (S1 S2 : Type) (log1 : string -> S1 -> S1)
    (log2 : string -> S2 -> S2)
    (transactionsText symbolsText quotesText account1 account2 : string)
    (s1 : S1) (s2 : S2) :
  let data1 :=
    fst (processPortfolioData getTime toISODate stackOf notAFunction
           parseTransactions parseSymbols parseQuotes S1 log1
           transactionsText symbolsText quotesText account1 s1) in
  let data2 :=
    fst (processPortfolioData getTime toISODate stackOf notAFunction
           parseTransactions parseSymbols parseQuotes S2 log2
           transactionsText symbolsText quotesText account2 s2) in
  PortfolioData.accounts data1 = PortfolioData.accounts data2
  /\ PortfolioData.transactions data1 = PortfolioData.transactions data2
  /\ PortfolioData.quotes data1 = PortfolioData.quotes data2
  /\ PortfolioData.latestQuotes data1 = PortfolioData.latestQuotes data2.
Proof.
  cbv zeta. unfold processPortfolioData, processPortfolioDataTry.
  destruct (negb (JSStr.truthy transactionsText)
            || negb (JSStr.truthy symbolsText)
            || negb (JSStr.truthy quotesText)); [repeat split|].
  cbv zeta.
  destruct (groupByAccount stackOf notAFunction _ []) as [e|m];
    [repeat split|].
  cbn [fst].
  rewrite !PipelineFacts.portfolioOf_accounts.
  split; [reflexivity|].
  match goal with
  | |- context [portfolioOf ?a ?t ?q ?l account1] =>
      destruct (AccountsFacts.transactions_portfolioOf a t q l account1)
        as (-> & -> & ->);
      destruct (AccountsFacts.transactions_portfolioOf a t q l account2)
        as (-> & -> & ->)
  end.
  repeat split.
Qed.

End OneHost.

End HostFacts.

(** * Properties stated by the specification *)

(** C1.  For every (symbol, account) group of transactions, the holding
    the position aggregator produces has Cost equal to the sum of the
    group's "Cost change" cells plus the sum of its "Realized3" cells
    (TotalCost is the cost sum alone), in [processHoldings] for every
    group its view shows and in the Open Deposits table alike.  The groups
    are those of the rows with the same key, the symbol and the account
    joined by ["-"], summed in the order of their dates; a view shows all
    of them or those with a quantity above 0.0001.  On the
    specification's example (two transactions of X in account A with
    quantity changes 100 and -40, cost changes 1000 and -400, realized
    0 and 50, and a quote of X closing at 12) the holding has Quantity 60,
    Cost 650, Value 720, UnrealizedGain 70 and RealizedGain 50. *)
Theorem C1_open_cost_is_cost_change_plus_realized_return :
  (forall getTime transactions symbolMap latestQuotes statusType
          includeZeroQuantity,
     Forall2
       (fun holding entry =>
          let group :=
            JSArr.sortBy (Processor.byDateAsc getTime) (snd entry) in
          Holding.Cost holding =
            (Processor.costChangeSumOf group
             + Processor.cumulativeRealizedReturnOf group)%float
          /\ Holding.TotalCost holding = Processor.costChangeSumOf group
          /\ Holding.RealizedGain holding =
             Processor.cumulativeRealizedReturnOf group
          /\ Holding.Quantity holding = Processor.quantityOf group)
       (Processor.processHoldings getTime transactions symbolMap
          latestQuotes statusType includeZeroQuantity)
       (Views.viewGroups getTime includeZeroQuantity transactions))
  /\ (forall getTime transactions includeZeroQuantity
             (entry : string * list Transaction.t),
        In entry (Views.viewGroups getTime includeZeroQuantity transactions)
        <-> (exists tr,
               In tr transactions
               /\ fst entry = Processor.holdingKey tr
               /\ snd entry
                  = JSArr.groupOf Processor.holdingKey transactions
                      (Processor.holdingKey tr))
            /\ Processor.included includeZeroQuantity
                 (JSArr.sortBy (Processor.byDateAsc getTime) (snd entry))
               = true)
  /\ (forall getTime data selectedAccount,
        exists rows,
          Components.openDeposits getTime data selectedAccount = Some rows
          /\ Forall2
               (fun row entry =>
                  Components.dCost row =
                    (Processor.costChangeSumOf (snd entry)
                     + Processor.cumulativeRealizedReturnOf (snd entry))%float)
               rows (Views.depositGroups data selectedAccount))
  /\ map (fun h => (Holding.Symbol h, Holding.Account h, Holding.Quantity h,
                    Holding.Cost h, Holding.Value h,
                    Holding.UnrealizedGain h, Holding.RealizedGain h))
       (Processor.processHoldings Host.getTime Examples.exampleTransactions []
          (Processor.latestQuotesOf Host.getTime Examples.exampleQuotes)
          (Some "Open Items") false)
     = [("X", "A", 60, 650, 720, 70, 50)%float].
Proof.
  split; [|split; [|split]].
  - intros getTime transactions symbolMap latestQuotes statusType
      includeZeroQuantity.
    eapply Forall2_impl; [|apply HoldingsFacts.processHoldings_rows].
    intros holding entry ->. cbn. repeat split.
  - intros getTime transactions includeZeroQuantity entry.
    unfold Views.viewGroups. rewrite filter_In, HoldingsFacts.In_groups.
    reflexivity.
  - intros getTime data selectedAccount.
    destruct (DepositFacts.openDeposits_rows getTime data selectedAccount)
      as (rows & E & F).
    exists rows. split; [exact E|].
    eapply Forall2_impl; [|exact F].
    intros row entry (_ & C & _). exact C.
  - vm_compute. reflexivity.
Qed.

(** C2, as the specification states it, fails: a group whose net
    quantity is zero is not always in the closed-positions view.  The
    views of an account are computed from different rows: the current
    holdings from its "Open Items" rows, the closed positions from its
    rows with a cleared status.  A position bought and sold back in full
    in "Open Items" rows is a group of net quantity zero; the run lists
    its account with no current holding and no closed position, and the
    realized gain of 50 of the group is in no summary. *)
Lemma C2_counterexample_sold_out_open_items_group_is_in_neither_view :
  let data := StatusExamples.run "all" in
  JSArr.groupBy Processor.holdingKey (PortfolioData.transactions data)
  = [("X-A", Examples.soldOutTransactions)]
  /\ lt (PrimFloat.abs (Processor.quantityOf Examples.soldOutTransactions))
       EPS = true
  /\ Processor.cumulativeRealizedReturnOf Examples.soldOutTransactions
     = 50%float
  /\ map (fun account =>
            (AccountData.name account, AccountData.currentHoldings account,
             AccountData.closedPositions account))
       (PortfolioData.accounts data)
     = [("A", [], [])]
  /\ PortfolioData.currentHoldings data = []
  /\ PortfolioData.closedPositions data = []
  /\ SummaryMetrics.realizedGain (PortfolioData.summaryMetrics data)
     = 0%float
  /\ ~ (forall getTime accountTransactionsMap symbolMap latestQuotes quotes
               quoteDates account (entry : string * list Transaction.t),
          In entry
            (JSArr.groupBy Processor.holdingKey
               (Views.accountTransactionsOf accountTransactionsMap account)) ->
          lt (PrimFloat.abs
                (Processor.quantityOf
                   (JSArr.sortBy (Processor.byDateAsc getTime) (snd entry))))
             EPS = true ->
          AccountData.closedPositions
            (Processor.processAccount getTime accountTransactionsMap
               symbolMap latestQuotes quotes quoteDates account)
          <> []).
Proof.
  cbv zeta. repeat split; try (vm_compute; reflexivity).
  intros H.
  apply (H Host.getTime [("A", Examples.soldOutTransactions)] [] [] [] []
           "A" ("X-A", Examples.soldOutTransactions)).
  - left. reflexivity.
  - vm_compute. reflexivity.
  - vm_compute. reflexivity.
Qed.

(** C2, amended.  The two views of an account are computed from the rows
    of one status each, so whether a group is shown depends on the status
    of its rows and not on its quantity alone.
    - The current holdings are the holdings of the groups of the account's
      "Open Items" rows whose net quantity exceeds 0.0001 in absolute
      value, in the order of the groups: a group of these rows with a net
      quantity below 0.0001 has no current holding (and, its rows not
      being cleared, no closed position comes from them).
    - The closed positions are the holdings of all the groups of the
      account's rows with a cleared status (YTD Clear, PYD Clear,
      Cleared-RE, Cleared, Clered -RE, Time Deposit), whatever their net
      quantity; each has UnrealizedGain 0 and a TotalReturn equal to its
      RealizedGain. *)
Theorem C2_views_of_an_account_follow_the_status_of_its_rows :
  forall getTime accountTransactionsMap symbolMap latestQuotes quotes
         quoteDates account,
    let data :=
      Processor.processAccount getTime accountTransactionsMap symbolMap
        latestQuotes quotes quoteDates account in
    let openRows :=
      Views.openTransactionsOf accountTransactionsMap account in
    let clearedRows :=
      Views.closedTransactionsOf accountTransactionsMap account in
    let netQuantity (entry : string * list Transaction.t) :=
      Processor.quantityOf
        (JSArr.sortBy (Processor.byDateAsc getTime) (snd entry)) in
    AccountData.currentHoldings data
    = map (Views.groupHolding getTime openRows symbolMap latestQuotes
             (Some "Open Items") false)
        (filter (fun entry => gt (PrimFloat.abs (netQuantity entry)) EPS)
           (JSArr.groupBy Processor.holdingKey openRows))
    /\ AccountData.closedPositions data
       = map (Views.groupHolding getTime clearedRows symbolMap latestQuotes
                None true)
           (JSArr.groupBy Processor.holdingKey clearedRows)
    /\ (forall h, In h (AccountData.currentHoldings data) ->
                  gt (PrimFloat.abs (Holding.Quantity h)) EPS = true)
    /\ (forall entry,
          In entry (JSArr.groupBy Processor.holdingKey openRows) ->
          lt (PrimFloat.abs (netQuantity entry)) EPS = true ->
          ~ In (Views.groupHolding getTime openRows symbolMap latestQuotes
                  (Some "Open Items") false entry)
               (AccountData.currentHoldings data))
    /\ (forall entry,
          In entry (JSArr.groupBy Processor.holdingKey clearedRows) ->
          In (Views.groupHolding getTime clearedRows symbolMap latestQuotes
                None true entry)
             (AccountData.closedPositions data))
    /\ (forall h, In h (AccountData.closedPositions data) ->
                  Holding.UnrealizedGain h = 0%float
                  /\ Holding.TotalReturn h = Holding.RealizedGain h)
    /\ (forall tr, In tr openRows ->
                   Transaction.Status_Tr tr = "Open Items")
    /\ (forall tr, In tr clearedRows ->
                   Processor.isClosedStatus (Transaction.Status_Tr tr) = true
                   /\ Transaction.Status_Tr tr <> "Open Items").
Proof.
  intros getTime accountTransactionsMap symbolMap latestQuotes quotes
    quoteDates account data openRows clearedRows netQuantity.
  assert (Current :
            AccountData.currentHoldings data
            = Processor.processHoldings getTime openRows symbolMap
                latestQuotes (Some "Open Items") false) by reflexivity.
  assert (Closed :
            AccountData.closedPositions data
            = Processor.processHoldings getTime clearedRows symbolMap
                latestQuotes None true) by reflexivity.
  rewrite Current, Closed.
  split; [|split; [|split; [|split; [|split; [|split; [|split]]]]]].
  - apply HoldingsFacts.processHoldings_eq.
  - rewrite HoldingsFacts.processHoldings_eq, HoldingsFacts.viewGroups_all.
    reflexivity.
  - apply HoldingsFacts.current_quantity.
  - intros entry _ Hlt H.
    apply (HoldingsFacts.current_quantity getTime) in H.
    apply JSNumFacts.lt_not_gt in Hlt.
    change (Holding.Quantity
              (Views.groupHolding getTime openRows symbolMap latestQuotes
                 (Some "Open Items") false entry))
      with (netQuantity entry) in H.
    rewrite Hlt in H. discriminate H.
  - intros entry I.
    rewrite HoldingsFacts.processHoldings_eq, HoldingsFacts.viewGroups_all.
    now apply in_map.
  - apply HoldingsFacts.closed_returns.
  - intros tr I. apply filter_In in I. destruct I as [_ I].
    now apply String.eqb_eq in I.
  - intros tr I. apply filter_In in I. destruct I as [_ I].
    apply andb_true_iff in I. destruct I as [N C]. split; [exact C|].
    intros E. rewrite E in N. discriminate N.
Qed.

Lemma C2_witness :
  AccountData.currentHoldings
    (Processor.processAccount Host.getTime
       [("A", Examples.closedOutTransactions)] [] [] [] [] "A")
  = []
  /\ map (fun h => (Holding.Symbol h, Holding.Quantity h,
                    Holding.RealizedGain h, Holding.UnrealizedGain h,
                    Holding.TotalReturn h))
       (AccountData.closedPositions
          (Processor.processAccount Host.getTime
             [("A", Examples.closedOutTransactions)] [] [] [] [] "A"))
     = [("X", 0, 50, 0, 50)%float].
Proof.
  destruct (C2_views_of_an_account_follow_the_status_of_its_rows
              Host.getTime [("A", Examples.closedOutTransactions)] [] [] []
              [] "A") as (Current & Closed & _).
  rewrite Current, Closed. split; vm_compute; reflexivity.
Defined.

(** C3, as the specification states it, fails: a series can show a
    positive total value and, at a later date, a total value of zero.
    After a deposit of 100, an overdraft to -5 and a deposit of 5, the
    three points have the total values 100, -5 and 0: the value kept for
    the carry-forward is the last one emitted, here -5, so the zero is
    emitted. *)
Lemma C3_counterexample_zero_after_an_earlier_positive_value :
  map TimeSeriesDataPoint.totalValue
    (Processor.processTimeSeriesData Examples.overdraftTransactions [] []
       "A" [])
  = [100; -5; 0]%float
  /\ ~ (forall transactions quotes quoteDates selectedAccount latestQuotes
               before p between q after,
          Processor.processTimeSeriesData transactions quotes quoteDates
            selectedAccount latestQuotes
          = before ++ p :: between ++ q :: after ->
          gt (TimeSeriesDataPoint.totalValue p) 0%float = true ->
          seq (TimeSeriesDataPoint.totalValue q) 0%float = false).
Proof.
  split; [vm_compute; reflexivity|].
  intros H.
  pose (series := Processor.processTimeSeriesData
                    Examples.overdraftTransactions [] [] "A" []).
  specialize (H Examples.overdraftTransactions [] [] "A" [] []
                (nth 0 series (Processor.emptyMergedEntry ""))
                [nth 1 series (Processor.emptyMergedEntry "")]
                (nth 2 series (Processor.emptyMergedEntry "")) []).
  assert (E : seq 0%float 0%float = false).
  { apply H; vm_compute; reflexivity. }
  vm_compute in E. discriminate E.
Qed.

(** C3, amended.  In the series of an account, a point with a positive
    total value is never followed immediately by a point whose total value
    is zero: when the computed total is zero and the last emitted total is
    positive, the last emitted total is emitted again.  And when the
    equity value computed for a date is zero, or some regular holding had
    no quote of that date, while the last valid equity value is positive,
    the point of the date carries the last valid equity value; its total
    value is that equity value plus the cash balance, or the last emitted
    total when that sum is zero and the last emitted total is positive;
    its unrealized gain is the last valid unrealized gain plus the
    unrealized gain of the time deposits on that date, except that when
    this sum is zero and the last emitted total is emitted again, it is
    the last valid unrealized gain alone. *)
Theorem C3_total_value_never_drops_to_zero_after_a_positive_point :
  (forall transactions quotes quoteDates selectedAccount latestQuotes
          before p q after,
     Processor.processTimeSeriesData transactions quotes quoteDates
       selectedAccount latestQuotes
     = before ++ p :: q :: after ->
     gt (TimeSeriesDataPoint.totalValue p) 0%float = true ->
     seq (TimeSeriesDataPoint.totalValue q) 0%float = false)
  /\ (forall egx30Map datePrices selectedAccount date st v,
        Processor.carriesForward v st = true ->
        let total :=
          (Processor.lastValidEquityValue st + Processor.cashBalance st)%float
        in
        let gain :=
          (Processor.lastValidUnrealizedGain st
           + Processor.timeDepositUnrealizedGain v)%float in
        let repeated :=
          seq total 0%float && gt (Processor.lastValidTotalValue st) 0%float
        in
        exists point,
          Processor.timeSeriesData
            (Processor.emitDay egx30Map datePrices selectedAccount date st v)
          = Processor.timeSeriesData st ++ [point]
          /\ TimeSeriesDataPoint.equityValue point
             = Processor.lastValidEquityValue st
          /\ TimeSeriesDataPoint.totalValue point
             = (if repeated then Processor.lastValidTotalValue st else total)
          /\ TimeSeriesDataPoint.unrealizedGain point
             = (if repeated && seq gain 0%float
                then Processor.lastValidUnrealizedGain st
                else gain)).
Proof.
  split.
  - intros transactions quotes quoteDates selectedAccount latestQuotes
      before p q after E.
    intros G.
    exact (ReplayFacts.noDropToZero_consecutive _ before p q after
             (ReplayFacts.processTimeSeriesData_noDropToZero transactions
                quotes quoteDates selectedAccount latestQuotes) E G).
  - intros egx30Map datePrices selectedAccount date st v C total gain
      repeated.
    unfold Processor.emitDay. rewrite C. fold total. fold gain.
    fold repeated.
    destruct repeated; eexists; (split; [reflexivity|]); cbn;
      (split; [reflexivity|]); (split; [reflexivity|]).
    + unfold sne.
      now destruct (PrimFloat.eqb
                      (Processor.lastValidUnrealizedGain st
                       + Processor.timeDepositUnrealizedGain v) 0).
    + reflexivity.
Qed.

Lemma C3_witness :
  (map TimeSeriesDataPoint.totalValue
     (Processor.processTimeSeriesData Examples.purchaseTransactions
        Examples.purchaseQuotes [] "A"
        (Processor.latestQuotesOf Host.getTime Examples.purchaseQuotes))
   = [1000; 1000; 1050]%float
   /\ seq 1000%float 0%float = false)
  /\ (exists point,
        Processor.timeSeriesData
          (Processor.emitDay [] None "A" "2024-01-03"
             Examples.purchaseReplay Examples.purchaseValuation)
        = Processor.timeSeriesData Examples.purchaseReplay ++ [point]
        /\ TimeSeriesDataPoint.equityValue point = 100%float)
  /\ map (fun p => (TimeSeriesDataPoint.equityValue p,
                    TimeSeriesDataPoint.totalValue p,
                    TimeSeriesDataPoint.unrealizedGain p))
       (Processor.processTimeSeriesData Examples.timeDepositTransactions
          Examples.timeDepositQuotes [] "A"
          (Processor.latestQuotesOf Host.getTime Examples.timeDepositQuotes))
     = [(100, 100, 10); (100, 100, 10)]%float
  /\ (Processor.lastValidUnrealizedGain Examples.timeDepositReplay
      + Processor.timeDepositUnrealizedGain Examples.timeDepositValuation
      = 0)%float
  /\ exists point,
       Processor.timeSeriesData
         (Processor.emitDay [] Examples.timeDepositDayPrices "A"
            "2024-01-02" Examples.timeDepositReplay
            Examples.timeDepositValuation)
       = Processor.timeSeriesData Examples.timeDepositReplay ++ [point]
       /\ TimeSeriesDataPoint.unrealizedGain point = 10%float.
Proof.
  destruct C3_total_value_never_drops_to_zero_after_a_positive_point
    as [NoDrop Carry].
  split; [split; [vm_compute; reflexivity|]|split; [|split; [|split]]].
  - pose (series := Processor.processTimeSeriesData
                      Examples.purchaseTransactions Examples.purchaseQuotes
                      [] "A"
                      (Processor.latestQuotesOf Host.getTime
                         Examples.purchaseQuotes)).
    apply (NoDrop Examples.purchaseTransactions Examples.purchaseQuotes []
             "A"
             (Processor.latestQuotesOf Host.getTime Examples.purchaseQuotes)
             []
             (nth 0 series (Processor.emptyMergedEntry ""))
             (nth 1 series (Processor.emptyMergedEntry ""))
             [nth 2 series (Processor.emptyMergedEntry "")]);
      vm_compute; reflexivity.
  - destruct (Carry [] None "A" "2024-01-03" Examples.purchaseReplay
                Examples.purchaseValuation) as (point & E & Q & _).
    + vm_compute. reflexivity.
    + exists point. split; [exact E|]. rewrite Q. vm_compute. reflexivity.
  - vm_compute. reflexivity.
  - vm_compute. reflexivity.
  - destruct (Carry [] Examples.timeDepositDayPrices "A" "2024-01-02"
                Examples.timeDepositReplay Examples.timeDepositValuation)
      as (point & E & _ & _ & U).
    + vm_compute. reflexivity.
    + exists point. split; [exact E|]. rewrite U. vm_compute. reflexivity.
Defined.

(** C7, as the specification states it, fails on ties: of two quotes of a
    symbol with the same date the index keeps the first in input order,
    not the last, because a later quote replaces the stored one only when
    its date is strictly greater. *)
Lemma C7_counterexample_tie_keeps_the_first_quote :
  JSMap.get (Processor.latestQuotesOf Host.getTime Examples.tiedQuotes) "X"
  = Some (Quote.mk "2024-01-01" 1 "X")
  /\ JSMap.get (Processor.latestQuotesOf Host.getTime Examples.tiedQuotes) "X"
     <> Some (Quote.mk "2024-01-01" 2 "X").
Proof.
  split; [vm_compute; reflexivity|].
  vm_compute. intros H. discriminate H.
Qed.

(** C7, amended.  For a symbol whose quotes all have valid dates, the
    latest-quote index holds the quote with the maximum date among that
    symbol's quotes; when several quotes share the maximum date, the one
    seen first in input order is retained, because the comparison is the
    strict [>].  A symbol without quotes has no entry. *)
Theorem C7_latest_quote_is_first_with_maximum_date :
  forall getTime (quotes : list Quote.t) (symbol : string),
    (forall q, In q quotes -> Quote.Symbol q = symbol ->
               getTime (Quote.Date q) <> None) ->
    match JSMap.get (Processor.latestQuotesOf getTime quotes) symbol with
    | Some best => Views.firstLatest getTime symbol quotes best
    | None => forall q, In q quotes -> Quote.Symbol q <> symbol
    end.
Proof. exact QuoteFacts.latestQuotesOf_spec. Qed.

Lemma C7_witness :
  Views.firstLatest Host.getTime "X" Examples.tiedQuotes
    (Quote.mk "2024-01-01" 1 "X").
Proof.
  assert (V : forall q, In q Examples.tiedQuotes -> Quote.Symbol q = "X" ->
                        Host.getTime (Quote.Date q) <> None).
  { intros q [<-|[<-|[]]] _; vm_compute; discriminate. }
  exact (C7_latest_quote_is_first_with_maximum_date Host.getTime
           Examples.tiedQuotes "X" V).
Defined.

(** C6.  Merging the series of the accounts gives one point for each date
    of the union of their dates, in ascending order; the point of a date
    sums the cash, equity, total, realized and unrealized values (each
    read as [v || 0]) of the entries the accounts have for that date,
    keeps a benchmark value that is not zero when one is found (the last
    one, and zero otherwise), has a true [hasQuotes] exactly when some
    entry has, and records under each account name the total value of that
    account's entry.  Two accounts that each report a total value of 100
    on 2024-01-01 merge into one point with total value 200 and account
    values 100 for both names. *)
Theorem C6_merge_sums_accounts_by_date :
  (forall timeSeriesDataArray : list (list TimeSeriesDataPoint.t),
     map TimeSeriesDataPoint.date
       (Processor.mergeTimeSeriesData timeSeriesDataArray)
     = JSStr.sort
         (JSStr.setOf
            (flat_map (map TimeSeriesDataPoint.date) timeSeriesDataArray))
     /\ (forall date,
           In date (map TimeSeriesDataPoint.date
                      (Processor.mergeTimeSeriesData timeSeriesDataArray))
           <-> exists series entry,
                 In series timeSeriesDataArray /\ In entry series
                 /\ TimeSeriesDataPoint.date entry = date)
     /\ Forall
          (fun merged =>
             let present :=
               Views.presentOn (TimeSeriesDataPoint.date merged)
                 timeSeriesDataArray in
             TimeSeriesDataPoint.cashValue merged
             = Views.sumOrZero TimeSeriesDataPoint.cashValue present
             /\ TimeSeriesDataPoint.equityValue merged
                = Views.sumOrZero TimeSeriesDataPoint.equityValue present
             /\ TimeSeriesDataPoint.totalValue merged
                = Views.sumOrZero TimeSeriesDataPoint.totalValue present
             /\ TimeSeriesDataPoint.realizedGain merged
                = Views.sumOrZero TimeSeriesDataPoint.realizedGain present
             /\ TimeSeriesDataPoint.unrealizedGain merged
                = Views.sumOrZero TimeSeriesDataPoint.unrealizedGain present
             /\ TimeSeriesDataPoint.egx30 merged = Views.keptBenchmark present
             /\ Processor.flagTruthy (TimeSeriesDataPoint.hasQuotes merged)
                = existsb
                    (fun e => Processor.flagTruthy (TimeSeriesDataPoint.hasQuotes e))
                    present
             /\ forall name,
                  JSMap.get (TimeSeriesDataPoint.accountValues merged) name
                  = Views.recordedFor name present)
          (Processor.mergeTimeSeriesData timeSeriesDataArray))
  /\ Processor.mergeTimeSeriesData
       [Examples.seriesOf "A"; Examples.seriesOf "B"]
     = [TimeSeriesDataPoint.mk "2024-01-01" 200 0 200 0 0 0 None ""
          [("A", 100%float); ("B", 100%float)]].
Proof.
  split; [|vm_compute; reflexivity].
  intros timeSeriesDataArray.
  assert (D : map TimeSeriesDataPoint.date
                (Processor.mergeTimeSeriesData timeSeriesDataArray)
              = JSStr.sort
                  (JSStr.setOf
                     (flat_map (map TimeSeriesDataPoint.date)
                        timeSeriesDataArray))).
  { rewrite MergeFacts.mergeTimeSeriesData_eq, map_map.
    rewrite <- (map_id (JSStr.sort _)) at 2.
    apply map_ext. intros date.
    apply (MergeFacts.mergedFor_fields date timeSeriesDataArray). }
  split; [exact D|split].
  - intros date. rewrite D, JSStrFacts.sort_In, JSStrFacts.setOf_In.
    rewrite in_flat_map. split.
    + intros (series & Hs & Hd). apply in_map_iff in Hd.
      destruct Hd as (entry & E & He). now exists series, entry.
    + intros (series & entry & Hs & He & E). exists series.
      split; [exact Hs|]. rewrite <- E. now apply in_map.
  - rewrite MergeFacts.mergeTimeSeriesData_eq. apply Forall_map.
    apply Forall_forall. intros date _.
    destruct (MergeFacts.mergedFor_fields date timeSeriesDataArray)
      as (E & H). cbv zeta. rewrite E. exact H.
Qed.

(** C4, as the specification states it, fails in two ways.  The holding
    valuator [processHoldings] has no fallback chain: a symbol missing
    from the latest-quote index is priced at 0, although its group records
    a net price of 7 that the chain would use.  And the Open Deposits
    valuator has no prefix step: for a bill whose own symbol has no quote
    it uses the net price 95, where the chain of the specification, with
    its prefix step, finds the close 97 of a bill of the same family. *)
Lemma C4_counterexample_no_chain_in_the_holding_valuator :
  map (fun h => (Holding.Symbol h, Holding.Price h, Holding.Value h))
    (Processor.processHoldings Host.getTime Examples.unquotedTransactions
       [] [] (Some "Open Items") false)
  = [("NEW", 0%float, 0%float)]
  /\ Views.firstSuccess
       [None; None; None; Views.fromNetPrice 7] 1
     = 7%float
  /\ option_map (map Components.dPrice)
       (Components.openDeposits Host.getTime Examples.billData "all")
     = Some [95%float]
  /\ Views.firstSuccess
       [Views.fromLatestIndex Examples.billData "TBILL@2025";
        Views.fromQuotesList Host.getTime (Views.exactSymbol "TBILL@2025")
          Examples.billData;
        Views.fromQuotesList Host.getTime (Views.prefixOf "TBILL@2025")
          Examples.billData;
        Views.fromNetPrice 95] 1
     = 97%float.
Proof. repeat split; vm_compute; reflexivity. Qed.

(** C4, amended.  The two valuators the claim cites resolve a price
    differently, and neither has a prefix step.
    - [processHoldings] has no chain: the price is the close of the entry
      of the holding's symbol in the latest-quote index, and 0 when the
      index has no entry; the net price the group records is never used.
    - Open Deposits: the ordered chain, first success winning, is (1) the
      exact-symbol entry of the latest-quote index when its close is
      positive, (2) the close of the latest-dated quote among the quotes
      of the full list with that exact symbol and a positive close, (3)
      the net price recorded on the group's first transaction, when it is
      a number other than zero, (4) the literal 1.0.  The memo always
      returns, and every row's price is that chain's.
    Step (2) is stated for quotes whose dates the host reads as dates,
    whenever step (1) fails: on an invalid date the comparator of the
    sort returns NaN, and the order of the sorted array is then the
    engine's own.  With valid dates the quote chosen has the maximum
    date. *)
Theorem C4_price_resolution_chains :
  forall getTime (data : PortfolioData.t),
    (forall transactions symbolMap latestQuotes statusType
            includeZeroQuantity,
       Forall
         (fun h =>
            Holding.Price h
            = match JSMap.get latestQuotes (Holding.Symbol h) with
              | Some quote => Quote.Close quote
              | None => 0%float
              end)
         (Processor.processHoldings getTime transactions symbolMap
            latestQuotes statusType includeZeroQuantity))
    /\ (forall symbol netPrice,
          (Views.fromLatestIndex data symbol = None ->
           PriceViews.dated getTime (Views.exactSymbol symbol) data) ->
          fst (Components.depositPrice getTime data symbol netPrice)
          = Views.firstSuccess
              [Views.fromLatestIndex data symbol;
               Views.fromQuotesList getTime (Views.exactSymbol symbol) data;
               Views.fromNetPrice netPrice]
              1%float)
    /\ (forall selectedAccount,
          exists rows,
            Components.openDeposits getTime data selectedAccount = Some rows
            /\ Forall2
                 (fun row entry =>
                    exists first rest,
                      snd entry = first :: rest
                      /\ ((Views.fromLatestIndex data
                              (Transaction.Symbol first) = None ->
                            PriceViews.dated getTime
                              (Views.exactSymbol (Transaction.Symbol first))
                              data) ->
                          Components.dPrice row
                          = Views.firstSuccess
                              [Views.fromLatestIndex data
                                 (Transaction.Symbol first);
                               Views.fromQuotesList getTime
                                 (Views.exactSymbol
                                    (Transaction.Symbol first))
                                 data;
                               Views.fromNetPrice
                                 (Transaction.Net_Price first)]
                              1%float))
                 rows (Views.depositGroups data selectedAccount))
    /\ (forall quotes,
          (forall q, In q quotes -> getTime (Quote.Date q) <> None) ->
          match Views.latestDated getTime quotes with
          | Some best =>
              In best quotes
              /\ exists time,
                   getTime (Quote.Date best) = Some time
                   /\ forall q, In q quotes ->
                        exists t, getTime (Quote.Date q) = Some t
                                  /\ (t <= time)%Z
          | None => quotes = []
          end).
Proof.
  intros getTime data. split; [|split; [|split]].
  - intros transactions symbolMap latestQuotes statusType includeZeroQuantity.
    rewrite HoldingsFacts.processHoldings_eq. apply Forall_map.
    apply Forall_forall. intros entry _. reflexivity.
  - intros symbol netPrice _. apply PriceFacts.depositPrice_chain.
  - intros selectedAccount.
    destruct (DepositFacts.openDeposits_rows getTime data selectedAccount)
      as (rows & E & F).
    exists rows. split; [exact E|].
    eapply Forall2_impl; [|exact F].
    intros row entry (_ & _ & _ & first & rest & G & _ & P).
    exists first, rest. split; [exact G|]. intros _.
    rewrite P. apply PriceFacts.depositPrice_chain.
  - apply PriceFacts.latestDated_max.
Qed.

Lemma C4_witness :
  fst (Components.depositPrice Host.getTime Examples.datedData "X" 5)
  = 12%float
  /\ match Views.latestDated Host.getTime Examples.datedQuotes with
     | Some best =>
         In best Examples.datedQuotes
         /\ exists time,
              Host.getTime (Quote.Date best) = Some time
              /\ forall q, In q Examples.datedQuotes ->
                   exists t, Host.getTime (Quote.Date q) = Some t
                             /\ (t <= time)%Z
     | None => Examples.datedQuotes = []
     end.
Proof.
  destruct (C4_price_resolution_chains Host.getTime Examples.datedData)
    as (_ & Chain & _ & Max).
  split.
  - rewrite Chain; [vm_compute; reflexivity|].
    intros _ quotes q E I _ _. injection E as <-.
    destruct I as [<-|[<-|[<-|[]]]]; vm_compute; discriminate.
  - apply Max. intros q [<-|[<-|[<-|[]]]]; vm_compute; discriminate.
Defined.

(** C5.  The percentages of [processHoldings] are guarded: with a zero
    total debit they are 0.  The aggregated view of the Current Holdings
    table is not: it divides the unrealized gain by the cost as it is,
    neither guarded against zero nor taken in absolute value.  For ten
    bonus shares received at no cost and quoted at 5 the holding has an
    UnrealizedGainPct of 0 and its aggregated row has Infinity; without a
    quote the aggregated row has NaN; and for a position whose book cost
    is -100 with an unrealized gain of 150 the aggregated row shows -150
    per cent. *)
Theorem C5_aggregated_view_divides_by_a_zero_cost :
  (forall x, Processor.pctOf x 0%float = 0%float)
  /\ map (fun h => (Holding.Cost h, Holding.UnrealizedGain h,
                    Holding.UnrealizedGainPct h))
       (Processor.processHoldings Host.getTime Examples.bonusTransactions []
          (Processor.latestQuotesOf Host.getTime Examples.bonusQuotes)
          (Some "Open Items") false)
     = [(0, 50, 0)%float]
  /\ map (fun h => (Holding.Cost h, Holding.UnrealizedGain h,
                    Holding.UnrealizedGainPct h))
       (Components.aggregatedHoldings "all"
          (Processor.processHoldings Host.getTime Examples.bonusTransactions
             [] (Processor.latestQuotesOf Host.getTime Examples.bonusQuotes)
             (Some "Open Items") false))
     = [(0%float, 50%float, PrimFloat.infinity)]
  /\ map (fun h => (Holding.Cost h, Holding.UnrealizedGain h,
                    Holding.UnrealizedGainPct h))
       (Components.aggregatedHoldings "all"
          (Processor.processHoldings Host.getTime Examples.bonusTransactions
             [] [] (Some "Open Items") false))
     = [(0%float, 0%float, PrimFloat.nan)]
  /\ map (fun h => (Holding.Cost h, Holding.UnrealizedGain h,
                    Holding.UnrealizedGainPct h))
       (Components.aggregatedHoldings "all"
          (Processor.processHoldings Host.getTime
             Examples.recoveredTransactions []
             (Processor.latestQuotesOf Host.getTime Examples.recoveredQuotes)
             (Some "Open Items") false))
     = [(-100, 150, -150)%float].
Proof.
  split; [intros x; reflexivity|].
  repeat split; vm_compute; reflexivity.
Qed.

(** C8.  When one of the three input texts is empty, the run reports
    "Error: Missing required CSV data" to the caller's log function,
    aborts, and returns the empty result: no account, no holding, no
    point, no transaction, and a summary of zeros.  Whatever exception the
    [try] block raises is caught: its message, and its stack when it has
    one, are logged, and the empty result is returned; a run that raises
    nothing returns the data of the [try] block. *)
Theorem C8_missing_input_and_exceptions_give_the_empty_result :
  forall getTime toISODate stackOf notAFunction parseTransactions
         parseSymbols parseQuotes (LogState : Type)
         (logFunction : string -> LogState -> LogState)
         (transactionsText symbolsText quotesText selectedAccount : string)
         (log0 : LogState),
    let run :=
      Processor.processPortfolioData getTime toISODate stackOf notAFunction
        parseTransactions parseSymbols parseQuotes LogState logFunction
        transactionsText symbolsText quotesText selectedAccount log0 in
    let attempt :=
      Processor.processPortfolioDataTry getTime toISODate stackOf
        notAFunction parseTransactions parseSymbols parseQuotes LogState
        logFunction transactionsText symbolsText quotesText selectedAccount
        log0 in
    let logged (message stack : string) (log : LogState) :=
      let log1 :=
        logFunction ("Error in processPortfolioData: " ++ message)%string
          log in
      if JSStr.truthy stack
      then logFunction ("Stack trace: " ++ stack)%string log1
      else log1 in
    (transactionsText = "" \/ symbolsText = "" \/ quotesText = "" ->
     run = (Processor.emptyPortfolioData,
            logged "Missing required CSV data"
              (stackOf "Missing required CSV data")
              (logFunction "Error: Missing required CSV data" log0)))
    /\ (forall error log1,
          attempt = (inl error, log1) ->
          run = (Processor.emptyPortfolioData,
                 logged (Processor.message error) (Processor.stack error)
                   log1))
    /\ (forall data log1, attempt = (inr data, log1) -> run = (data, log1))
    /\ Processor.emptyPortfolioData
       = PortfolioData.mk [] [] [] [] [] None None
           (SummaryMetrics.mk 0 0 0 0 0).
Proof.
  intros getTime toISODate stackOf notAFunction parseTransactions
    parseSymbols parseQuotes LogState logFunction transactionsText
    symbolsText quotesText selectedAccount log0 run attempt logged.
  assert (Caught : forall error log1,
            attempt = (inl error, log1) ->
            run = (Processor.emptyPortfolioData,
                   logged (Processor.message error) (Processor.stack error)
                     log1)).
  { intros error log1 E. unfold run, Processor.processPortfolioData.
    fold attempt. rewrite E. reflexivity. }
  split; [|split; [exact Caught|split; [|reflexivity]]].
  - intros Missing.
    apply (Caught (Processor.mkExn "Missing required CSV data"
                     (stackOf "Missing required CSV data"))).
    unfold attempt, Processor.processPortfolioDataTry.
    destruct Missing as [-> | [-> | ->]]; cbn [JSStr.truthy String.eqb negb orb];
      rewrite ?orb_true_r; reflexivity.
  - intros data log1 E. unfold run, Processor.processPortfolioData.
    fold attempt. rewrite E. reflexivity.
Qed.

Lemma C8_witness :
  Examples.run "" "symbols" "quotes" "all"
  = (Processor.emptyPortfolioData,
     ["Error: Missing required CSV data";
      "Error in processPortfolioData: Missing required CSV data";
      "Stack trace: Error: Missing required CSV data
    at processPortfolioData"])
  /\ Examples.run Examples.numericAccountText "symbols" "quotes" "all"
     = (Processor.emptyPortfolioData,
        ["Parsing transactions data..."; "Parsing symbols data...";
         "Parsing quotes data...";
         "Transaction date range: undefined to undefined";
         "Error in processPortfolioData: t.Account?.trim is not a function";
         "Stack trace: TypeError: t.Account?.trim is not a function
    at processPortfolioData"]).
Proof.
  pose proof (C8_missing_input_and_exceptions_give_the_empty_result
                Host.getTime Host.toISODate Host.stackOf Host.notAFunction
                Examples.parseTransactions Examples.parseSymbols
                Examples.parseQuotes (list string) Host.appendLog) as C8.
  split.
  - destruct (C8 "" "symbols" "quotes" "all" []) as (Missing & _).
    unfold Examples.run. rewrite Missing; [|left; reflexivity].
    vm_compute. reflexivity.
  - destruct (C8 Examples.numericAccountText "symbols" "quotes" "all" [])
      as (_ & Caught & _).
    unfold Examples.run.
    rewrite (Caught (Processor.mkExn Host.notAFunction
                       (Host.stackOf Host.notAFunction))
               ["Parsing transactions data..."; "Parsing symbols data...";
                "Parsing quotes data...";
                "Transaction date range: undefined to undefined"]);
      vm_compute; reflexivity.
Defined.

(** C9, as the specification states it, fails in two ways.  The data
    depends on the host as well as on the texts: a date written month
    first, 01/02/2024, is read as local midnight, so a host on UTC files
    the transaction under 2024-01-02 and a host two hours east of UTC
    under 2024-01-01.  And importing the exported texts processes them for
    all accounts: after a run for account A, whose summary shows a cash
    balance of 100, the import returns the view of all accounts, with a
    cash balance of 200. *)
Lemma C9_counterexample_time_zone_and_selection_change_the_result :
  map TimeSeriesDataPoint.date
    (PortfolioData.timeSeriesData (ZoneExamples.run 0 "all"))
  = ["2024-01-02"]
  /\ map TimeSeriesDataPoint.date
       (PortfolioData.timeSeriesData (ZoneExamples.run 120 "all"))
     = ["2024-01-01"]
  /\ ZoneExamples.run 0 "all" <> ZoneExamples.run 120 "all"
  /\ (let original :=
        fst (Examples.run Examples.twoAccountsText "symbols" "quotes" "A") in
      let imported :=
        ExportImport.handleImport Host.getTime Host.toISODate Host.stackOf
          Host.notAFunction Examples.parseTransactions Examples.parseSymbols
          Examples.parseQuotes
          (ExportImport.handleExport Examples.twoAccountsText "symbols"
             "quotes") in
      SummaryMetrics.cashBalance (PortfolioData.summaryMetrics original)
      = 100%float
      /\ option_map
           (fun data =>
              SummaryMetrics.cashBalance (PortfolioData.summaryMetrics data))
           imported
         = Some 200%float
      /\ imported <> Some original).
Proof.
  split; [vm_compute; reflexivity|].
  split; [vm_compute; reflexivity|].
  split.
  - intros E.
    apply (f_equal (fun data =>
                      map TimeSeriesDataPoint.date
                        (PortfolioData.timeSeriesData data))) in E.
    vm_compute in E. discriminate E.
  - cbv zeta. split; [vm_compute; reflexivity|].
    split; [vm_compute; reflexivity|].
    intros E.
    apply (f_equal (option_map
                      (fun data =>
                         SummaryMetrics.cashBalance
                           (PortfolioData.summaryMetrics data)))) in E.
    vm_compute in E. discriminate E.
Qed.

(** C9, amended.  The data a run returns is fixed by the three input
    texts, the selected account and the host's reading of the dates of the
    rows, and by nothing else: two runs on the same texts and account
    return the same data, whatever their log functions, the states these
    act on and the texts of the errors the hosts raise, provided the two
    hosts standardize the dates of the parsed rows alike and give the same
    time value to each standardized date.
    Importing the exported envelope, which holds the three texts, is
    refused when a text is empty and otherwise returns the data of a run
    on these texts for all accounts.  That is the original result when
    the original run was for all accounts (on the same host); after a run
    for a selected account, the imported data has the accounts, the
    transactions, the quotes and the latest-quote index of the original
    result, and the top-level view of all accounts. *)
Theorem C9_result_is_fixed_by_the_texts_the_account_and_the_dates_read :
  (forall getTime1 getTime2 toISODate1 toISODate2 stackOf1 stackOf2
          notAFunction1 notAFunction2 parseTransactions parseSymbols
          parseQuotes (S1 S2 : Type) (log1 : string -> S1 -> S1)
          (log2 : string -> S2 -> S2)
          (transactionsText symbolsText quotesText selectedAccount : string)
          (s1 : S1) (s2 : S2),
     let rows :=
       PipelineViews.transactionsOf getTime1 toISODate1 parseTransactions
         transactionsText in
     let quotes :=
       PipelineViews.quotesOf getTime1 toISODate1 parseQuotes quotesText in
     rows = PipelineViews.transactionsOf getTime2 toISODate2
              parseTransactions transactionsText ->
     quotes = PipelineViews.quotesOf getTime2 toISODate2 parseQuotes
                quotesText ->
     (forall tr, In tr rows ->
        getTime1 (Transaction.Date tr) = getTime2 (Transaction.Date tr)) ->
     (forall q, In q quotes ->
        getTime1 (Quote.Date q) = getTime2 (Quote.Date q)) ->
     fst (Processor.processPortfolioData getTime1 toISODate1 stackOf1
            notAFunction1 parseTransactions parseSymbols parseQuotes
            S1 log1 transactionsText symbolsText quotesText
            selectedAccount s1)
     = fst (Processor.processPortfolioData getTime2 toISODate2 stackOf2
              notAFunction2 parseTransactions parseSymbols parseQuotes
              S2 log2 transactionsText symbolsText quotesText
              selectedAccount s2))
  /\ (forall getTime toISODate stackOf notAFunction parseTransactions
             parseSymbols parseQuotes (S : Type)
             (logFunction : string -> S -> S)
             (transactionsText symbolsText quotesText selectedAccount : string)
             (s : S),
        let run (account : string) :=
          fst (Processor.processPortfolioData getTime toISODate stackOf
                 notAFunction parseTransactions parseSymbols parseQuotes
                 S logFunction transactionsText symbolsText quotesText
                 account s) in
        let imported :=
          ExportImport.handleImport getTime toISODate stackOf notAFunction
            parseTransactions parseSymbols parseQuotes
            (ExportImport.handleExport transactionsText symbolsText
               quotesText) in
        imported
        = (if JSStr.truthy transactionsText && JSStr.truthy symbolsText
              && JSStr.truthy quotesText
           then Some (run "all") else None)
        /\ forall again,
             imported = Some again ->
             (selectedAccount = "all" -> again = run selectedAccount)
             /\ PortfolioData.accounts again
                = PortfolioData.accounts (run selectedAccount)
             /\ PortfolioData.transactions again
                = PortfolioData.transactions (run selectedAccount)
             /\ PortfolioData.quotes again
                = PortfolioData.quotes (run selectedAccount)
             /\ PortfolioData.latestQuotes again
                = PortfolioData.latestQuotes (run selectedAccount)).
Proof.
  split.
  - intros getTime1 getTime2 toISODate1 toISODate2 stackOf1 stackOf2
      notAFunction1 notAFunction2 parseTransactions parseSymbols parseQuotes
      S1 S2 log1 log2 transactionsText symbolsText quotesText
      selectedAccount s1 s2 rows quotes T Q HT HQ.
    now apply HostFacts.process_hosts.
  - intros getTime toISODate stackOf notAFunction parseTransactions
      parseSymbols parseQuotes S logFunction transactionsText symbolsText
      quotesText selectedAccount s run imported.
    assert (I : imported
                = (if JSStr.truthy transactionsText
                      && JSStr.truthy symbolsText && JSStr.truthy quotesText
                   then Some (run "all") else None)).
    { unfold imported, ExportImport.handleImport, ExportImport.handleExport.
      cbn [ExportImport.transactionsText ExportImport.symbolsText
           ExportImport.quotesText].
      rewrite <- !negb_andb.
      destruct (JSStr.truthy transactionsText && JSStr.truthy symbolsText
                && JSStr.truthy quotesText); cbn [negb]; [|reflexivity].
      f_equal. apply PipelineFacts.process_result. }
    split; [exact I|].
    intros again E. rewrite I in E.
    destruct (JSStr.truthy transactionsText && JSStr.truthy symbolsText
              && JSStr.truthy quotesText); [|discriminate E].
    injection E as <-.
    split; [now intros ->|].
    apply (HostFacts.process_selection getTime toISODate stackOf
             notAFunction parseTransactions parseSymbols parseQuotes
             S S logFunction logFunction transactionsText symbolsText
             quotesText "all" selectedAccount s s).
Qed.

Lemma C9_witness :
  ZoneExamples.runISO 0 "all" = ZoneExamples.runISO 120 "all"
  /\ map AccountData.name
       (PortfolioData.accounts (ZoneExamples.runISO 120 "all"))
     = ["A"; "B"].
Proof.
  split; [|vm_compute; reflexivity].
  destruct C9_result_is_fixed_by_the_texts_the_account_and_the_dates_read
    as [Hosts _].
  apply (Hosts (ZoneHost.getTime 0) (ZoneHost.getTime 120) Host.toISODate
           Host.toISODate Host.stackOf Host.stackOf Host.notAFunction
           Host.notAFunction RunExamples.parseTransactions
           Examples.parseSymbols Examples.parseQuotes unit unit
           (fun _ log => log) (fun _ log => log)
           RunExamples.paddedAccountText "Symbol" "Date,Close,Symbol" "all"
           tt tt).
  - vm_compute. reflexivity.
  - vm_compute. reflexivity.
  - intros tr [<-|[<-|[<-|[]]]]; vm_compute; reflexivity.
  - intros q [].
Defined.

(** C10.  In the data every run returns, the total value of the top-level
    summary is its equity value plus its cash balance, and so it is in the
    summary of each account; for all accounts, the equity value and the
    cash balance of the top-level summary are the sums of the accounts'
    values.  (The empty result of a run that fails satisfies this too.) *)
Theorem C10_total_value_is_equity_plus_cash :
  forall getTime toISODate stackOf notAFunction parseTransactions
         parseSymbols parseQuotes (S : Type)
         (logFunction : string -> S -> S)
         (transactionsText symbolsText quotesText selectedAccount : string)
         (s : S),
    let data :=
      fst (Processor.processPortfolioData getTime toISODate stackOf
             notAFunction parseTransactions parseSymbols parseQuotes
             S logFunction transactionsText symbolsText quotesText
             selectedAccount s) in
    let all :=
      fst (Processor.processPortfolioData getTime toISODate stackOf
             notAFunction parseTransactions parseSymbols parseQuotes
             S logFunction transactionsText symbolsText quotesText
             "all" s) in
    SummaryMetrics.totalValue (PortfolioData.summaryMetrics data)
    = (SummaryMetrics.equityValue (PortfolioData.summaryMetrics data)
       + SummaryMetrics.cashBalance (PortfolioData.summaryMetrics data))%float
    /\ Forall
         (fun acc =>
            SummaryMetrics.totalValue (AccountData.summaryMetrics acc)
            = (SummaryMetrics.equityValue (AccountData.summaryMetrics acc)
               + SummaryMetrics.cashBalance (AccountData.summaryMetrics acc))%float)
         (PortfolioData.accounts data)
    /\ SummaryMetrics.equityValue (PortfolioData.summaryMetrics all)
       = sumOf (fun acc => SummaryMetrics.equityValue
                             (AccountData.summaryMetrics acc))
           (PortfolioData.accounts all)
    /\ SummaryMetrics.cashBalance (PortfolioData.summaryMetrics all)
       = sumOf (fun acc => SummaryMetrics.cashBalance
                             (AccountData.summaryMetrics acc))
           (PortfolioData.accounts all).
Proof.
  intros getTime toISODate stackOf notAFunction parseTransactions
    parseSymbols parseQuotes S logFunction transactionsText symbolsText
    quotesText selectedAccount s data all.
  split; [|split].
  - unfold data.
    destruct (PipelineFacts.process_cases getTime toISODate stackOf
                notAFunction parseTransactions parseSymbols parseQuotes
                S logFunction transactionsText symbolsText quotesText
                selectedAccount s)
      as [-> | (m & sm & lq & qs & qd & txs & accounts & ->)].
    + reflexivity.
    + apply PipelineFacts.portfolioOf_totalValue.
  - unfold data.
    destruct (PipelineFacts.process_cases getTime toISODate stackOf
                notAFunction parseTransactions parseSymbols parseQuotes
                S logFunction transactionsText symbolsText quotesText
                selectedAccount s)
      as [-> | (m & sm & lq & qs & qd & txs & accounts & ->)].
    + constructor.
    + rewrite PipelineFacts.portfolioOf_accounts. apply Forall_map.
      apply Forall_forall. intros account _. reflexivity.
  - unfold all.
    destruct (PipelineFacts.process_cases getTime toISODate stackOf
                notAFunction parseTransactions parseSymbols parseQuotes
                S logFunction transactionsText symbolsText quotesText
                "all" s)
      as [-> | (m & sm & lq & qs & qd & txs & accounts & ->)].
    + split; reflexivity.
    + rewrite PipelineFacts.portfolioOf_accounts.
      apply PipelineFacts.portfolioOf_all.
Qed.

(** * Further properties of the code *)

(** ** The time series *)

(** X1. The series has one point for each distinct non-empty date borne by
    a replayed transaction or by a quote, and no other; the points are in
    strictly ascending order of their date texts. *)
Theorem timeSeries_one_point_per_date_in_ascending_order
    (transactions : list Transaction.t) (quotes : list Quote.t)
    (quoteDates : list string) (selectedAccount : string)
    (latestQuotes : JSMap.t Quote.t) :
  let dates :=
    map TimeSeriesDataPoint.date
      (Processor.processTimeSeriesData transactions quotes quoteDates
         selectedAccount latestQuotes) in
  SeriesViews.ascending dates
  /\ forall date,
       In date dates
       <-> date <> ""
           /\ (In date (map Transaction.Date
                          (SeriesViews.replayed transactions selectedAccount))
               \/ In date (map Quote.Date quotes)).
Proof.
  intros dates. unfold dates.
  rewrite SeriesFacts.processTimeSeriesData_dates. split.
  - apply SeriesFacts.sort_ascending, SeriesFacts.setOf_NoDup.
  - intros date. apply SeriesFacts.sortedDates_In.
Qed.

(** X2. The cash value and the realized gain of a point are the sums of
    the cash impacts and of the realized gains (each read as
    [Number(x) || 0]) of the replayed transactions dated on the dates of
    the series up to that point, added date after date and, within a date,
    in input order. *)
Theorem timeSeries_cash_and_realized_gain_are_running_sums
    (transactions : list Transaction.t) (quotes : list Quote.t)
    (quoteDates : list string) (selectedAccount : string)
    (latestQuotes : JSMap.t Quote.t) (i : nat)
    (point : TimeSeriesDataPoint.t) :
  let series :=
    Processor.processTimeSeriesData transactions quotes quoteDates
      selectedAccount latestQuotes in
  nth_error series i = Some point ->
  TimeSeriesDataPoint.cashValue point
  = SeriesViews.cashUpTo (SeriesViews.replayed transactions selectedAccount)
      (firstn (S i) (map TimeSeriesDataPoint.date series))
  /\ TimeSeriesDataPoint.realizedGain point
     = SeriesViews.realizedUpTo
         (SeriesViews.replayed transactions selectedAccount)
         (firstn (S i) (map TimeSeriesDataPoint.date series)).
Proof.
  intros series. unfold series.
  rewrite SeriesFacts.processTimeSeriesData_dates.
  destruct (SeriesFacts.processTimeSeriesData_tracks transactions quotes
              quoteDates selectedAccount latestQuotes)
    as (st & -> & _ & _ & _ & _ & _ & _ & P).
  intros H. destruct (P i point H) as (A & B & _). now split.
Qed.

Lemma timeSeries_cash_and_realized_gain_witness :
  nth_error
    (Processor.processTimeSeriesData Examples.purchaseTransactions
       Examples.purchaseQuotes [] "A"
       (Processor.latestQuotesOf Host.getTime Examples.purchaseQuotes)) 1
  = Some (TimeSeriesDataPoint.mk "2024-01-02" 900 100 1000 0 0 0
            (Some true) "A" [])
  /\ SeriesViews.cashUpTo
       (SeriesViews.replayed Examples.purchaseTransactions "A")
       ["2024-01-01"; "2024-01-02"] = 900%float.
Proof.
  split; [vm_compute; reflexivity|].
  destruct (timeSeries_cash_and_realized_gain_are_running_sums
              Examples.purchaseTransactions Examples.purchaseQuotes [] "A"
              (Processor.latestQuotesOf Host.getTime Examples.purchaseQuotes)
              1 (TimeSeriesDataPoint.mk "2024-01-02" 900 100 1000 0 0 0
                   (Some true) "A" []))
    as [A _]; [vm_compute; reflexivity|].
  symmetry. exact A.
Defined.

(** X3. The total value of a point is its equity value plus its cash
    value, unless the point before it has a positive total value that it
    repeats; the first point is never such a repetition. *)
Theorem timeSeries_total_is_equity_plus_cash_or_the_carried_total
    (transactions : list Transaction.t) (quotes : list Quote.t)
    (quoteDates : list string) (selectedAccount : string)
    (latestQuotes : JSMap.t Quote.t)
    (before : list TimeSeriesDataPoint.t) (point : TimeSeriesDataPoint.t)
    (after : list TimeSeriesDataPoint.t) :
  Processor.processTimeSeriesData transactions quotes quoteDates
    selectedAccount latestQuotes
  = before ++ point :: after ->
  TimeSeriesDataPoint.totalValue point
  = (TimeSeriesDataPoint.equityValue point
     + TimeSeriesDataPoint.cashValue point)%float
  \/ exists earlier previous,
       before = earlier ++ [previous]
       /\ gt (TimeSeriesDataPoint.totalValue previous) 0%float = true
       /\ TimeSeriesDataPoint.totalValue point
          = TimeSeriesDataPoint.totalValue previous.
Proof.
  destruct (SeriesFacts.processTimeSeriesData_tracks transactions quotes
              quoteDates selectedAccount latestQuotes)
    as (st & -> & _ & _ & _ & _ & _ & F & _).
  intros E. rewrite E in F. apply SeriesFacts.totalsFollow_at in F.
  destruct F as [F|[G F]]; [now left|]. right.
  destruct before as [|b before] using rev_ind; [discriminate G|].
  rewrite SeriesFacts.lastTotal_snoc in G, F.
  exists before, b. now repeat split.
Qed.

Lemma timeSeries_total_witness :
  Processor.processTimeSeriesData Examples.withdrawnTransactions [] [] "A" []
  = [TimeSeriesDataPoint.mk "2024-01-01" 1000 0 1000 0 0 0 None "A" []]
    ++ TimeSeriesDataPoint.mk "2024-01-02" 0 0 1000 0 0 0 None "A" [] :: []
  /\ (1000%float = (0 + 0)%float
      \/ exists earlier previous,
           [TimeSeriesDataPoint.mk "2024-01-01" 1000 0 1000 0 0 0 None "A" []]
           = earlier ++ [previous]
           /\ gt (TimeSeriesDataPoint.totalValue previous) 0%float = true
           /\ 1000%float = TimeSeriesDataPoint.totalValue previous).
Proof.
  split; [vm_compute; reflexivity|].
  apply (timeSeries_total_is_equity_plus_cash_or_the_carried_total
           Examples.withdrawnTransactions [] [] "A" []
           [TimeSeriesDataPoint.mk "2024-01-01" 1000 0 1000 0 0 0 None "A" []]
           (TimeSeriesDataPoint.mk "2024-01-02" 0 0 1000 0 0 0 None "A" [])
           []).
  vm_compute; reflexivity.
Defined.

(** X4. The benchmark value of a point is the close of the last quote of
    "EGX30" that bears the point's date and a positive close; without such
    a quote it is the benchmark value of the point before, and 0 for the
    first point. *)
Theorem timeSeries_benchmark_is_quoted_or_carried
    (transactions : list Transaction.t) (quotes : list Quote.t)
    (quoteDates : list string) (selectedAccount : string)
    (latestQuotes : JSMap.t Quote.t)
    (before : list TimeSeriesDataPoint.t) (point : TimeSeriesDataPoint.t)
    (after : list TimeSeriesDataPoint.t) :
  Processor.processTimeSeriesData transactions quotes quoteDates
    selectedAccount latestQuotes
  = before ++ point :: after ->
  TimeSeriesDataPoint.egx30 point
  = match SeriesViews.benchmarkOn quotes (TimeSeriesDataPoint.date point) with
    | Some close => close
    | None => last (map TimeSeriesDataPoint.egx30 before) 0%float
    end.
Proof.
  pose proof (SeriesFacts.processTimeSeriesData_dates transactions quotes
                quoteDates selectedAccount latestQuotes) as D.
  destruct (SeriesFacts.processTimeSeriesData_tracks transactions quotes
              quoteDates selectedAccount latestQuotes)
    as (st & S & _ & _ & _ & _ & _ & _ & P).
  rewrite S in D. rewrite S. clear S. rewrite <- D in P. intros E.
  pose proof (SeriesFacts.nth_error_middle before point after) as N.
  rewrite <- E in N.
  destruct (P _ _ N) as (_ & _ & B & _).
  rewrite B, (SeriesFacts.nth_error_date _ _ _ N),
    SeriesFacts.carriedBenchmark_snoc.
  destruct (SeriesViews.benchmarkOn quotes (TimeSeriesDataPoint.date point));
    [reflexivity|].
  destruct before as [|b before _] using rev_ind; [reflexivity|].
  rewrite map_app. cbn [map]. rewrite last_last.
  assert (Nb : nth_error (Processor.timeSeriesData st) (List.length before) = Some b).
  { rewrite E, <- app_assoc. apply SeriesFacts.nth_error_middle. }
  destruct (P _ _ Nb) as (_ & _ & Bb & _).
  rewrite Bb, length_app. cbn [List.length]. now rewrite Nat.add_1_r.
Qed.

Lemma timeSeries_benchmark_witness :
  Processor.processTimeSeriesData Examples.purchaseTransactions
    Examples.benchmarkQuotes [] "A" []
  = [TimeSeriesDataPoint.mk "2024-01-01" 1000 0 1000 0 0 30100 (Some true)
       "A" [];
     TimeSeriesDataPoint.mk "2024-01-02" 900 0 900 0 0 30100 None "A" []]
    ++ TimeSeriesDataPoint.mk "2024-01-03" 950 0 950 0 0 30100 (Some true)
         "A" [] :: []
  /\ SeriesViews.benchmarkOn Examples.benchmarkQuotes "2024-01-03" = None
  /\ 30100%float
     = match SeriesViews.benchmarkOn Examples.benchmarkQuotes "2024-01-03"
       with
       | Some close => close
       | None => last [30100; 30100]%float 0%float
       end.
Proof.
  split; [vm_compute; reflexivity|]. split; [vm_compute; reflexivity|].
  apply (timeSeries_benchmark_is_quoted_or_carried
           Examples.purchaseTransactions Examples.benchmarkQuotes [] "A" []
           [TimeSeriesDataPoint.mk "2024-01-01" 1000 0 1000 0 0 30100
              (Some true) "A" [];
            TimeSeriesDataPoint.mk "2024-01-02" 900 0 900 0 0 30100 None
              "A" []]
           (TimeSeriesDataPoint.mk "2024-01-03" 950 0 950 0 0 30100
              (Some true) "A" [])
           []).
  vm_compute; reflexivity.
Defined.

(** X5. The [hasQuotes] flag of a point is true when some quote with a
    symbol bears the point's date, and is absent otherwise: it is never
    false. *)
Theorem timeSeries_hasQuotes_is_true_or_absent
    (transactions : list Transaction.t) (quotes : list Quote.t)
    (quoteDates : list string) (selectedAccount : string)
    (latestQuotes : JSMap.t Quote.t) (point : TimeSeriesDataPoint.t) :
  In point
    (Processor.processTimeSeriesData transactions quotes quoteDates
       selectedAccount latestQuotes) ->
  TimeSeriesDataPoint.hasQuotes point
  = if SeriesViews.quotedOn quotes (TimeSeriesDataPoint.date point)
    then Some true else None.
Proof.
  destruct (SeriesFacts.processTimeSeriesData_tracks transactions quotes
              quoteDates selectedAccount latestQuotes)
    as (st & -> & _ & _ & _ & _ & _ & _ & P).
  intros H. apply In_nth_error in H. destruct H as [i H].
  now destruct (P i point H) as (_ & _ & _ & Q & _).
Qed.

Lemma timeSeries_hasQuotes_witness :
  TimeSeriesDataPoint.hasQuotes
    (TimeSeriesDataPoint.mk "2024-01-02" 900 100 1000 0 0 0 (Some true)
       "A" [])
  = if SeriesViews.quotedOn Examples.purchaseQuotes "2024-01-02"
    then Some true else None.
Proof.
  apply (timeSeries_hasQuotes_is_true_or_absent Examples.purchaseTransactions
           Examples.purchaseQuotes [] "A"
           (Processor.latestQuotesOf Host.getTime Examples.purchaseQuotes)
           (TimeSeriesDataPoint.mk "2024-01-02" 900 100 1000 0 0 0
              (Some true) "A" [])).
  vm_compute. right. left. reflexivity.
Defined.

(** X6. When no transaction belongs to the selected account, the series
    still has its points (one for each quote date), and each of them has
    zero cash, equity, total value, realized gain and unrealized gain. *)
Theorem timeSeries_of_an_account_without_transactions_is_flat
    (transactions : list Transaction.t) (quotes : list Quote.t)
    (quoteDates : list string) (selectedAccount : string)
    (latestQuotes : JSMap.t Quote.t) :
  SeriesViews.replayed transactions selectedAccount = [] ->
  let series :=
    Processor.processTimeSeriesData transactions quotes quoteDates
      selectedAccount latestQuotes in
  (forall date,
     In date (map TimeSeriesDataPoint.date series)
     <-> date <> "" /\ In date (map Quote.Date quotes))
  /\ forall point,
       In point series ->
       TimeSeriesDataPoint.cashValue point = 0%float
       /\ TimeSeriesDataPoint.equityValue point = 0%float
       /\ TimeSeriesDataPoint.totalValue point = 0%float
       /\ TimeSeriesDataPoint.realizedGain point = 0%float
       /\ TimeSeriesDataPoint.unrealizedGain point = 0%float.
Proof.
  intros E series. split.
  - intros date. unfold series.
    rewrite SeriesFacts.processTimeSeriesData_dates, E,
      SeriesFacts.sortedDates_In.
    cbn [map In]. tauto.
  - assert (F : Forall SeriesViews.flat series).
    { unfold series, Processor.processTimeSeriesData.
      fold (SeriesViews.replayed transactions selectedAccount). rewrite E.
      apply SeriesFacts.replay_idle; [repeat split|constructor]. }
    intros point H. exact (proj1 (Forall_forall _ _) F point H).
Qed.

Lemma timeSeries_without_transactions_witness :
  map TimeSeriesDataPoint.date
    (Processor.processTimeSeriesData Examples.purchaseTransactions
       Examples.purchaseQuotes [] "B" [])
  = ["2024-01-02"]
  /\ forall point,
       In point
         (Processor.processTimeSeriesData Examples.purchaseTransactions
            Examples.purchaseQuotes [] "B" []) ->
       TimeSeriesDataPoint.totalValue point = 0%float.
Proof.
  split; [vm_compute; reflexivity|].
  intros point H.
  apply (timeSeries_of_an_account_without_transactions_is_flat
           Examples.purchaseTransactions Examples.purchaseQuotes [] "B" []
           ltac:(vm_compute; reflexivity)).
  exact H.
Defined.

(** ** The latest-quote index *)

(** X7. Whatever the dates, the entry the index holds for a symbol is one
    of the quotes of that symbol, and the index holds no entry exactly
    for the symbols no quote bears. *)
Theorem latestQuotes_entry_is_a_quote_of_its_symbol
    (getTime : string -> option Z) (quotes : list Quote.t)
    (symbol : string) :
  match JSMap.get (Processor.latestQuotesOf getTime quotes) symbol with
  | Some best => In best quotes /\ Quote.Symbol best = symbol
  | None => forall q, In q quotes -> Quote.Symbol q <> symbol
  end.
Proof. apply QuoteIndexFacts.entry_of_symbol. Qed.

(** X8. When the first quote of a symbol bears a date that does not
    parse, the index keeps that quote for the symbol whatever quotes
    follow: a comparison with an invalid date is never true. *)
Theorem latestQuotes_first_quote_with_invalid_date_stays
    (getTime : string -> option Z) (before : list Quote.t)
    (first : Quote.t) (after : list Quote.t) :
  (forall q, In q before -> Quote.Symbol q <> Quote.Symbol first) ->
  getTime (Quote.Date first) = None ->
  JSMap.get (Processor.latestQuotesOf getTime (before ++ first :: after))
    (Quote.Symbol first)
  = Some first.
Proof.
  intros N T. unfold Processor.latestQuotesOf.
  rewrite fold_left_app. cbn [fold_left].
  apply QuoteIndexFacts.invalid_entry_stays; [|exact T].
  rewrite QuoteFacts.get_latestQuotesStep, String.eqb_refl.
  pose proof (QuoteIndexFacts.entry_of_symbol getTime before
                (Quote.Symbol first)) as H.
  fold (Processor.latestQuotesOf getTime before).
  destruct (JSMap.get (Processor.latestQuotesOf getTime before)
              (Quote.Symbol first)) as [existing|]; [|reflexivity].
  destruct H as [I E]. now destruct (N existing I).
Qed.

Lemma latestQuotes_invalid_date_witness :
  JSMap.get
    (Processor.latestQuotesOf Host.getTime
       ([Quote.mk "2024-01-01" 1 "Y"]
        ++ Quote.mk "n/a" 5 "X" :: [Quote.mk "2024-01-02" 6 "X"]))
    "X"
  = Some (Quote.mk "n/a" 5 "X").
Proof.
  apply (latestQuotes_first_quote_with_invalid_date_stays Host.getTime
           [Quote.mk "2024-01-01" 1 "Y"] (Quote.mk "n/a" 5 "X")
           [Quote.mk "2024-01-02" 6 "X"]).
  - intros q [<-|[]]. discriminate.
  - vm_compute. reflexivity.
Defined.

(** ** The accounts of a run *)

Section Run.

Variable getTime : string -> option Z.
Variable toISODate : Z -> string.
Variable stackOf : string -> string.
Variable notAFunction : string.
Variable parseTransactions : string -> list Transaction.t.
Variable parseSymbols : string -> list Symbol.t.
Variable parseQuotes : string -> list Quote.t.
Variable LogState : Type.
Variable logFunction : string -> LogState -> LogState.

Local Abbreviation process :=
  (Processor.processPortfolioData getTime toISODate stackOf notAFunction
     parseTransactions parseSymbols parseQuotes LogState logFunction).

(** X9. The accounts of a result are named by the account texts of its
    transactions, trimmed: a name is listed exactly when it is not empty,
    is neither "all" nor "All Accounts", and is the trimmed account text
    of some transaction of the result; the names are in strictly
    ascending order.  (The empty result of a failed run has neither
    accounts nor transactions.) *)
Theorem run_accounts_are_the_trimmed_account_names
    (transactionsText symbolsText quotesText selectedAccount : string)
    (log0 : LogState) :
  let data :=
    fst (process transactionsText symbolsText quotesText selectedAccount
           log0) in
  let names := map AccountData.name (PortfolioData.accounts data) in
  SeriesViews.ascending names
  /\ forall name,
       In name names
       <-> PipelineViews.validName name = true
           /\ exists tr, In tr (PortfolioData.transactions data)
                         /\ PipelineViews.belongsTo name tr = true.
Proof.
  intros data names. unfold names, data.
  destruct (AccountsFacts.process_shape getTime toISODate stackOf
              notAFunction parseTransactions parseSymbols parseQuotes
              LogState logFunction transactionsText symbolsText quotesText
              selectedAccount log0) as [-> | (m & G & ->)].
  - split; [constructor|]. intros name. split; [intros []|].
    now intros (_ & tr & [] & _).
  - rewrite PipelineFacts.portfolioOf_accounts,
      AccountsFacts.names_accountOf.
    destruct (AccountsFacts.transactions_portfolioOf
                (map (PipelineViews.accountOf getTime toISODate parseSymbols
                        parseQuotes symbolsText quotesText m)
                   (JSStr.sort (JSMap.keys m)))
                (PipelineViews.transactionsOf getTime toISODate
                   parseTransactions transactionsText)
                (PipelineViews.quotesOf getTime toISODate parseQuotes
                   quotesText)
                (Processor.latestQuotesOf getTime
                   (PipelineViews.quotesOf getTime toISODate parseQuotes
                      quotesText))
                selectedAccount) as (-> & _).
    destruct (AccountsFacts.groupByAccount_spec stackOf notAFunction _ _ _ G)
      as (N & K & _).
    split.
    + apply SeriesFacts.sort_ascending, N. constructor.
    + intros name. rewrite JSStrFacts.sort_In, K. cbn [JSMap.keys map In].
      tauto.
Qed.

(** X10. The cash balance of an account sums the cash impacts of the
    transactions whose account text trims to the account's name, in input
    order; the series of the account replays only those whose account
    text is the name itself, so a transaction grouped under the name
    through trimming counts in the balance and is left out of the
    series. *)
Theorem run_account_balance_counts_trimmed_names_and_its_series_exact_names
    (transactionsText symbolsText quotesText selectedAccount : string)
    (log0 : LogState) (account : AccountData.t) :
  let data :=
    fst (process transactionsText symbolsText quotesText selectedAccount
           log0) in
  In account (PortfolioData.accounts data) ->
  SummaryMetrics.cashBalance (AccountData.summaryMetrics account)
  = sumOf (fun tr => orZero (Transaction.Cash_Impact tr))
      (filter (PipelineViews.belongsTo (AccountData.name account))
         (PortfolioData.transactions data))
  /\ exists quotes latestQuotes quoteDates,
       PortfolioData.quotes data = Some quotes
       /\ PortfolioData.latestQuotes data = Some latestQuotes
       /\ AccountData.timeSeriesData account
          = Processor.processTimeSeriesData
              (filter (fun tr => JSCell.isStr (Transaction.Account tr)
                                   (AccountData.name account))
                 (PortfolioData.transactions data))
              quotes quoteDates (AccountData.name account) latestQuotes.
Proof.
  intros data. unfold data.
  destruct (AccountsFacts.process_shape getTime toISODate stackOf
              notAFunction parseTransactions parseSymbols parseQuotes
              LogState logFunction transactionsText symbolsText quotesText
              selectedAccount log0) as [-> | (m & G & ->)];
    [intros []|].
  rewrite PipelineFacts.portfolioOf_accounts.
  destruct (AccountsFacts.transactions_portfolioOf
              (map (PipelineViews.accountOf getTime toISODate parseSymbols
                      parseQuotes symbolsText quotesText m)
                 (JSStr.sort (JSMap.keys m)))
              (PipelineViews.transactionsOf getTime toISODate
                 parseTransactions transactionsText)
              (PipelineViews.quotesOf getTime toISODate parseQuotes
                 quotesText)
              (Processor.latestQuotesOf getTime
                 (PipelineViews.quotesOf getTime toISODate parseQuotes
                    quotesText))
              selectedAccount) as (-> & -> & ->).
  intros I. apply in_map_iff in I. destruct I as (name & <- & I).
  rewrite JSStrFacts.sort_In in I.
  destruct (AccountsFacts.groupByAccount_spec stackOf notAFunction _ _ _ G)
    as (_ & K & A).
  apply K in I. destruct I as [[]|(V & tr & I & B)].
  specialize (A name). rewrite V in A.
  change (PipelineViews.groupAt [] name) with (@nil Transaction.t) in A.
  cbn [app] in A.
  assert (T : JSStr.trim name = name).
  { unfold PipelineViews.belongsTo in B.
    destruct (Transaction.Account tr) as [s0| | |]; try discriminate B.
    apply String.eqb_eq in B. subst name.
    apply AccountsFacts.trim_idempotent. }
  assert (N : (name =? "all") = false).
  { unfold PipelineViews.validName in V.
    destruct (name =? "all"); [|reflexivity].
    rewrite andb_false_r in V. discriminate V. }
  rewrite AccountsFacts.name_accountOf.
  split.
  - rewrite <- A. reflexivity.
  - do 2 eexists.
    exists (Processor.datesOf
              (map Quote.Date
                 (PipelineViews.quotesOf getTime toISODate parseQuotes
                    quotesText))).
    split; [reflexivity|]. split; [reflexivity|].
    rewrite <- (AccountsFacts.replayed_group _ _ N T), <- A.
    symmetry. rewrite <- AccountsFacts.processTimeSeriesData_replayed.
    reflexivity.
Qed.

(** X26. In every result the latest-quote index is the index built
    from the result's own quotes, so each of its entries is one of those
    quotes, filed under its own symbol; only the empty result of a failed
    run has neither quotes nor index. *)
Theorem run_latest_quotes_index_the_quotes_of_the_result
    (transactionsText symbolsText quotesText selectedAccount : string)
    (log0 : LogState) :
  let data :=
    fst (process transactionsText symbolsText quotesText selectedAccount
           log0) in
  match PortfolioData.quotes data, PortfolioData.latestQuotes data with
  | Some quotes, Some latestQuotes =>
      latestQuotes = Processor.latestQuotesOf getTime quotes
      /\ forall symbol quote,
           JSMap.get latestQuotes symbol = Some quote ->
           In quote quotes /\ Quote.Symbol quote = symbol
  | None, None => data = Processor.emptyPortfolioData
  | _, _ => False
  end.
Proof.
  intros data. unfold data.
  destruct (AccountsFacts.process_shape getTime toISODate stackOf
              notAFunction parseTransactions parseSymbols parseQuotes
              LogState logFunction transactionsText symbolsText quotesText
              selectedAccount log0) as [-> | (m & G & ->)];
    [reflexivity|].
  destruct (AccountsFacts.transactions_portfolioOf
              (map (PipelineViews.accountOf getTime toISODate parseSymbols
                      parseQuotes symbolsText quotesText m)
                 (JSStr.sort (JSMap.keys m)))
              (PipelineViews.transactionsOf getTime toISODate
                 parseTransactions transactionsText)
              (PipelineViews.quotesOf getTime toISODate parseQuotes
                 quotesText)
              (Processor.latestQuotesOf getTime
                 (PipelineViews.quotesOf getTime toISODate parseQuotes
                    quotesText))
              selectedAccount) as (_ & -> & ->).
  split; [reflexivity|]. intros symbol quote H.
  pose proof (QuoteIndexFacts.entry_of_symbol getTime
                (PipelineViews.quotesOf getTime toISODate parseQuotes
                   quotesText) symbol) as E.
  now rewrite H in E.
Qed.

(** X13. One transaction whose account the parser delivered as a number
    or a boolean makes the whole run return the empty result, whatever
    the other transactions are. *)
Theorem run_with_an_account_that_is_not_a_text_returns_the_empty_result
    (transactionsText symbolsText quotesText selectedAccount : string)
    (log0 : LogState) (tr : Transaction.t) (isTruthy : bool)
    (asText : string) :
  In tr (parseTransactions transactionsText) ->
  Transaction.Account tr = COther isTruthy asText ->
  fst (process transactionsText symbolsText quotesText selectedAccount log0)
  = Processor.emptyPortfolioData.
Proof.
  intros I A.
  destruct (AccountsFacts.groupByAccount_raises stackOf notAFunction
              (PipelineViews.transactionsOf getTime toISODate
                 parseTransactions transactionsText)
              []
              (if JSStr.truthy (Transaction.Date tr)
               then Transaction.withDate tr
                      (Processor.standardizeDate getTime toISODate
                         (Transaction.Date tr))
               else tr)
              isTruthy asText) as [e E].
  - unfold PipelineViews.transactionsOf.
    apply (in_map (fun tr =>
                     if JSStr.truthy (Transaction.Date tr)
                     then Transaction.withDate tr
                            (Processor.standardizeDate getTime toISODate
                               (Transaction.Date tr))
                     else tr)). exact I.
  - destruct (JSStr.truthy (Transaction.Date tr)); exact A.
  - now apply (AccountsFacts.process_raises getTime toISODate stackOf
                 notAFunction parseTransactions parseSymbols parseQuotes
                 LogState logFunction _ _ _ _ _ e).
Qed.

End Run.

Lemma run_accounts_witness :
  map (fun account =>
         (AccountData.name account,
          SummaryMetrics.cashBalance (AccountData.summaryMetrics account)))
    (PortfolioData.accounts (SpaceExamples.run "all"))
  = [("A", 150%float); ("B", 7%float)]
  /\ (In "A"
        (map AccountData.name
           (PortfolioData.accounts (SpaceExamples.run "all")))
      <-> PipelineViews.validName "A" = true
          /\ exists tr,
               In tr (PortfolioData.transactions (SpaceExamples.run "all"))
               /\ PipelineViews.belongsTo "A" tr = true).
Proof.
  split; [vm_compute; reflexivity|].
  destruct (run_accounts_are_the_trimmed_account_names
              Host.getTime Host.toISODate Host.stackOf Host.notAFunction
              SpaceExamples.parseTransactions Examples.parseSymbols
              Examples.parseQuotes unit (fun _ log => log)
              SpaceExamples.text "Symbol" "Date,Close,Symbol" "all" tt)
    as [_ H].
  apply H.
Defined.

Lemma run_account_balance_witness :
  In RunExamples.paddedAccount
    (PortfolioData.accounts
       (RunExamples.run RunExamples.paddedAccountText "all"))
  /\ AccountData.name RunExamples.paddedAccount = "A"
  /\ SummaryMetrics.cashBalance
       (AccountData.summaryMetrics RunExamples.paddedAccount) = 150%float
  /\ map TimeSeriesDataPoint.cashValue
       (AccountData.timeSeriesData RunExamples.paddedAccount) = [100%float]
  /\ SummaryMetrics.cashBalance
       (AccountData.summaryMetrics RunExamples.paddedAccount)
     = sumOf (fun tr => orZero (Transaction.Cash_Impact tr))
         (filter
            (PipelineViews.belongsTo
               (AccountData.name RunExamples.paddedAccount))
            (PortfolioData.transactions
               (RunExamples.run RunExamples.paddedAccountText "all"))).
Proof.
  split; [vm_compute; left; reflexivity|].
  split; [vm_compute; reflexivity|].
  split; [vm_compute; reflexivity|].
  split; [vm_compute; reflexivity|].
  apply (run_account_balance_counts_trimmed_names_and_its_series_exact_names
           Host.getTime Host.toISODate Host.stackOf Host.notAFunction
           RunExamples.parseTransactions Examples.parseSymbols
           Examples.parseQuotes unit (fun _ log => log)
           RunExamples.paddedAccountText "Symbol" "Date,Close,Symbol" "all"
           tt RunExamples.paddedAccount).
  vm_compute. left. reflexivity.
Defined.

Lemma run_with_a_numeric_account_witness :
  fst (Processor.processPortfolioData Host.getTime Host.toISODate
         Host.stackOf Host.notAFunction Examples.parseTransactions
         Examples.parseSymbols Examples.parseQuotes unit (fun _ log => log)
         Examples.numericAccountText "Symbol" "Date,Close,Symbol" "all" tt)
  = Processor.emptyPortfolioData.
Proof.
  apply (run_with_an_account_that_is_not_a_text_returns_the_empty_result
           Host.getTime Host.toISODate Host.stackOf Host.notAFunction
           Examples.parseTransactions Examples.parseSymbols
           Examples.parseQuotes unit (fun _ log => log)
           Examples.numericAccountText "Symbol" "Date,Close,Symbol" "all" tt
           (Transaction.mk "" "X" (COther true "123") "" PrimFloat.nan
              PrimFloat.nan 10 PrimFloat.nan PrimFloat.nan "" PrimFloat.nan)
           true "123").
  - vm_compute. left. reflexivity.
  - reflexivity.
Defined.

(** ** Holdings *)

(** X14. Every holding comes from a transaction whose symbol, cut at its
    first ["-"], is the holding's symbol; when that symbol has no ["-"],
    the holding's account is the transaction's account text (or
    "Unknown"), cut at its first ["-"].  The name, the sector and the
    price of the holding are those found under the holding's (cut)
    symbol: the name from the symbol table or else the symbol, the sector
    from the table or else "Unknown", the price from the latest-quote
    index or else 0; the value is the quantity times that price. *)
Theorem holding_is_identified_by_its_key_cut_at_the_first_hyphen
    (getTime : string -> option Z) (transactions : list Transaction.t)
    (symbolMap : JSMap.t Symbol.t) (latestQuotes : JSMap.t Quote.t)
    (statusType : option string) (includeZeroQuantity : bool)
    (h : Holding.t) :
  In h (Processor.processHoldings getTime transactions symbolMap latestQuotes
          statusType includeZeroQuantity) ->
  exists tr,
    In tr transactions
    /\ Holding.Symbol h = HoldingViews.headSegment (Transaction.Symbol tr)
    /\ (JSStr.contains "-" (Transaction.Symbol tr) = false ->
        Holding.Account h
        = HoldingViews.headSegment
            (JSCell.orUnknown (Transaction.Account tr)))
    /\ Holding.Name h = HoldingViews.nameOf symbolMap (Holding.Symbol h)
    /\ Holding.Sector h = HoldingViews.sectorOf symbolMap (Holding.Symbol h)
    /\ Holding.Price h = HoldingViews.priceOf latestQuotes (Holding.Symbol h)
    /\ Holding.Value h = (Holding.Quantity h * Holding.Price h)%float.
Proof.
  intros H. apply HoldingViewsFacts.holding_of_group in H.
  destruct H as (tr & I & ->). exists tr. split; [exact I|].
  split; [exact (HoldingViewsFacts.symbol_of_key tr)|].
  split; [exact (HoldingViewsFacts.account_of_key tr)|].
  set (symbol := nth 0 (JSStr.split "-" (Processor.holdingKey tr)) "").
  split; [|split; [|split; reflexivity]].
  - change (JSStr.orElse
              (Symbol.Sh_name_eng
                 match JSMap.get symbolMap symbol with
                 | Some info => info
                 | None => Symbol.mk symbol symbol "Unknown" ""
                 end) symbol
            = HoldingViews.nameOf symbolMap symbol).
    unfold HoldingViews.nameOf.
    destruct (JSMap.get symbolMap symbol); [reflexivity|].
    cbn [Symbol.Sh_name_eng]. unfold JSStr.orElse.
    now destruct (JSStr.truthy symbol).
  - change (JSStr.orElse
              (Symbol.Sector
                 match JSMap.get symbolMap symbol with
                 | Some info => info
                 | None => Symbol.mk symbol symbol "Unknown" ""
                 end) "Unknown"
            = HoldingViews.sectorOf symbolMap symbol).
    unfold HoldingViews.sectorOf.
    now destruct (JSMap.get symbolMap symbol).
Qed.

Lemma holding_with_a_hyphen_witness :
  exists tr,
    In tr Examples.hyphenTransactions
    /\ "ABC" = HoldingViews.headSegment (Transaction.Symbol tr)
    /\ (JSStr.contains "-" (Transaction.Symbol tr) = false ->
        "D" = HoldingViews.headSegment
                (JSCell.orUnknown (Transaction.Account tr)))
    /\ "ABC" = HoldingViews.nameOf [] "ABC"
    /\ "Unknown" = HoldingViews.sectorOf [] "ABC"
    /\ 3%float = HoldingViews.priceOf Examples.hyphenQuotes "ABC"
    /\ 30%float = (10 * 3)%float.
Proof.
  apply (holding_is_identified_by_its_key_cut_at_the_first_hyphen
           Host.getTime Examples.hyphenTransactions [] Examples.hyphenQuotes
           (Some "Open Items") false
           (Holding.mk "ABC" "D" "ABC" "Unknown" "Open Items" 10 100 100 10
              3 30 (-70) 0 0 0 (-70) 0 0 (-100))).
  vm_compute. left. reflexivity.
Defined.

(** X15. In every result, each current holding (of an account and at
    the top level) has the status "Open Items" and a quantity above
    0.0001 in absolute value; each closed position has as status one of
    the six closed statuses of the transactions, no unrealized gain, and a
    total return equal to its realized gain. *)
Theorem run_holdings_are_open_items_and_closed_positions_are_closed
    (getTime : string -> option Z) (toISODate : Z -> string)
    (stackOf : string -> string) (notAFunction : string)
    (parseTransactions : string -> list Transaction.t)
    (parseSymbols : string -> list Symbol.t)
    (parseQuotes : string -> list Quote.t) (LogState : Type)
    (logFunction : string -> LogState -> LogState)
    (transactionsText symbolsText quotesText selectedAccount : string)
    (log0 : LogState) :
  let data :=
    fst (Processor.processPortfolioData getTime toISODate stackOf
           notAFunction parseTransactions parseSymbols parseQuotes LogState
           logFunction transactionsText symbolsText quotesText
           selectedAccount log0) in
  Forall (fun account =>
            Forall HoldingViews.current (AccountData.currentHoldings account)
            /\ Forall HoldingViews.closed
                 (AccountData.closedPositions account))
    (PortfolioData.accounts data)
  /\ Forall HoldingViews.current (PortfolioData.currentHoldings data)
  /\ Forall HoldingViews.closed (PortfolioData.closedPositions data).
Proof.
  intros data. unfold data.
  destruct (AccountsFacts.process_shape getTime toISODate stackOf
              notAFunction parseTransactions parseSymbols parseQuotes
              LogState logFunction transactionsText symbolsText quotesText
              selectedAccount log0) as [-> | (m & G & ->)];
    [repeat split; constructor|].
  assert (F : Forall
                (fun account =>
                   Forall HoldingViews.current
                     (AccountData.currentHoldings account)
                   /\ Forall HoldingViews.closed
                        (AccountData.closedPositions account))
                (map (PipelineViews.accountOf getTime toISODate parseSymbols
                        parseQuotes symbolsText quotesText m)
                   (JSStr.sort (JSMap.keys m)))).
  { apply Forall_map, Forall_forall. intros name _.
    apply HoldingViewsFacts.account_holdings. }
  split.
  - rewrite PipelineFacts.portfolioOf_accounts. exact F.
  - now apply HoldingViewsFacts.portfolioOf_holdings.
Qed.

(** ** Dates *)

(** X16. Standardizing a date twice gives what standardizing it once
    gives, on a host that reads the date it printed as a time of the same
    day: a text that cannot be read stays as it is, and a text that can
    becomes the ISO date, which reads as itself. *)
Theorem standardizeDate_is_idempotent
    (getTime : string -> option Z) (toISODate : Z -> string)
    (dateStr : string) :
  (forall ms,
     Processor.standardizeDate getTime toISODate dateStr = toISODate ms ->
     exists ms', getTime (toISODate ms) = Some ms'
                 /\ toISODate ms' = toISODate ms) ->
  Processor.standardizeDate getTime toISODate
    (Processor.standardizeDate getTime toISODate dateStr)
  = Processor.standardizeDate getTime toISODate dateStr.
Proof.
  intros H.
  destruct (DateFacts.standardizeDate_cases getTime toISODate dateStr)
    as [[E _]|[ms E]].
  - now rewrite E.
  - destruct (H ms E) as (ms' & P & Q). rewrite E.
    unfold Processor.standardizeDate at 1. now rewrite P.
Qed.

Lemma standardizeDate_witness :
  Processor.standardizeDate Host.getTime Host.toISODate "1/2/2024"
  = "2024-01-02"
  /\ Processor.standardizeDate Host.getTime Host.toISODate
       (Processor.standardizeDate Host.getTime Host.toISODate "1/2/2024")
     = Processor.standardizeDate Host.getTime Host.toISODate "1/2/2024".
Proof.
  split; [vm_compute; reflexivity|].
  apply (standardizeDate_is_idempotent Host.getTime Host.toISODate
           "1/2/2024").
  intros ms E.
  replace (Processor.standardizeDate Host.getTime Host.toISODate "1/2/2024")
    with "2024-01-02" in E by (vm_compute; reflexivity).
  rewrite <- E. exists 1704153600000%Z. split; vm_compute; reflexivity.
Defined.

(** ** Open Deposits and the measure that sums them *)

(** X17. Every row of the Open Deposits table has a quantity above
    0.0001 in absolute value and a price that is neither zero nor NaN;
    its value is the quantity times the price, its unrealized gain the
    value less the cost, its average cost the cost divided by the
    quantity, and its gain percentage is 0 when the cost is zero. *)
Theorem open_deposit_rows_are_priced_and_valued
    (getTime : string -> option Z) (data : PortfolioData.t)
    (selectedAccount : string) (rows : list Components.DepositHolding)
    (row : Components.DepositHolding) :
  Components.openDeposits getTime data selectedAccount = Some rows ->
  In row rows ->
  gt (PrimFloat.abs (Components.dQuantity row)) EPS = true
  /\ seq (Components.dPrice row) 0%float = false
  /\ PrimFloat.is_nan (Components.dPrice row) = false
  /\ Components.dValue row
     = (Components.dQuantity row * Components.dPrice row)%float
  /\ Components.dUnrealizedGain row
     = (Components.dValue row - Components.dCost row)%float
  /\ Components.dAvgCost row
     = (Components.dCost row / Components.dQuantity row)%float
  /\ Components.dUnrealizedGainPct row
     = if seq (Components.dCost row) 0%float then 0%float
       else ((Components.dUnrealizedGain row
              / PrimFloat.abs (Components.dCost row)) * 100)%float.
Proof.
  intros E I.
  destruct (DepositRowFacts.openDeposits_row getTime data selectedAccount
              rows row E I) as ([k g] & _ & P).
  unfold Components.processDepositGroup in P. cbn [fst snd] in P.
  destruct g as [|first rest]; [discriminate P|].
  pose proof (DepositRowFacts.depositPrice_usable getTime data
                (Transaction.Symbol first) (Transaction.Net_Price first))
    as U.
  cbv zeta in U.
  destruct (Components.depositPrice getTime data (Transaction.Symbol first)
              (Transaction.Net_Price first)) as [price source].
  cbn [fst] in U.
  destruct (gt (PrimFloat.abs (Processor.quantityOf (first :: rest))) EPS)
    eqn:G; [|discriminate P].
  injection P as <-.
  cbn [Components.dQuantity Components.dPrice Components.dValue
       Components.dUnrealizedGain Components.dCost Components.dAvgCost
       Components.dUnrealizedGainPct].
  split; [exact G|]. split; [exact (proj1 U)|]. split; [exact (proj2 U)|].
  split; [reflexivity|]. split; [reflexivity|]. split.
  - pose proof (DepositRowFacts.abs_gt_nonzero _ G) as Z.
    unfold seq in Z. unfold sne. now rewrite Z.
  - unfold sne, seq.
    now destruct (PrimFloat.eqb
                    (Processor.costChangeSumOf (first :: rest)
                     + Processor.cumulativeRealizedReturnOf (first :: rest))
                    0%float).
Qed.

Lemma open_deposit_rows_witness :
  Components.openDeposits Host.getTime Examples.billData "all"
  = Some [Components.mkDepositHolding "TBILL@2025" "" "A" 10 95 95
            "transaction Net Price" 950 950 0 0 0]
  /\ gt (PrimFloat.abs 10) EPS = true
  /\ seq 95 0 = false.
Proof.
  split; [vm_compute; reflexivity|].
  destruct (open_deposit_rows_are_priced_and_valued Host.getTime
              Examples.billData "all"
              [Components.mkDepositHolding "TBILL@2025" "" "A" 10 95 95
                 "transaction Net Price" 950 950 0 0 0]
              (Components.mkDepositHolding "TBILL@2025" "" "A" 10 95 95
                 "transaction Net Price" 950 950 0 0 0))
    as (Q & P & _).
  - vm_compute. reflexivity.
  - left. reflexivity.
  - split; [exact Q|exact P].
Defined.

(** X18. When the latest-quote index has a positive close for the
    symbol of every selected "Open Deposits" transaction, the "Fixed
    Income Value" measure is the sum of the values of the rows of the Open
    Deposits table. *)
Theorem fixed_income_value_is_the_sum_of_the_open_deposit_rows
    (getTime : string -> option Z) (data : PortfolioData.t)
    (selectedAccount : string) :
  (forall tr,
     In tr (PortfolioData.transactions data) ->
     Transaction.Status_Tr tr = "Open Deposits" ->
     Components.inAccount selectedAccount tr = true ->
     Measures.quotedPositive data (Transaction.Symbol tr)) ->
  exists rows,
    Components.openDeposits getTime data selectedAccount = Some rows
    /\ Measures.fixedIncomeValue getTime data selectedAccount
       = Some (Measures.depositsValue rows).
Proof.
  intros H. unfold Components.openDeposits, Measures.fixedIncomeValue.
  apply DepositRowFacts.measure_sums_rows.
  intros [k g] I. apply JSArrFacts.In_groupBy in I. destruct I as [-> N].
  cbn [snd].
  destruct (JSArr.groupOf Components.depositKey _ k) as [|first rest] eqn:E;
    [contradiction|].
  exists first, rest. split; [reflexivity|].
  assert (I : In first
                (JSArr.groupOf Components.depositKey
                   (filter
                      (fun tr =>
                         (Transaction.Status_Tr tr =? "Open Deposits")
                         && Components.inAccount selectedAccount tr)
                      (PortfolioData.transactions data)) k))
    by (rewrite E; now left).
  apply filter_In in I. destruct I as [I _].
  apply filter_In in I. destruct I as [I C].
  apply andb_prop in C. destruct C as [S A].
  apply String.eqb_eq in S. now apply H.
Qed.

Lemma fixed_income_value_witness :
  exists rows,
    Components.openDeposits Host.getTime Examples.quotedBillData "all"
    = Some rows
    /\ Measures.fixedIncomeValue Host.getTime Examples.quotedBillData "all"
       = Some (Measures.depositsValue rows).
Proof.
  apply (fixed_income_value_is_the_sum_of_the_open_deposit_rows Host.getTime
           Examples.quotedBillData "all").
  intros tr [<-|[]] _ _.
  exists (Processor.latestQuotesOf Host.getTime Examples.quotedBillQuotes),
    (Quote.mk "2024-01-01" 97 "TBILL@2025").
  split; [reflexivity|]. split; vm_compute; reflexivity.
Defined.

(** ** Tables that aggregate rows *)

(** X19. For all accounts, the Current Holdings table has rows of
    distinct symbols; the row of a symbol sums the quantities, the
    values, the costs and the unrealized gains of the holdings of that
    symbol, in input order, and computes its average cost and its gain
    percentage from those sums, while its account, price, total cost,
    realized gain and total return are those of the first holding of the
    symbol: they are not summed. *)
Theorem aggregated_holdings_sum_four_fields_and_keep_the_first_holding
    (holdings : list Holding.t) :
  let rows := Components.aggregatedHoldings "all" holdings in
  NoDup (map Holding.Symbol rows)
  /\ forall row,
       In row rows ->
       exists first rest,
         Aggregation.sameKey Holding.Symbol holdings (Holding.Symbol row)
         = first :: rest
         /\ Holding.Quantity row = sumOf Holding.Quantity (first :: rest)
         /\ Holding.Value row = sumOf Holding.Value (first :: rest)
         /\ Holding.Cost row = sumOf Holding.Cost (first :: rest)
         /\ Holding.UnrealizedGain row
            = sumOf Holding.UnrealizedGain (first :: rest)
         /\ Holding.AvgCost row
            = (Holding.Cost row / Holding.Quantity row)%float
         /\ Holding.UnrealizedGainPct row
            = ((Holding.UnrealizedGain row / Holding.Cost row) * 100)%float
         /\ Holding.Account row = Holding.Account first
         /\ Holding.Price row = Holding.Price first
         /\ Holding.TotalCost row = Holding.TotalCost first
         /\ Holding.RealizedGain row = Holding.RealizedGain first
         /\ Holding.TotalReturn row = Holding.TotalReturn first.
Proof.
  intros rows. unfold rows.
  change (Components.aggregatedHoldings "all" holdings)
    with (JSMap.values
            (fold_left
               (Aggregation.step Holding.Symbol
                  CurrentHoldingsTable.emptiedHolding
                  CurrentHoldingsTable.addHolding)
               holdings [])).
  split.
  - rewrite (AggregationFacts.values_keys Holding.Symbol
               CurrentHoldingsTable.emptiedHolding
               CurrentHoldingsTable.addHolding Holding.Symbol);
      [apply AggregationFacts.keys_fold|reflexivity|reflexivity].
  - intros row I.
    destruct (AggregationFacts.In_values _ _ _ _ _ I)
      as (k & first & rest & E & ->).
    assert (K : Holding.Symbol first = k).
    { assert (F : In first (Aggregation.sameKey Holding.Symbol holdings k))
        by (rewrite E; now left).
      apply filter_In in F. destruct F as [_ F]. now apply String.eqb_eq. }
    exists first, rest.
    rewrite (AggregationFacts.fold_kept CurrentHoldingsTable.addHolding
               Holding.Symbol) by reflexivity.
    cbn [CurrentHoldingsTable.emptiedHolding Holding.Symbol].
    rewrite K. split; [exact E|].
    unfold sumOf.
    repeat split;
      try (apply (AggregationFacts.fold_sum CurrentHoldingsTable.addHolding);
           reflexivity);
      try (rewrite (AggregationFacts.fold_kept
                      CurrentHoldingsTable.addHolding) by reflexivity;
           reflexivity);
      try (apply (AggregationFacts.fold_recomputed
                    CurrentHoldingsTable.addHolding Holding.AvgCost
                    (fun r => (Holding.Cost r / Holding.Quantity r)%float));
           [reflexivity|discriminate]);
      try (apply (AggregationFacts.fold_recomputed
                    CurrentHoldingsTable.addHolding Holding.UnrealizedGainPct
                    (fun r => ((Holding.UnrealizedGain r / Holding.Cost r)
                               * 100)%float));
           [reflexivity|discriminate]).
Qed.

(** X20. For all accounts, the Closed Positions table has one row for
    each key "symbol-status" among the positions that pass its filters;
    the row sums the quantities, the costs, the total costs, the realized
    gains and the debits of the positions of its key, in input order
    (a realized gain or a debit read as [x || 0]), and its realized gain
    percentage is 0 when the summed total cost is zero, else the summed
    gain over the absolute summed total cost; its account and its value
    are those of the first position of the key. *)
Theorem closed_positions_rows_sum_by_symbol_and_status
    (matchesSearch : Holding.t -> bool) (closedPositions : list Holding.t)
    (statusFilter : string) :
  let filtered :=
    ClosedPositionsTable.statusFiltered matchesSearch closedPositions "all"
      statusFilter in
  let rows :=
    ClosedPositionsTable.getFilteredPositions matchesSearch closedPositions
      "all" statusFilter in
  NoDup (map ClosedPositionsTable.positionKey rows)
  /\ forall row,
       In row rows ->
       exists first rest,
         Aggregation.sameKey ClosedPositionsTable.positionKey filtered
           (ClosedPositionsTable.positionKey row)
         = first :: rest
         /\ Holding.Quantity row = sumOf Holding.Quantity (first :: rest)
         /\ Holding.Cost row = sumOf Holding.Cost (first :: rest)
         /\ Holding.TotalCost row = sumOf Holding.TotalCost (first :: rest)
         /\ Holding.RealizedGain row
            = sumOf (fun p => orZero (Holding.RealizedGain p)) (first :: rest)
         /\ Holding.Db row
            = sumOf (fun p => orZero (Holding.Db p)) (first :: rest)
         /\ Holding.RealizedGainPct row
            = (if sne (Holding.TotalCost row) 0%float
               then ((Holding.RealizedGain row
                      / PrimFloat.abs (Holding.TotalCost row)) * 100)%float
               else 0%float)
         /\ Holding.Account row = Holding.Account first
         /\ Holding.Value row = Holding.Value first.
Proof.
  intros filtered rows. unfold rows.
  change (ClosedPositionsTable.getFilteredPositions matchesSearch
            closedPositions "all" statusFilter)
    with (JSMap.values
            (fold_left
               (Aggregation.step ClosedPositionsTable.positionKey
                  ClosedPositionsTable.emptiedPosition
                  ClosedPositionsTable.addPosition)
               filtered [])).
  split.
  - rewrite (AggregationFacts.values_keys ClosedPositionsTable.positionKey
               ClosedPositionsTable.emptiedPosition
               ClosedPositionsTable.addPosition
               ClosedPositionsTable.positionKey);
      [apply AggregationFacts.keys_fold|reflexivity|reflexivity].
  - intros row I.
    destruct (AggregationFacts.In_values _ _ _ _ _ I)
      as (k & first & rest & E & ->).
    assert (K : ClosedPositionsTable.positionKey first = k).
    { assert (F : In first
                    (Aggregation.sameKey ClosedPositionsTable.positionKey
                       filtered k))
        by (rewrite E; now left).
      apply filter_In in F. destruct F as [_ F]. now apply String.eqb_eq. }
    exists first, rest.
    rewrite (AggregationFacts.fold_kept ClosedPositionsTable.addPosition
               ClosedPositionsTable.positionKey) by reflexivity.
    change (ClosedPositionsTable.positionKey
              (ClosedPositionsTable.emptiedPosition first))
      with (ClosedPositionsTable.positionKey first).
    rewrite K. split; [exact E|].
    unfold sumOf.
    repeat split;
      try (apply (AggregationFacts.fold_sum ClosedPositionsTable.addPosition);
           reflexivity);
      try (rewrite (AggregationFacts.fold_kept
                      ClosedPositionsTable.addPosition) by reflexivity;
           reflexivity).
    apply (AggregationFacts.fold_recomputed ClosedPositionsTable.addPosition
             Holding.RealizedGainPct
             (fun r =>
                if sne (Holding.TotalCost r) 0%float
                then ((Holding.RealizedGain r
                       / PrimFloat.abs (Holding.TotalCost r)) * 100)%float
                else 0%float));
      [reflexivity|discriminate].
Qed.

(** X21. The counter of the "All" tab of the Closed Positions table is
    at least each of the counters of the three other tabs and at most
    their sum: it counts a symbol once, whatever the number of tabs that
    show it. *)
Theorem closed_positions_all_count_is_between_the_tab_counts
    (closedPositions : list Holding.t) (selectedAccount : string) :
  let counts :=
    ClosedPositionsTable.calculateStatusCounts closedPositions
      selectedAccount in
  (ClosedPositionsTable.ytdCount counts
   <= ClosedPositionsTable.allCount counts)%nat
  /\ (ClosedPositionsTable.pydCount counts
      <= ClosedPositionsTable.allCount counts)%nat
  /\ (ClosedPositionsTable.reCount counts
      <= ClosedPositionsTable.allCount counts)%nat
  /\ (ClosedPositionsTable.allCount counts
      <= ClosedPositionsTable.ytdCount counts
         + ClosedPositionsTable.pydCount counts
         + ClosedPositionsTable.reCount counts)%nat.
Proof.
  intros counts. unfold counts, ClosedPositionsTable.calculateStatusCounts.
  cbn [ClosedPositionsTable.allCount ClosedPositionsTable.ytdCount
       ClosedPositionsTable.pydCount ClosedPositionsTable.reCount].
  repeat split.
  - apply AggregationFacts.setOf_length_le. intros x I.
    apply in_or_app. now left.
  - apply AggregationFacts.setOf_length_le. intros x I.
    apply in_or_app. right. apply in_or_app. now left.
  - apply AggregationFacts.setOf_length_le. intros x I.
    apply in_or_app. right. apply in_or_app. now right.
  - etransitivity; [apply AggregationFacts.setOf_length_app|].
    rewrite <- Nat.add_assoc. apply Nat.add_le_mono_l.
    apply AggregationFacts.setOf_length_app.
Qed.

(** ** The performance chart *)

(** X22. For a selected account, the performance chart drawn from the
    result of the run for that account has no point: the chart keeps the
    points that record a value under the account's name, and the points
    of an account's own series record none (only merged points do). *)
Theorem chart_of_a_selected_account_is_empty
    (getTime : string -> option Z) (toISODate : Z -> string)
    (stackOf : string -> string) (notAFunction : string)
    (parseTransactions : string -> list Transaction.t)
    (parseSymbols : string -> list Symbol.t)
    (parseQuotes : string -> list Quote.t) (LogState : Type)
    (logFunction : string -> LogState -> LogState)
    (transactionsText symbolsText quotesText selectedAccount : string)
    (log0 : LogState) :
  selectedAccount <> "all" ->
  PerformanceChart.chartData getTime
    (PortfolioData.timeSeriesData
       (fst (Processor.processPortfolioData getTime toISODate stackOf
               notAFunction parseTransactions parseSymbols parseQuotes
               LogState logFunction transactionsText symbolsText quotesText
               selectedAccount log0)))
    selectedAccount
  = [].
Proof.
  intros N. apply ChartFacts.chartData_unmerged; [exact N|].
  destruct (AccountsFacts.process_shape getTime toISODate stackOf
              notAFunction parseTransactions parseSymbols parseQuotes
              LogState logFunction transactionsText symbolsText quotesText
              selectedAccount log0) as [-> | (m & G & ->)];
    [intros point []|].
  unfold Processor.portfolioOf.
  destruct (String.eqb_spec selectedAccount "all") as [E|_];
    [contradiction|].
  unfold JSArr.find.
  destruct (find _ _) as [account|] eqn:F; [|intros point []].
  apply find_some in F. destruct F as [I _].
  apply in_map_iff in I. destruct I as (name & <- & _).
  cbn [PortfolioData.timeSeriesData].
  intros point. apply ChartFacts.series_points_unmerged.
Qed.

Lemma chart_of_a_selected_account_witness :
  List.length
    (PortfolioData.timeSeriesData
       (RunExamples.run RunExamples.paddedAccountText "A")) = 1%nat
  /\ PerformanceChart.chartData Host.getTime
       (PortfolioData.timeSeriesData
          (RunExamples.run RunExamples.paddedAccountText "A")) "A"
     = []
  /\ List.length
       (PerformanceChart.chartData Host.getTime
          (PortfolioData.timeSeriesData
             (RunExamples.run RunExamples.paddedAccountText "all")) "A")
     = 1%nat.
Proof.
  split; [vm_compute; reflexivity|]. split; [|vm_compute; reflexivity].
  apply (chart_of_a_selected_account_is_empty Host.getTime Host.toISODate
           Host.stackOf Host.notAFunction RunExamples.parseTransactions
           Examples.parseSymbols Examples.parseQuotes unit
           (fun _ log => log) RunExamples.paddedAccountText "Symbol"
           "Date,Close,Symbol" "A" tt).
  discriminate.
Defined.

(** ** Closed Deposits *)

(** X23. The Closed Deposits table never fails to build its rows.  It
    has a row for the key of every selected "Closed Deposits"
    transaction, whatever the net quantity of the key; and every row is
    that of a key: its status is "Closed Deposits", its sector "Fixed
    Income", its quantity the sum over the transactions of the key, its
    price the net price of the first of them (0 when that is missing or
    zero), its value the quantity times that price, its unrealized gain
    the value less the cost, and its total return the realized gain plus
    the unrealized gain. *)
Theorem closed_deposits_list_every_key_at_its_first_net_price
    (data : PortfolioData.t) (selectedAccount : string) :
  let selected :=
    filter (fun tr => (Transaction.Status_Tr tr =? "Closed Deposits")
                      && Components.inAccount selectedAccount tr)
      (PortfolioData.transactions data) in
  exists rows,
    DepositsTable.closedDepositHoldings data selectedAccount = Some rows
    /\ (forall tr,
          In tr selected ->
          exists row,
            In row rows
            /\ DepositsTable.Quantity row
               = Processor.quantityOf (DepositsTable.groupOfKey selected tr))
    /\ forall row,
         In row rows ->
         exists first rest,
           In first selected
           /\ DepositsTable.groupOfKey selected first = first :: rest
           /\ DepositsTable.Status row = "Closed Deposits"
           /\ DepositsTable.Sector row = "Fixed Income"
           /\ DepositsTable.Quantity row
              = Processor.quantityOf (first :: rest)
           /\ DepositsTable.Price row = orZero (Transaction.Net_Price first)
           /\ DepositsTable.Value row
              = (DepositsTable.Quantity row * DepositsTable.Price row)%float
           /\ DepositsTable.UnrealizedGain row
              = (DepositsTable.Value row - DepositsTable.Cost row)%float
           /\ DepositsTable.TotalReturn row
              = (DepositsTable.RealizedGain row
                 + DepositsTable.UnrealizedGain row)%float.
Proof.
  intros selected. unfold DepositsTable.closedDepositHoldings.
  fold selected.
  destruct (DepositsTableFacts.deposit_rows selected)
    as (rows & E & I).
  exists rows. split; [exact E|]. split.
  - intros tr H.
    assert (N : DepositsTable.groupOfKey selected tr <> [])
      by now apply JSArrFacts.groupOf_nonempty.
    destruct (DepositsTable.groupOfKey selected tr) as [|first rest] eqn:G;
      [contradiction|].
    assert (M : In first (DepositsTable.groupOfKey selected tr))
      by (rewrite G; now left).
    apply filter_In in M. destruct M as [M K]. apply String.eqb_eq in K.
    eexists. split.
    + apply I. exists first, rest. split; [exact M|]. split.
      * unfold DepositsTable.groupOfKey in G |- *. now rewrite K.
      * reflexivity.
    + reflexivity.
  - intros row H. apply I in H.
    destruct H as (first & rest & M & G & F).
    exists first, rest. split; [exact M|]. split; [exact G|].
    injection F as <-.
    cbn [DepositsTable.Status DepositsTable.Sector DepositsTable.Quantity
         DepositsTable.Price DepositsTable.Value DepositsTable.UnrealizedGain
         DepositsTable.Cost DepositsTable.TotalReturn
         DepositsTable.RealizedGain snd].
    repeat split.
    apply filter_In in M. destruct M as [_ M].
    apply andb_prop in M. destruct M as [M _]. now apply String.eqb_eq.
Qed.

(** ** Top and bottom performers *)

(** X24. A performer is a selected current holding whose cost is not
    zero and exceeds 0.01 in absolute value, with its unrealized plus
    realized gain as total return and that return over the absolute cost,
    times 100, as return percentage.  The top list and the bottom list
    each hold the first five of the performers in their order, so
    performers only and at most five; with five performers or fewer, each
    list holds them all. *)
Theorem performers_have_a_cost_and_the_lists_hold_at_most_five
    (data : PortfolioData.t) (selectedAccount : string) :
  let performers := Performers.performersData data selectedAccount in
  let top := Performers.topPerformers data selectedAccount in
  let bottom := Performers.bottomPerformers data selectedAccount in
  (forall p,
     In p performers ->
     In (Performers.holding p)
       (Performers.filteredCurrentHoldings data selectedAccount)
     /\ seq (Holding.Cost (Performers.holding p)) 0%float = false
     /\ gt (PrimFloat.abs (Holding.Cost (Performers.holding p)))
          Performers.CENT = true
     /\ Performers.totalReturn p
        = (Holding.UnrealizedGain (Performers.holding p)
           + Holding.RealizedGain (Performers.holding p))%float
     /\ Performers.returnPct p
        = ((Performers.totalReturn p
            / PrimFloat.abs (Holding.Cost (Performers.holding p)))
           * 100)%float)
  /\ List.length top = Nat.min 5 (List.length performers)
  /\ List.length bottom = Nat.min 5 (List.length performers)
  /\ (forall p, In p top -> In p performers)
  /\ (forall p, In p bottom -> In p performers)
  /\ ((List.length performers <= 5)%nat ->
      Permutation top performers /\ Permutation bottom performers).
Proof.
  intros performers top bottom. split.
  - intros p H. unfold performers, Performers.performersData in H.
    apply in_map_iff in H. destruct H as (h & <- & H).
    apply filter_In in H. destruct H as [H C].
    unfold Performers.hasCost in C. apply andb_prop in C.
    destruct C as [Z G].
    change (Performers.holding (Performers.performerOf h)) with h.
    split; [exact H|]. split.
    + unfold sne in Z. unfold seq.
      now destruct (PrimFloat.eqb (Holding.Cost h) 0%float).
    + split; [exact G|]. split; reflexivity.
  - unfold top, bottom, Performers.topPerformers,
      Performers.bottomPerformers. fold performers.
    split; [|split; [|split; [|split]]].
    + now rewrite length_firstn, JSArrFacts.sortBy_length.
    + now rewrite length_firstn, JSArrFacts.sortBy_length.
    + intros p H. apply SortFacts.In_firstn in H.
      now apply JSArrFacts.sortBy_In in H.
    + intros p H. apply SortFacts.In_firstn in H.
      now apply JSArrFacts.sortBy_In in H.
    + intros L. split.
      * rewrite firstn_all2
          by (rewrite JSArrFacts.sortBy_length; exact L).
        apply SortFacts.sortBy_Permutation.
      * rewrite firstn_all2
          by (rewrite JSArrFacts.sortBy_length; exact L).
        apply SortFacts.sortBy_Permutation.
Qed.

(** ** Allocation *)

(** X25. The sector allocation has one slice for each sector of the
    selected holdings outside "AhlyBank" (a holding without a sector
    counts under "Unknown"); the value of a slice is the sum of the values
    of the holdings of the sector, in input order, starting from the value
    of the first (a value read as [v || 0]), and its percentage is that
    value over the total of all these values, times 100, when the total is
    positive, and 0 otherwise. *)
Theorem sector_allocation_sums_the_values_of_each_sector
    (data : PortfolioData.t) (selectedAccount : string) :
  let holdings :=
    filter (fun h => ((selectedAccount =? "all")
                      || (Holding.Account h =? selectedAccount))
                     && negb (Holding.Account h =? "AhlyBank"))
      (PortfolioData.currentHoldings data) in
  let total := sumOf Allocation.valueOf holdings in
  let slices := Allocation.sectorData data selectedAccount in
  NoDup (map Allocation.name slices)
  /\ (forall h, In h holdings ->
                In (Allocation.sectorOf h) (map Allocation.name slices))
  /\ forall slice,
       In slice slices ->
       exists first rest,
         Aggregation.sameKey Allocation.sectorOf holdings
           (Allocation.name slice)
         = first :: rest
         /\ Allocation.value slice
            = fold_left (fun s h => (s + Allocation.valueOf h)%float) rest
                (Allocation.valueOf first)
         /\ Allocation.percentage slice
            = if gt total 0%float
              then ((Allocation.value slice / total) * 100)%float
              else 0%float.
Proof.
  intros holdings total slices. unfold slices, Allocation.sectorData.
  fold holdings.
  pose proof (AllocationFacts.fold_addToSector holdings) as F.
  cbv zeta in F.
  destruct (fold_left Allocation.addToSector holdings ([], 0%float))
    as [m t].
  cbn [fst snd] in F. destruct F as (N & T & G). fold total in T. subst t.
  assert (Names : forall (entries : JSMap.t number),
            map Allocation.name
              (map (fun entry =>
                      Allocation.mkSlice (fst entry) (snd entry)
                        (if gt total 0%float
                         then ((snd entry / total) * 100)%float
                         else 0%float)) entries)
            = JSMap.keys entries).
  { intros entries. rewrite map_map. reflexivity. }
  split; [|split].
  - apply (Permutation_NoDup
             (l := map Allocation.name
                     (map (fun entry =>
                             Allocation.mkSlice (fst entry) (snd entry)
                               (if gt total 0%float
                                then ((snd entry / total) * 100)%float
                                else 0%float)) m))).
    + apply Permutation_map. symmetry. apply SortFacts.sortBy_Permutation.
    + rewrite Names. exact N.
  - intros h H.
    apply (Permutation_in
             (l := map Allocation.name
                     (map (fun entry =>
                             Allocation.mkSlice (fst entry) (snd entry)
                               (if gt total 0%float
                                then ((snd entry / total) * 100)%float
                                else 0%float)) m))).
    + apply Permutation_map. symmetry. apply SortFacts.sortBy_Permutation.
    + rewrite Names. apply JSMapFacts.has_In_keys. unfold JSMap.has.
      rewrite G.
      assert (I : In h (Aggregation.sameKey Allocation.sectorOf holdings
                          (Allocation.sectorOf h))).
      { apply filter_In. split; [exact H|apply String.eqb_refl]. }
      now destruct (Aggregation.sameKey Allocation.sectorOf holdings
                      (Allocation.sectorOf h)).
  - intros slice H. apply JSArrFacts.sortBy_In in H.
    apply in_map_iff in H. destruct H as ([sector v] & <- & H).
    cbn [fst snd Allocation.name Allocation.value Allocation.percentage].
    apply JSMapFacts.In_get in H; [|exact N]. rewrite G in H.
    destruct (Aggregation.sameKey Allocation.sectorOf holdings sector)
      as [|first rest]; [discriminate H|].
    injection H as <-. exists first, rest. repeat split.
Qed.
